(** * ckanext-ottawa: the GIS import script [gis_import.py]

    A shallow embedding of [src/ckanext/ottawa/gis_import.py] and the
    properties of its staleness check, acquisition, publication and
    orchestration code.

    The script talks to three outside parties: the GIS file server (HTTP
    HEAD and GET through [requests]), the CKAN repository (through
    [ckanapi]) and the local file system (staging files and the archive).
    Every function of the script becomes a function in the monad [M]
    below: a state monad over a [world] (the trace of outside calls and log
    lines, the local files, the number of clock readings) that can raise a
    Python exception.  The outside parties are an [environment] record,
    a variable of the section, so every theorem holds for every server,
    every repository and every clock. *)

From Stdlib Require Import ZArith Ascii String.
From stdpp Require Import base option list strings pretty gmap fin_maps sets.

Set Warnings "-register-all".

(** ** Strings *)

Module Str.

(** [s.lower()] on the ASCII range: the letters A to Z are mapped to a to
    z, every other byte is kept.  This is [lower()] on a Python 2 byte
    string in the C locale, and on a unicode object it is [lower()] for the
    strings that [is_ascii] accepts.  On a unicode object Python also
    lower-cases the letters outside ASCII, from the Unicode tables of the
    interpreter, which are not modelled: [lower] is exact for ASCII
    strings, and for the comparison of the result with the word [shp],
    which no letter outside ASCII is lower-cased to. *)
Definition lower_ascii (c : ascii) : ascii :=
  let n := nat_of_ascii c in
  if ((65 <=? n)%nat && (n <=? 90)%nat)%bool then ascii_of_nat (n + 32) else c.

Fixpoint lower (s : string) : string :=
  match s with
  | EmptyString => EmptyString
  | String c s' => String (lower_ascii c) (lower s')
  end.

(** Every character of [s] is an ASCII character (below 128). *)
Fixpoint is_ascii (s : string) : bool :=
  match s with
  | EmptyString => true
  | String c s' => ((nat_of_ascii c <? 128)%nat && is_ascii s')%bool
  end.

Definition is_slash (c : ascii) : bool := Ascii.eqb c "/"%char.

(** ['/' in s] *)
Fixpoint has_slash (s : string) : bool :=
  match s with
  | EmptyString => false
  | String c s' => (is_slash c || has_slash s')%bool
  end.

(** [s.startswith('/')] and [s.endswith('/')] *)
Definition starts_with_slash (s : string) : bool :=
  match s with
  | String c _ => is_slash c
  | EmptyString => false
  end.

Fixpoint ends_with_slash (s : string) : bool :=
  match s with
  | EmptyString => false
  | String c EmptyString => is_slash c
  | String _ s' => ends_with_slash s'
  end.

(** [t.startswith(s)] *)
Fixpoint is_prefix (s t : string) : bool :=
  match s, t with
  | EmptyString, _ => true
  | String a s', String b t' => (Ascii.eqb a b && is_prefix s' t')%bool
  | String _ _, EmptyString => false
  end.

(** [os.path.basename(p)]: what follows the last slash. *)
Fixpoint basename (p : string) : string :=
  match p with
  | EmptyString => EmptyString
  | String c p' =>
      if has_slash p' then basename p'
      else if is_slash c then p' else p
  end.

(** [os.path.dirname(p)] without the special case of a path made of
    slashes only: what precedes the last slash. *)
Fixpoint dirname (p : string) : string :=
  match p with
  | EmptyString => EmptyString
  | String c p' =>
      if has_slash p' then String c (dirname p') else EmptyString
  end.

(** [posixpath.join(a, b)] for two components. *)
Definition path_join (a b : string) : string :=
  if starts_with_slash b then b
  else if (String.eqb a "" || ends_with_slash a)%bool then a +:+ b
  else a +:+ "/" +:+ b.

End Str.

(** ** Data *)

(** A file's content: raw bytes, or a zip archive given by its entries
    (archive name, content) in the order they were written. *)
Inductive fcontent : Type :=
  | FBytes (bytes : string)
  | FZip (entries : list (string * fcontent)).

(** The values of a resource dictionary: what CKAN's JSON holds, and the
    [(filename, file_object)] pair stored under ['upload']. *)
Inductive pyval : Type :=
  | PNone
  | PBool (b : bool)
  | PNum (n : Z)
  | PStr (s : string)
  | PUpload (filename : string) (file_object : fcontent).

(** Python truthiness. *)
Definition truthy (v : pyval) : bool :=
  match v with
  | PNone => false
  | PBool b => b
  | PNum n => negb (n =? 0)%Z
  | PStr s => negb (String.eqb s "")
  | PUpload _ _ => true
  end.

(** The mapping file: dataset name to format name to a path, or for the
    bundle format to a nested mapping of sub-format to path.  A mapping is
    an association list: the order of the list is the order in which the
    Python dictionary is iterated, and a key is looked up by its first
    occurrence (a dictionary has each key once). *)
Inductive yaml : Type :=
  | YNull
  | YStr (s : string)
  | YMap (items : list (string * yaml)).

Definition yaml_truthy (y : yaml) : bool :=
  match y with
  | YNull => false
  | YStr s => negb (String.eqb s "")
  | YMap [] => false
  | YMap (_ :: _) => true
  end.

Fixpoint assoc {A : Type} (k : string) (d : list (string * A)) : option A :=
  match d with
  | [] => None
  | (k', v) :: d' => if String.eqb k k' then Some v else assoc k d'
  end.

(** A datetime: the wall-clock reading (microseconds on the calendar's own
    scale, so that the order of readings is the order of the
    year-to-microsecond tuples) and the UTC offset when it is aware. *)
Record datetime : Type := mk_datetime {
  wall : Z;
  tzinfo : option Z
}.

(** [d.replace(tzinfo=None)] *)
Definition replace_tzinfo_None (d : datetime) : datetime :=
  {| wall := wall d; tzinfo := None |}.

Inductive exn : Type :=
  | KeyError (key : string)
  | AttributeError
  | TypeError
  | ValueError
  | IndexError
  | UnboundLocalError (var : string)
  | IOError (path : string)
  | OSError (path : string)
  | RequestException
  | NotFound (message : string)
  | CKANAPIError (message : string)
  | OtherError.

Inductive result (A : Type) : Type :=
  | Ok (a : A)
  | Raise (e : exn).
Arguments Ok {A} a.
Arguments Raise {A} e.

(** [a > b] on datetimes: two naive readings compare by wall clock, two
    aware ones by instant, and a naive one against an aware one raises
    [TypeError]. *)
Definition datetime_gt (a b : datetime) : result bool :=
  match tzinfo a, tzinfo b with
  | None, None => Ok (wall b <? wall a)%Z
  | Some oa, Some ob => Ok (wall b - ob <? wall a - oa)%Z
  | _, _ => Raise TypeError
  end.

(** A [requests] response. Header names are kept in lower case, as the
    case-insensitive dictionary of [requests] compares them. *)
Record response : Type := mk_response {
  status_code : Z;
  headers : gmap string string;
  content : string
}.

(** What [package_show] returns, as far as the script reads it. *)
Record package : Type := mk_package {
  pkg_id : pyval;
  pkg_name : pyval;
  pkg_resources : list (gmap string pyval)
}.

Inductive level : Type := INFO | WARNING | ERROR.

(** What the script does to the outside, in order. *)
Inductive event : Type :=
  | EvLog (lvl : level) (msg : string)
  | EvHead (url : string)
  | EvGet (url : string)
  | EvPackageShow (id : string)
  | EvResourceCreate (args : gmap string pyval)
  | EvResourceUpdate (resource : gmap string pyval).

(** The local machine and the history of the run. *)
Record world : Type := mk_world {
  w_trace : list event;
  w_files : gmap string fcontent;
  w_dirs : gset string;
  w_ticks : nat
}.

(** The outside parties.  Servers answer as a function of the request and
    of everything that happened before it. *)
Record environment : Type := mk_environment {
  requests_head : list event -> string -> result response;
  requests_get : list event -> string -> result response;
  package_show : list event -> string -> result package;
  resource_create : list event -> gmap string pyval -> result (gmap string pyval);
  resource_update : list event -> gmap string pyval -> result unit;
  (** the n-th reading of [datetime.now()], a naive local time *)
  clock : nat -> Z;
  (** [dateutil.parser.parse] *)
  parse : pyval -> result datetime;
  (** [d.strftime("%Y-%m-%dT%H:%M:%S.%f")] and [d.isoformat()] *)
  strftime : datetime -> string;
  isoformat : datetime -> string;
  (** [str()] of the values that are not strings, None, booleans or
      integers *)
  repr_upload : string -> fcontent -> string;
  repr_dict : list (string * yaml) -> string
}.

(** The command line. *)
Record options : Type := mk_options {
  base_import_url : string;
  single_dataset : option string;
  force : bool;
  debug : bool
}.

(** ** The monad *)

Definition M (A : Type) : Type := world -> result A * world.

Global Instance M_ret : MRet M := fun A a w => (Ok a, w).

Global Instance M_bind : MBind M := fun A B f m w =>
  match m w with
  | (Ok a, w') => f a w'
  | (Raise e, w') => (Raise e, w')
  end.

Definition raise {A : Type} (e : exn) : M A := fun w => (Raise e, w).

Definition lift {A : Type} (r : result A) : M A := fun w => (r, w).

(** [try: m except <the exceptions h accepts>: h e] *)
Definition try_except {A : Type} (m : M A) (h : exn -> option (M A)) : M A :=
  fun w =>
    match m w with
    | (Ok a, w') => (Ok a, w')
    | (Raise e, w') =>
        match h e with
        | Some k => k w'
        | None => (Raise e, w')
        end
    end.

(** [for x in l: body x] *)
Fixpoint for_each {A : Type} (l : list A) (body : A -> M unit) : M unit :=
  match l with
  | [] => mret tt
  | x :: l' => body x ;; for_each l' body
  end.

Definition w_emit (e : event) (w : world) : world :=
  {| w_trace := w_trace w ++ [e]; w_files := w_files w;
     w_dirs := w_dirs w; w_ticks := w_ticks w |}.

Definition emit (e : event) : M unit := fun w => (Ok tt, w_emit e w).

(** A call to an outside party: the answer depends on the history before
    the call, and the call is recorded. *)
Definition call {A : Type} (e : event) (answer : list event -> result A) : M A :=
  fun w => (answer (w_trace w), w_emit e w).

(** ** The script *)

Section gis_import.

Variable env : environment.
Variable arguments : options.

Abbreviation base_import_url := (base_import_url arguments).
Abbreviation force := (force arguments).
Abbreviation debug := (debug arguments).

(** *** Python primitives *)

(** [d[k]] on a resource dictionary. *)
Definition getitem (d : gmap string pyval) (k : string) : M pyval :=
  match d !! k with
  | Some v => mret v
  | None => raise (KeyError k)
  end.

(** [m[k]] on a value of the mapping file. *)
Definition yaml_getitem (m : yaml) (k : string) : M yaml :=
  match m with
  | YMap items =>
      match assoc k items with
      | Some v => mret v
      | None => raise (KeyError k)
      end
  | YStr _ | YNull => raise TypeError
  end.

(** [v.lower()] *)
Definition py_lower (v : pyval) : M string :=
  match v with
  | PStr s => mret (Str.lower s)
  | _ => raise AttributeError
  end.

(** [str(v)], as [format] applies it to its arguments. *)
Definition py_str (v : pyval) : string :=
  match v with
  | PStr s => s
  | PNone => "None"
  | PBool true => "True"
  | PBool false => "False"
  | PNum n => pretty n
  | PUpload f c => repr_upload env f c
  end.

Definition yaml_str (y : yaml) : string :=
  match y with
  | YStr s => s
  | YNull => "None"
  | YMap items => repr_dict env items
  end.

(** [v + suffix] with a string literal on the right. *)
Definition py_add_str (v : pyval) (suffix : string) : M string :=
  match v with
  | PStr s => mret (s +:+ suffix)
  | _ => raise TypeError
  end.

(** [prefix + y] with a string on the left. *)
Definition str_add_yaml (prefix : string) (y : yaml) : M string :=
  match y with
  | YStr s => mret (prefix +:+ s)
  | _ => raise TypeError
  end.

(** [for k in y]: the keys of a mapping, the characters of a string. *)
Fixpoint characters (s : string) : list string :=
  match s with
  | EmptyString => []
  | String c s' => String c EmptyString :: characters s'
  end.

Definition iter_keys (y : yaml) : M (list string) :=
  match y with
  | YMap items => mret (map fst items)
  | YStr s => mret (characters s)
  | YNull => raise TypeError
  end.

(** [y.iteritems()] *)
Definition iteritems (y : yaml) : M (list (string * yaml)) :=
  match y with
  | YMap items => mret items
  | _ => raise AttributeError
  end.

(** [datetime.now()] *)
Definition now : M datetime := fun w =>
  (Ok {| wall := clock env (w_ticks w); tzinfo := None |},
   {| w_trace := w_trace w; w_files := w_files w; w_dirs := w_dirs w;
      w_ticks := S (w_ticks w) |}).

Definition logging (lvl : level) (msg : string) : M unit := emit (EvLog lvl msg).

(** *** The file system

    Files are keyed by their path as a string and directories are a set of
    paths; two paths are the same file when they are the same string. *)

(** [os.path.exists(p)] *)
Definition path_exists (p : string) : M bool := fun w =>
  (Ok (bool_decide (p ∈ w_dirs w) || bool_decide (is_Some (w_files w !! p))), w).

(** The directories above [p], nearest first. *)
Fixpoint parents (fuel : nat) (p : string) : list string :=
  match fuel with
  | O => []
  | S fuel' =>
      let d := Str.dirname p in
      if String.eqb d "" then [] else d :: parents fuel' d
  end.

(** [os.makedirs(p)]: the directory and the missing ones above it are
    created; it fails when the path exists or when one of the paths above
    it is a file. *)
Definition makedirs (p : string) : M unit := fun w =>
  if bool_decide (p ∈ w_dirs w) || bool_decide (is_Some (w_files w !! p))
     || existsb (fun d => bool_decide (is_Some (w_files w !! d)))
          (parents (String.length p) p)
  then (Raise (OSError p), w)
  else (Ok tt,
        {| w_trace := w_trace w; w_files := w_files w;
           w_dirs := list_to_set (p :: parents (String.length p) p) ∪ w_dirs w;
           w_ticks := w_ticks w |}).

(** [open(p, 'w')] followed by the writes and the close: the file is
    created in an existing directory, or replaced. *)
Definition write_file (p : string) (c : fcontent) : M unit := fun w =>
  if (String.eqb (Str.dirname p) "" || bool_decide (Str.dirname p ∈ w_dirs w))
     && negb (bool_decide (p ∈ w_dirs w))
  then (Ok tt,
        {| w_trace := w_trace w; w_files := <[p := c]> (w_files w);
           w_dirs := w_dirs w; w_ticks := w_ticks w |})
  else (Raise (IOError p), w).

(** [open(p)] and what is read from it. *)
Definition read_file (p : string) : M fcontent := fun w =>
  match w_files w !! p with
  | Some c => (Ok c, w)
  | None => (Raise (IOError p), w)
  end.

(** The double loop over [os.walk(top)]: every file below [top], in [top]
    itself or in a directory below it, with its base name for the archive.
    [os.path.join(root, file)] is the file's own path. The files come in
    the order of the map's listing, as [os.listdir] has an order of its
    own. *)
Definition below (top : string) (file : string * fcontent) : Prop :=
  Str.is_prefix (top +:+ "/") file.1 = true.

Global Instance below_dec (top : string) (file : string * fcontent) :
  Decision (below top file).
Proof. unfold below. apply _. Defined.

Definition archive_entries (top : string) (files : gmap string fcontent) :
    list (string * fcontent) :=
  map (fun file => (Str.basename file.1, file.2))
    (map_to_list (filter (below top) files)).

Definition walk_files (top : string) : M (list (string * fcontent)) := fun w =>
  (Ok (archive_entries top (w_files w)), w).

(** *** Lines 49 to 64 *)

Definition download_temp_file (resource_path file_name : string) : M bool :=
  r ← call (EvGet resource_path) (fun h => requests_get env h resource_path);
  if (status_code r =? 200)%Z then
    content_type ← match headers r !! "content-type" with
                   | Some v => mret v
                   | None => raise (KeyError "content-type")
                   end;
    if String.eqb content_type "text/xml" then
      write_file file_name (FBytes (content r));;
      mret true
    else
      write_file file_name (FBytes (content r));;
      mret true
  else
    mret false.

(** *** Lines 66 to 76

    The function changes the dictionary it is given in place, and that
    dictionary is the one in the package's list.  Nothing reads it again:
    the formats of the list were lower-cased before the loop, the two keys
    that are set are not read by the selection of lines 172 to 175, and a
    resource is selected for one format of the mapping only.  The changed
    dictionary therefore lives in the call to [resource_update] alone. *)

Definition upload_file_to_resource (resource : gmap string pyval)
    (file_object : fcontent) : M unit :=
  name ← getitem resource "name";
  format ← getitem resource "format";
  let filename := py_str name +:+ "." +:+ py_str format in
  format' ← getitem resource "format";
  lowered ← py_lower format';
  filename ← (if String.eqb lowered "shp" then
                name ← getitem resource "name";
                format ← getitem resource "format";
                mret (py_str name +:+ "." +:+ py_str format +:+ ".zip")
              else mret filename);
  let resource := <["upload" := PUpload filename file_object]> resource in
  t ← now;
  let resource := <["last_modified" := PStr (strftime env t)]> resource in
  try_except
    (call (EvResourceUpdate resource) (fun h => resource_update env h resource))
    (fun e => match e with
              | CKANAPIError message | NotFound message =>
                  Some (logging ERROR message)
              | _ => None
              end).

(** *** Lines 78 to 97 *)

(** The body of the loop of lines 83 to 87. The answer of
    [download_temp_file] is dropped. *)
Definition stage_sub_file (resource : gmap string pyval)
    (shape_destination_dir : string) (item : string * yaml) : M unit :=
  let '(shape_format, shape_location) := item in
  resource_location ← str_add_yaml base_import_url shape_location;
  name ← getitem resource "name";
  let file_name := py_str name +:+ "." +:+ shape_format in
  let download_location := Str.path_join shape_destination_dir file_name in
  download_temp_file resource_location download_location;;
  mret tt.

Definition import_shapefile (resource : gmap string pyval) (mapping : yaml) : M unit :=
  name ← getitem resource "name";
  suffixed ← py_add_str name "_shp";
  let shape_destination_dir := Str.path_join "temp_data" suffixed in
  present ← path_exists shape_destination_dir;
  (if negb present then makedirs shape_destination_dir else mret tt);;
  shp ← yaml_getitem mapping "shp";
  items ← iteritems shp;
  for_each items (stage_sub_file resource shape_destination_dir);;
  name ← getitem resource "name";
  suffixed ← py_add_str name ".shp.zip";
  let zip_filename := Str.path_join "temp_data" suffixed in
  write_file zip_filename (FZip []);;
  entries ← walk_files shape_destination_dir;
  write_file zip_filename (FZip entries);;
  file_object ← read_file zip_filename;
  upload_file_to_resource resource file_object.

(** *** Lines 100 to 108 *)

Definition get_import_url (resource : gmap string pyval) (mapping : yaml) : M string :=
  format ← getitem resource "format";
  lowered ← py_lower format;
  afile ← yaml_getitem mapping lowered;
  format ← getitem resource "format";
  lowered ← py_lower format;
  afile ← (if String.eqb lowered "shp" then
             format ← getitem resource "format";
             lowered ← py_lower format;
             bundle ← yaml_getitem mapping lowered;
             yaml_getitem bundle "shp"
           else mret afile);
  mret (base_import_url +:+ yaml_str afile).

(** *** Lines 110 to 122

    The local [date_modified] is bound only when the body of the [try]
    completes; after the handler of [KeyError] it is still unbound, and
    reading it raises [UnboundLocalError]. *)

Definition get_import_file_date (import_file : string) : M (option datetime) :=
  head ← call (EvHead import_file) (fun h => requests_head env h import_file);
  if (status_code head =? 404)%Z then
    logging WARNING ("Resource is missing: " +:+ import_file);;
    mret None
  else
    date_modified ← try_except
      (last_modified ← match headers head !! "last-modified" with
                       | Some v => mret v
                       | None => raise (KeyError "last-modified")
                       end;
       parsed ← lift (parse env (PStr last_modified));
       mret (Some (replace_tzinfo_None parsed)))
      (fun e => match e with
                | KeyError _ =>
                    Some (logging ERROR
                            ("Could not determine last modified date of "
                               +:+ import_file);;
                          mret None)
                | _ => None
                end);
    match date_modified with
    | Some d => mret (Some d)
    | None => raise (UnboundLocalError "date_modified")
    end.

(** *** Lines 124 to 141 *)

Definition out_of_date (resource : gmap string pyval) (import_file : string) : M bool :=
  date_modified ← get_import_file_date import_file;
  match date_modified with
  | None => mret false
  | Some date_modified =>
      last_modified ← getitem resource "last_modified";
      resource_modified ←
        (if truthy last_modified then
           last_modified ← getitem resource "last_modified";
           parsed ← lift (parse env last_modified);
           mret (replace_tzinfo_None parsed)
         else
           created ← getitem resource "created";
           if truthy created then
             created ← getitem resource "created";
             parsed ← lift (parse env created);
             mret (replace_tzinfo_None parsed)
           else now);
      newer ← lift (datetime_gt date_modified resource_modified);
      if newer || force then mret true else mret false
  end.

(** *** Lines 143 to 152 *)

Definition perform_import (resource : gmap string pyval) (mapping : yaml) : M unit :=
  name ← getitem resource "name";
  format ← getitem resource "format";
  logging INFO ("updating resource " +:+ py_str name +:+ ":" +:+ py_str format);;
  format ← getitem resource "format";
  lowered ← py_lower format;
  if String.eqb lowered "shp" then
    import_shapefile resource mapping
  else
    url ← get_import_url resource mapping;
    f ← call (EvGet url) (fun h => requests_get env h url);
    upload_file_to_resource resource (FBytes (content f)).

(** *** Lines 154 to 182 *)

(** [[f x for x in l]] and [[x for x in l if f x]] *)
Fixpoint map_M {A B : Type} (f : A -> M B) (l : list A) : M (list B) :=
  match l with
  | [] => mret []
  | x :: l' => y ← f x; ys ← map_M f l'; mret (y :: ys)
  end.

Fixpoint filter_M {A : Type} (f : A -> M bool) (l : list A) : M (list A) :=
  match l with
  | [] => mret []
  | x :: l' => b ← f x; xs ← filter_M f l'; mret (if (b : bool) then x :: xs else xs)
  end.

(** [res['format'].lower()] *)
Definition lowered_format (res : gmap string pyval) : M string :=
  format ← getitem res "format";
  py_lower format.

(** [x in l] on a list of strings *)
Definition py_in (x : string) (l : list string) : bool := existsb (String.eqb x) l.

(** The keyword arguments of the placeholder's [resource_create]. *)
Definition placeholder_args (package : package) (resource_format : string)
    (t : datetime) : gmap string pyval :=
  <["package_id" := pkg_id package]>
  (<["url" := PStr "http://example.com"]>
  (<["format" := PStr resource_format]>
  (<["last_modified" := PStr (isoformat env t)]>
  (<["name" := PStr (py_str (pkg_name package) +:+ ":" +:+ resource_format)]> ∅)))).

(** Lines 163 to 175: the resource of one mapped format. *)
Definition main_job_resource (package : package) (existing_formats : list string)
    (resource_format : string) : M (gmap string pyval) :=
  if negb (py_in resource_format existing_formats) then
    t ← now;
    let args := placeholder_args package resource_format t in
    call (EvResourceCreate args) (fun h => resource_create env h args)
  else
    matching ← filter_M (fun res =>
                  lowered ← lowered_format res;
                  mret (String.eqb lowered resource_format))
                (pkg_resources package);
    match matching with
    | resource :: _ => mret resource
    | [] => raise IndexError
    end.

(** Lines 177 to 182: what is done with that resource. *)
Definition main_job_sync (resource : gmap string pyval) (resources_mapping : yaml) : M unit :=
  import_file ← get_import_url resource resources_mapping;
  stale ← out_of_date resource import_file;
  if (stale : bool) then
    if debug then
      url ← getitem resource "url";
      logging INFO ("Would refresh " +:+ py_str url)
    else
      perform_import resource resources_mapping
  else mret tt.

(** The body of the loop of [main_job]. *)
Definition main_job_body (package : package) (existing_formats : list string)
    (resources_mapping : yaml) (resource_format : string) : M unit :=
  resource ← main_job_resource package existing_formats resource_format;
  main_job_sync resource resources_mapping.

(** Lines 161 to 182: the formats of a package that was found. *)
Definition main_job_formats (package : package) (resources_mapping : yaml) : M unit :=
  existing_formats ← map_M lowered_format (pkg_resources package);
  formats ← iter_keys resources_mapping;
  for_each formats (main_job_body package existing_formats resources_mapping).

Definition main_job (dataset : string) (resources_mapping : yaml) : M unit :=
  found ← try_except
    (package ← call (EvPackageShow dataset) (fun h => package_show env h dataset);
     mret (Some package))
    (fun e => match e with
              | NotFound _ =>
                  Some (logging ERROR ("dataset not found: " +:+ dataset);;
                        mret None)
              | _ => None
              end);
  match found with
  | None => mret tt
  | Some package => main_job_formats package resources_mapping
  end.

(** *** Lines 184 to 189, the top level of the script *)

Definition all_datasets (mapping : yaml) : M unit :=
  items ← iteritems mapping;
  for_each items (fun '(dataset, resources_mapping) =>
    main_job dataset resources_mapping).

Definition driver (mapping : yaml) : M unit :=
  match single_dataset arguments with
  | Some dataset =>
      if negb (String.eqb dataset "") then
        entry ← yaml_getitem mapping dataset;
        if yaml_truthy entry then
          entry ← yaml_getitem mapping dataset;
          main_job dataset entry
        else all_datasets mapping
      else all_datasets mapping
  | None => all_datasets mapping
  end.

End gis_import.

(** ** Observations on a run *)

(** What a computation adds to the trace, and its outcome. *)
Definition outcome {A : Type} (m : M A) (w : world) : result A := (m w).1.
Definition final {A : Type} (m : M A) (w : world) : world := (m w).2.
Definition events {A : Type} (m : M A) (w : world) : list event :=
  drop (length (w_trace w)) (w_trace (final m w)).

(** Every event a computation adds to the trace satisfies [P], from
    whatever world it is started. *)
Definition only_emits {A : Type} (P : event -> Prop) (m : M A) : Prop :=
  forall w : world,
    exists evs : list event,
      w_trace (final m w) = w_trace w ++ evs /\ Forall P evs.

(** The first event a computation adds to the trace is [e]. *)
Definition emits_first {A : Type} (e : event) (m : M A) : Prop :=
  forall w : world,
    exists rest : list event, w_trace (final m w) = w_trace w ++ e :: rest.

(** Every value a computation returns satisfies [R]. *)
Definition returns {A : Type} (R : A -> Prop) (m : M A) : Prop :=
  forall (w : world) (a : A), outcome m w = Ok a -> R a.

Definition is_get (e : event) : bool :=
  match e with EvGet _ => true | _ => false end.
Definition is_update (e : event) : bool :=
  match e with EvResourceUpdate _ => true | _ => false end.
Definition is_show (e : event) : bool :=
  match e with EvPackageShow _ => true | _ => false end.
Definition is_create (e : event) : bool :=
  match e with EvResourceCreate _ => true | _ => false end.

(** A computation adds at most one update to the trace, from whatever
    world it is started. *)
Definition updates_once {A : Type} (m : M A) : Prop :=
  forall w : world,
    exists evs : list event,
      w_trace (final m w) = w_trace w ++ evs /\
      length (List.filter is_update evs) <= 1.

(** The datasets [main_job] was started on: each start is one
    [package_show]. *)
Fixpoint datasets_run (t : list event) : list string :=
  match t with
  | [] => []
  | EvPackageShow id :: t' => id :: datasets_run t'
  | _ :: t' => datasets_run t'
  end.

(** The lower-cased format of a resource, when it has a textual one. *)
Definition lowered_format_of (res : gmap string pyval) : option string :=
  match res !! "format" with
  | Some (PStr s) => Some (Str.lower s)
  | _ => None
  end.

(** [r] is the first resource of the package with its lower-cased format. *)
Definition first_of_its_format (package : package) (r : gmap string pyval) : Prop :=
  exists (before after : list (gmap string pyval)) (format : string),
    pkg_resources package = before ++ r :: after /\
    lowered_format_of r = Some format /\
    Forall (fun x => lowered_format_of x <> Some format) before.

(** Where the resource [r] that a run on [package] updates for the mapped
    format [key] comes from, when the run started after the history [h] and
    the events [pre] came before the update.  Its lower-cased format is
    [key], and it is the first resource of the package's list with that
    lower-cased format, or no resource of the package has the format and
    [r] is what CKAN answered to the [resource_create] of the placeholder
    for [key], a call that the run made before the update. *)
Definition resource_of_format (env : environment) (package : package)
    (h pre : list event) (key : string) (r : gmap string pyval) : Prop :=
  lowered_format_of r = Some key /\
  (first_of_its_format package r \/
   (Forall (fun x => lowered_format_of x <> Some key) (pkg_resources package) /\
    exists (pre1 pre2 : list event) (t : datetime),
      pre = pre1 ++ EvResourceCreate (placeholder_args env package key t) :: pre2 /\
      resource_create env (h ++ pre1) (placeholder_args env package key t)
        = Ok r)).

(** [e] is not an update, or it is the update [upload_file_to_resource]
    makes of a resource that satisfies [R]. *)
Definition updates_only (R : gmap string pyval -> Prop) (e : event) : Prop :=
  match e with
  | EvResourceUpdate updated =>
      exists (r : gmap string pyval) (filename : string) (file_object : fcontent)
             (stamp : string),
        R r /\
        updated = <["last_modified" := PStr stamp]>
                    (<["upload" := PUpload filename file_object]> r)
  | _ => True
  end.

(** [e] is neither a fetch nor an update. *)
Definition no_transfer (e : event) : Prop := is_get e = false /\ is_update e = false.

Definition yaml_path (y : yaml) : string :=
  match y with YStr s => s | _ => "" end.

(** The staging directory and the archive of a resource named [n]. *)
Definition staging_dir (n : string) : string := "temp_data/" +:+ n +:+ "_shp".
Definition staged_file (n sub_format : string) : string :=
  staging_dir n +:+ "/" +:+ n +:+ "." +:+ sub_format.
Definition archive_file (n : string) : string := "temp_data/" +:+ n +:+ ".shp.zip".

(** The staging directory of [n] is there from an earlier run, or can be
    made; nothing below it is a directory, and the archive's path is not
    one either. *)
Definition staging_ready (w : world) (n : string) : Prop :=
  ((staging_dir n ∈ w_dirs w /\ "temp_data" ∈ w_dirs w) \/
   ((staging_dir n ∉ w_dirs w) /\ w_files w !! staging_dir n = None /\
    w_files w !! "temp_data" = None)) /\
  (forall p, Str.is_prefix (staging_dir n +:+ "/") p = true -> p ∉ w_dirs w) /\
  archive_file n ∉ w_dirs w.

(** The fetch of a sub-file of the bundle. *)
Definition sub_file_fetch (base : string) (item : string * yaml) : event :=
  EvGet (base +:+ yaml_path item.2).

(** A well-formed item of the bundle's mapping: a sub-format without a
    slash, mapped to a path. *)
Definition sub_file_ok (item : string * yaml) : Prop :=
  Str.has_slash item.1 = false /\ exists path, item.2 = YStr path.

(** Whenever a sub-file is fetched the server answers, with a content type
    when the status is 200. *)
Definition fetches_answered (env : environment) (base : string)
    (items : list (string * yaml)) : Prop :=
  forall (h : list event) (item : string * yaml),
    item ∈ items ->
    exists r : response,
      requests_get env h (base +:+ yaml_path item.2) = Ok r /\
      (status_code r = 200%Z -> is_Some (headers r !! "content-type")).

(** The world after [p] was written. *)
Definition w_write (p : string) (c : fcontent) (w : world) : world :=
  {| w_trace := w_trace w; w_files := <[p := c]> (w_files w);
     w_dirs := w_dirs w; w_ticks := w_ticks w |}.

(** ** The reference timestamp, in the words of the specification

    "Stored [last_modified] if present, else stored [created], else now":
    the parsed value of the first of the two fields that is truthy, and the
    clock's reading when neither is. It is undefined when a field is
    missing from the dictionary or does not parse. *)
Definition reference_timestamp (env : environment) (resource : gmap string pyval)
    (now_reading : Z) : option datetime :=
  let parsed v := match parse env v with Ok d => Some d | Raise _ => None end in
  match resource !! "last_modified" with
  | None => None
  | Some last_modified =>
      if truthy last_modified then parsed last_modified
      else match resource !! "created" with
           | None => None
           | Some created =>
               if truthy created then parsed created
               else Some {| wall := now_reading; tzinfo := None |}
           end
  end.

(** ** A small installation, for the examples *)

Module Example.

Definition t_old : string := "2014-01-01T00:00:00".
Definition t_new : string := "Wed, 15 Jan 2014 12:00:00 GMT".
Definition t_now : string := "2014-01-10T09:30:00.000000".

(** A parser that knows three dates. *)
Definition ex_parse (v : pyval) : result datetime :=
  match v with
  | PStr s =>
      if String.eqb s t_old then Ok {| wall := 100; tzinfo := None |}
      else if String.eqb s t_new then Ok {| wall := 200; tzinfo := Some 0%Z |}
      else if String.eqb s t_now then Ok {| wall := 150; tzinfo := None |}
      else Raise ValueError
  | _ => Raise TypeError
  end.

(** A file server on which [gone.csv] is missing, [nodate.csv] is served
    without a last-modified header, and [b.shx] cannot be fetched. *)
Definition ex_head (h : list event) (url : string) : result response :=
  if String.eqb url "http://gis/gone.csv" then
    Ok {| status_code := 404; headers := ∅; content := "" |}
  else if String.eqb url "http://gis/nodate.csv" then
    Ok {| status_code := 200; headers := ∅; content := "" |}
  else
    Ok {| status_code := 200; headers := {[ "last-modified" := t_new ]};
          content := "" |}.

Definition ex_get (h : list event) (url : string) : result response :=
  if String.eqb url "http://gis/b.shx" then
    Ok {| status_code := 404; headers := ∅; content := "" |}
  else
    Ok {| status_code := 200; headers := {[ "content-type" := "text/csv" ]};
          content := "bytes of " +:+ url |}.

Definition roads_csv : gmap string pyval :=
  <["id" := PStr "r1"]> (<["name" := PStr "roads"]> (<["format" := PStr "CSV"]>
  (<["url" := PStr "http://ckan/r1"]> (<["last_modified" := PNone]>
  (<["created" := PStr t_old]> ∅))))).

Definition roads_csv_copy : gmap string pyval :=
  <["id" := PStr "r2"]> (<["name" := PStr "roads (copy)"]> (<["format" := PStr "csv"]>
  (<["url" := PStr "http://ckan/r2"]> (<["last_modified" := PNone]>
  (<["created" := PStr t_old]> ∅))))).

Definition roads_shp : gmap string pyval :=
  <["id" := PStr "r3"]> (<["name" := PStr "roads"]> (<["format" := PStr "SHP"]>
  (<["url" := PStr "http://ckan/r3"]> (<["last_modified" := PStr t_old]>
  (<["created" := PStr t_old]> ∅))))).

(** A resource without any stored timestamp. *)
Definition undated : gmap string pyval :=
  <["name" := PStr "trees"]> (<["format" := PStr "csv"]>
  (<["url" := PStr "http://ckan/r4"]> (<["last_modified" := PNone]>
  (<["created" := PNone]> ∅)))).

Definition roads : package :=
  {| pkg_id := PStr "p1"; pkg_name := PStr "roads";
     pkg_resources := [roads_csv; roads_csv_copy; roads_shp] |}.

Definition ex_package_show (h : list event) (id : string) : result package :=
  if String.eqb id "roads" then Ok roads else Raise (NotFound id).

Definition ex_env : environment :=
  {| requests_head := ex_head;
     requests_get := ex_get;
     package_show := ex_package_show;
     resource_create := fun _ args => Ok args;
     resource_update := fun _ _ => Ok tt;
     clock := fun n => (150 + Z.of_nat n)%Z;
     parse := ex_parse;
     strftime := fun _ => t_now;
     isoformat := fun _ => t_now;
     repr_upload := fun _ _ => "upload";
     repr_dict := fun _ => "dict" |}.

Definition ex_args : options :=
  {| base_import_url := "http://gis"; single_dataset := None;
     force := false; debug := false |}.

Definition ex_forced : options :=
  {| base_import_url := "http://gis"; single_dataset := None;
     force := true; debug := false |}.

Definition ex_dry_run : options :=
  {| base_import_url := "http://gis"; single_dataset := None;
     force := false; debug := true |}.

Definition ex_single (dataset : string) : options :=
  {| base_import_url := "http://gis"; single_dataset := Some dataset;
     force := false; debug := false |}.

(** A machine with no file and no history. *)
Definition w0 : world :=
  {| w_trace := []; w_files := ∅; w_dirs := ∅; w_ticks := 0 |}.

(** A bundle of three sub-files, the second of which cannot be fetched,
    and a bundle of two that can. *)
Definition bundle_of_three : yaml :=
  YMap [("shp", YMap [("shp", YStr "/b.shp"); ("shx", YStr "/b.shx");
                      ("dbf", YStr "/b.dbf")])].

Definition bundle_of_two : yaml :=
  YMap [("shp", YMap [("shp", YStr "/b.shp"); ("dbf", YStr "/b.dbf")])].

(** A machine on which an earlier run left a file in the staging directory
    of [roads]. *)
Definition w_left_over : world :=
  {| w_trace := [];
     w_files := {[ "temp_data/roads_shp/roads.prj" := FBytes "left over" ]};
     w_dirs := {[ "temp_data"; "temp_data/roads_shp" ]};
     w_ticks := 0 |}.

End Example.

(** ** Further observations *)

(** [e] is a log line. *)
Definition is_log_line (e : event) : Prop :=
  match e with
  | EvLog _ _ => True
  | _ => False
  end.

(** Further cases for the examples. *)
Module Cases.

(** A resource whose format has no entry in the mapping of the examples,
    and whose source is answered 404 on GET. *)
Definition roads_shx : gmap string pyval :=
  <["id" := PStr "r5"]> (<["name" := PStr "roads"]> (<["format" := PStr "shx"]>
  (<["url" := PStr "http://ckan/r5"]> (<["last_modified" := PStr Example.t_old]>
  (<["created" := PStr Example.t_old]> ∅))))).

(** A resource that is newer than the sources of the example server. *)
Definition fresh_csv : gmap string pyval :=
  <["id" := PStr "r6"]> (<["name" := PStr "trees"]> (<["format" := PStr "csv"]>
  (<["url" := PStr "http://ckan/r6"]> (<["last_modified" := PStr Example.t_new]>
  (<["created" := PStr Example.t_old]> ∅))))).

(** A resource whose stored timestamp does not parse. *)
Definition garbled_csv : gmap string pyval :=
  <["id" := PStr "r7"]> (<["name" := PStr "trees"]> (<["format" := PStr "csv"]>
  (<["url" := PStr "http://ckan/r7"]> (<["last_modified" := PStr "yesterday"]>
  (<["created" := PStr Example.t_old]> ∅))))).

(** A resource without a name. *)
Definition nameless : gmap string pyval :=
  <["id" := PStr "r8"]> (<["format" := PStr "csv"]> ∅).

(** A server whose answers carry a date that does not parse, and a
    repository that refuses every update and cannot be reached for one
    dataset. *)
Definition garbled_head (h : list event) (url : string) : result response :=
  Ok {| status_code := 200; headers := {[ "last-modified" := "yesterday" ]};
        content := "" |}.

Definition bare_get (h : list event) (url : string) : result response :=
  Ok {| status_code := 200; headers := ∅; content := "bytes" |}.

Definition refusing_show (h : list event) (id : string) : result package :=
  if String.eqb id "roads" then Ok Example.roads
  else if String.eqb id "parks" then Raise (CKANAPIError "not authorized")
  else Raise (NotFound id).

Definition ex_refusing : environment :=
  {| requests_head := garbled_head;
     requests_get := bare_get;
     package_show := refusing_show;
     resource_create := fun _ args => Ok args;
     resource_update := fun _ _ => Raise (CKANAPIError "read only");
     clock := fun n => (150 + Z.of_nat n)%Z;
     parse := Example.ex_parse;
     strftime := fun _ => Example.t_now;
     isoformat := fun _ => Example.t_now;
     repr_upload := fun _ _ => "upload";
     repr_dict := fun _ => "dict" |}.


End Cases.

(** ** Running a computation *)

Lemma run_bind {A B : Type} (m : M A) (f : A -> M B) (w : world) :
  (m ≫= f) w = match m w with
               | (Ok a, w') => f a w'
               | (Raise e, w') => (Raise e, w')
               end.
Proof. reflexivity. Qed.

Lemma run_ret {A : Type} (a : A) (w : world) : (mret a : M A) w = (Ok a, w).
Proof. reflexivity. Qed.

(** Unfolds the monad's plumbing. *)
Ltac run :=
  unfold mbind, M_bind, mret, M_ret, lift, raise, call, emit, logging,
    try_except; cbn.

Lemma events_spec {A : Type} (m : M A) (w : world) (evs : list event) :
  w_trace (final m w) = w_trace w ++ evs -> events m w = evs.
Proof. intros H. unfold events. rewrite H. apply drop_app_length. Qed.

(** ** The staleness check *)

(** C3. When the HEAD probe of the source answers 404, [out_of_date]
    returns [False] after logging a warning and raises nothing; the
    [--force] flag is not looked at. *)
Theorem out_of_date_source_missing (env : environment) (arguments : options)
    (resource : gmap string pyval) (import_file : string) (w : world)
    (head : response) :
  requests_head env (w_trace w) import_file = Ok head ->
  status_code head = 404%Z ->
  out_of_date env arguments resource import_file w =
    (Ok false,
     w_emit (EvLog WARNING ("Resource is missing: " +:+ import_file))
       (w_emit (EvHead import_file) w)).
Proof.
  intros Hhead Hstatus.
  unfold out_of_date, get_import_file_date.
  rewrite !run_bind. unfold call. rewrite Hhead, Hstatus. reflexivity.
Qed.

Lemma out_of_date_source_missing_forced :
  out_of_date Example.ex_env Example.ex_forced Example.roads_csv
    "http://gis/gone.csv" Example.w0 =
    (Ok false,
     w_emit (EvLog WARNING "Resource is missing: http://gis/gone.csv")
       (w_emit (EvHead "http://gis/gone.csv") Example.w0)).
Proof.
  apply (out_of_date_source_missing Example.ex_env Example.ex_forced
           Example.roads_csv "http://gis/gone.csv" Example.w0
           {| status_code := 404; headers := ∅; content := "" |});
    reflexivity.
Defined.

(** When the probe answers something else than 404 with a last-modified
    header that parses, the date of the import file is that timestamp
    without its offset. *)
Lemma get_import_file_date_found (env : environment) (import_file : string)
    (w : world) (head : response) (s : string) (remote : datetime) :
  requests_head env (w_trace w) import_file = Ok head ->
  status_code head <> 404%Z ->
  headers head !! "last-modified" = Some s ->
  parse env (PStr s) = Ok remote ->
  get_import_file_date env import_file w =
    (Ok (Some (replace_tzinfo_None remote)), w_emit (EvHead import_file) w).
Proof.
  intros Hhead Hstatus Hheader Hparse.
  unfold get_import_file_date. rewrite run_bind. unfold call. rewrite Hhead.
  apply Z.eqb_neq in Hstatus. rewrite Hstatus.
  rewrite run_bind. unfold try_except. rewrite run_bind, Hheader. rewrite run_ret.
  rewrite run_bind. unfold lift. rewrite Hparse. reflexivity.
Qed.

(** When the header is missing, the error is logged and the unbound local
    is read. *)
Lemma get_import_file_date_unknown (env : environment) (import_file : string)
    (w : world) (head : response) :
  requests_head env (w_trace w) import_file = Ok head ->
  status_code head <> 404%Z ->
  headers head !! "last-modified" = None ->
  get_import_file_date env import_file w =
    (Raise (UnboundLocalError "date_modified"),
     w_emit (EvLog ERROR ("Could not determine last modified date of "
                            +:+ import_file))
       (w_emit (EvHead import_file) w)).
Proof.
  intros Hhead Hstatus Hheader.
  unfold get_import_file_date. rewrite run_bind. unfold call. rewrite Hhead.
  apply Z.eqb_neq in Hstatus. rewrite Hstatus.
  rewrite run_bind. unfold try_except. rewrite run_bind, Hheader.
  reflexivity.
Qed.

(** The timestamp the resource is compared with, as the code computes it. *)
Lemma out_of_date_found (env : environment) (arguments : options)
    (resource : gmap string pyval) (import_file : string) (w : world)
    (head : response) (s : string) (remote reference : datetime) :
  requests_head env (w_trace w) import_file = Ok head ->
  status_code head <> 404%Z ->
  headers head !! "last-modified" = Some s ->
  parse env (PStr s) = Ok remote ->
  reference_timestamp env resource (clock env (w_ticks w)) = Some reference ->
  outcome (out_of_date env arguments resource import_file) w =
    Ok ((wall reference <? wall remote)%Z || force arguments).
Proof.
  intros Hhead Hstatus Hheader Hparse Href.
  unfold outcome, out_of_date. rewrite run_bind.
  rewrite (get_import_file_date_found env import_file w head s remote) by done.
  unfold reference_timestamp in Href. unfold getitem.
  destruct (resource !! "last_modified") as [lm|] eqn:Hlm; [|done].
  rewrite run_bind. rewrite run_ret.
  destruct (truthy lm).
  - rewrite !run_bind. rewrite run_ret.
    unfold lift. destruct (parse env lm) as [dt|]; [|done].
    injection Href as ->. run. by destruct (_ || _).
  - destruct (resource !! "created") as [cr|] eqn:Hcr; [|done].
    rewrite !run_bind. rewrite run_ret.
    destruct (truthy cr).
    + rewrite !run_bind. rewrite run_ret.
      unfold lift. destruct (parse env cr) as [dt|]; [|done].
      injection Href as ->. run. by destruct (_ || _).
    + injection Href as <-. unfold now. run. by destruct (_ || _).
Qed.

Lemma stale_iff_newer_or_forced (env : environment)
    (arguments : options) (resource : gmap string pyval) (import_file : string)
    (w : world) (head : response) (s : string) (remote reference : datetime) :
  requests_head env (w_trace w) import_file = Ok head ->
  status_code head <> 404%Z ->
  headers head !! "last-modified" = Some s ->
  parse env (PStr s) = Ok remote ->
  reference_timestamp env resource (clock env (w_ticks w)) = Some reference ->
  exists stale : bool,
    outcome (out_of_date env arguments resource import_file) w = Ok stale /\
    (stale = true <->
     (wall reference < wall remote)%Z \/ force arguments = true).
Proof.
  intros Hhead Hstatus Hheader Hparse Href.
  eexists. split.
  - by eapply out_of_date_found.
  - rewrite orb_true_iff, Z.ltb_lt. done.
Qed.

(** C1. When the HEAD probe yields a last-modified timestamp that parses,
    [out_of_date] returns [True] exactly when that timestamp is strictly
    later than the resource's reference timestamp or [--force] is set.  The
    reference timestamp is the parsed [last_modified] when it is truthy,
    else the parsed [created] when it is truthy, else the current time; both
    sides are compared by their wall-clock reading, whatever offset the
    parsed values carried. *)
Theorem out_of_date_iff_newer_or_forced (env : environment) (arguments : options)
    (resource : gmap string pyval) (import_file : string) (w : world)
    (head : response) (s : string) (remote reference : datetime) :
  requests_head env (w_trace w) import_file = Ok head ->
  status_code head <> 404%Z ->
  headers head !! "last-modified" = Some s ->
  parse env (PStr s) = Ok remote ->
  reference_timestamp env resource (clock env (w_ticks w)) = Some reference ->
  exists stale : bool,
    outcome (out_of_date env arguments resource import_file) w = Ok stale /\
    (stale = true <->
     (wall reference < wall remote)%Z \/ force arguments = true).
Proof.
  intros Hhead Hstatus Hheader Hparse Href.
  by eapply stale_iff_newer_or_forced.
Qed.

Lemma out_of_date_iff_newer_or_forced_example :
  exists stale : bool,
    outcome (out_of_date Example.ex_env Example.ex_args Example.roads_csv
               "http://gis/roads.csv") Example.w0 = Ok stale /\
    (stale = true <->
     (100 < 200)%Z \/ force Example.ex_args = true).
Proof.
  apply (out_of_date_iff_newer_or_forced Example.ex_env Example.ex_args
           Example.roads_csv "http://gis/roads.csv" Example.w0
           {| status_code := 200;
              headers := {[ "last-modified" := Example.t_new ]};
              content := "" |}
           Example.t_new
           {| wall := 200; tzinfo := Some 0%Z |}
           {| wall := 100; tzinfo := None |});
    first [ reflexivity | vm_compute; congruence ].
Defined.

(** [get_import_url] only reads its arguments. *)
Lemma get_import_url_pure (env : environment) (arguments : options)
    (resource : gmap string pyval) (mapping : yaml) (w : world) :
  final (get_import_url env arguments resource mapping) w = w.
Proof.
  unfold final, get_import_url, getitem, py_lower, yaml_getitem. run.
  repeat (case_match; simplify_eq; run; try done).
Qed.

Lemma get_import_url_outcome (env : environment) (arguments : options)
    (resource : gmap string pyval) (mapping : yaml) (w w' : world) :
  outcome (get_import_url env arguments resource mapping) w
    = outcome (get_import_url env arguments resource mapping) w'.
Proof.
  unfold outcome, get_import_url, getitem, py_lower, yaml_getitem. run.
  repeat (case_match; simplify_eq; run; try done).
Qed.

Lemma get_import_url_run (env : environment) (arguments : options)
    (resource : gmap string pyval) (mapping : yaml) (w : world) :
  get_import_url env arguments resource mapping w =
    (outcome (get_import_url env arguments resource mapping) w, w).
Proof.
  rewrite <- (get_import_url_pure env arguments resource mapping w) at 3.
  unfold outcome, final. by destruct (get_import_url _ _ _ _ _).
Qed.

(** C2. When the HEAD probe answers (not 404) without a last-modified
    header, an error is logged and nothing is synchronised: [out_of_date]
    does not answer [True] (it does not answer at all: the unbound local
    [date_modified] is read and [UnboundLocalError] leaves the function),
    and the synchronisation of the resource does nothing but the probe and
    the log line, so neither a fetch nor a [resource_update] is attempted. *)
Theorem missing_header_is_logged_and_not_synced (env : environment)
    (arguments : options) (resource : gmap string pyval) (mapping : yaml)
    (import_file : string) (w : world) (head : response) :
  outcome (get_import_url env arguments resource mapping) w = Ok import_file ->
  requests_head env (w_trace w) import_file = Ok head ->
  status_code head <> 404%Z ->
  headers head !! "last-modified" = None ->
  let line := EvLog ERROR ("Could not determine last modified date of "
                             +:+ import_file) in
  events (out_of_date env arguments resource import_file) w
    = [EvHead import_file; line] /\
  outcome (out_of_date env arguments resource import_file) w
    = Raise (UnboundLocalError "date_modified") /\
  outcome (out_of_date env arguments resource import_file) w <> Ok true /\
  events (main_job_sync env arguments resource mapping) w
    = [EvHead import_file; line] /\
  Forall no_transfer
    (events (main_job_sync env arguments resource mapping) w).
Proof.
  intros Hurl Hhead Hstatus Hheader line.
  assert (Hdate := get_import_file_date_unknown env import_file w head
                     Hhead Hstatus Hheader).
  assert (Hout : out_of_date env arguments resource import_file w =
                 (Raise (UnboundLocalError "date_modified"),
                  w_emit line (w_emit (EvHead import_file) w))).
  { unfold out_of_date. rewrite run_bind, Hdate. reflexivity. }
  assert (Hsync : main_job_sync env arguments resource mapping w =
                 (Raise (UnboundLocalError "date_modified"),
                  w_emit line (w_emit (EvHead import_file) w))).
  { unfold main_job_sync. rewrite run_bind, get_import_url_run, Hurl.
    rewrite run_bind, Hout. reflexivity. }
  assert (Hevents : events (main_job_sync env arguments resource mapping) w
                    = [EvHead import_file; line]).
  { apply events_spec. unfold final. rewrite Hsync. cbn.
    by rewrite <- app_assoc. }
  repeat split.
  - apply events_spec. unfold final. rewrite Hout. cbn.
    by rewrite <- app_assoc.
  - unfold outcome. by rewrite Hout.
  - unfold outcome. by rewrite Hout.
  - exact Hevents.
  - rewrite Hevents. by repeat constructor.
Qed.

Lemma missing_header_is_logged_and_not_synced_example :
  let import_file := "http://gis/nodate.csv" in
  let mapping := YMap [("csv", YStr "/nodate.csv")] in
  let line := EvLog ERROR ("Could not determine last modified date of "
                             +:+ import_file) in
  events (out_of_date Example.ex_env Example.ex_args Example.roads_csv
            import_file) Example.w0 = [EvHead import_file; line] /\
  outcome (out_of_date Example.ex_env Example.ex_args Example.roads_csv
             import_file) Example.w0
    = Raise (UnboundLocalError "date_modified") /\
  outcome (out_of_date Example.ex_env Example.ex_args Example.roads_csv
             import_file) Example.w0 <> Ok true /\
  events (main_job_sync Example.ex_env Example.ex_args Example.roads_csv
            mapping) Example.w0 = [EvHead import_file; line] /\
  Forall no_transfer
    (events (main_job_sync Example.ex_env Example.ex_args Example.roads_csv
               mapping) Example.w0).
Proof.
  apply (missing_header_is_logged_and_not_synced Example.ex_env Example.ex_args
           Example.roads_csv (YMap [("csv", YStr "/nodate.csv")])
           "http://gis/nodate.csv" Example.w0
           {| status_code := 200; headers := ∅; content := "" |});
    first [ reflexivity | vm_compute; congruence ].
Defined.

(** C4, as the code has it. A resource whose [last_modified] and [created]
    are both falsy is compared with the current time: [out_of_date]
    returns [True] exactly when the remote timestamp is strictly later than
    the clock's reading or [--force] is set. *)
Theorem out_of_date_without_stored_timestamp (env : environment)
    (arguments : options) (resource : gmap string pyval) (import_file : string)
    (w : world) (head : response) (s : string) (remote : datetime)
    (last_modified created : pyval) :
  requests_head env (w_trace w) import_file = Ok head ->
  status_code head <> 404%Z ->
  headers head !! "last-modified" = Some s ->
  parse env (PStr s) = Ok remote ->
  resource !! "last_modified" = Some last_modified ->
  truthy last_modified = false ->
  resource !! "created" = Some created ->
  truthy created = false ->
  exists stale : bool,
    outcome (out_of_date env arguments resource import_file) w = Ok stale /\
    (stale = true <->
     (clock env (w_ticks w) < wall remote)%Z \/ force arguments = true).
Proof.
  intros Hhead Hstatus Hheader Hparse Hlm Hlm' Hcr Hcr'.
  apply (stale_iff_newer_or_forced env arguments resource
           import_file w head s remote
           {| wall := clock env (w_ticks w); tzinfo := None |});
    try done.
  unfold reference_timestamp. by rewrite Hlm, Hlm', Hcr, Hcr'.
Qed.

Lemma out_of_date_without_stored_timestamp_example :
  exists stale : bool,
    outcome (out_of_date Example.ex_env Example.ex_args Example.undated
               "http://gis/trees.csv") Example.w0 = Ok stale /\
    (stale = true <-> (150 < 200)%Z \/ force Example.ex_args = true).
Proof.
  apply (out_of_date_without_stored_timestamp Example.ex_env Example.ex_args
           Example.undated "http://gis/trees.csv" Example.w0
           {| status_code := 200;
              headers := {[ "last-modified" := Example.t_new ]};
              content := "" |}
           Example.t_new {| wall := 200; tzinfo := Some 0%Z |} PNone PNone);
    first [ reflexivity | vm_compute; congruence ].
Defined.

(** C4, as the specification has it, fails: a resource without any stored
    timestamp is reported stale, without [--force], when the source's
    timestamp (200) is later than the clock's reading (150). *)
Lemma undated_resource_reported_stale :
  Example.undated !! "last_modified" = Some PNone /\
  Example.undated !! "created" = Some PNone /\
  force Example.ex_args = false /\
  outcome (out_of_date Example.ex_env Example.ex_args Example.undated
             "http://gis/trees.csv") Example.w0 = Ok true.
Proof. vm_compute. done. Qed.

(** ** Publication *)

(** What [upload_file_to_resource] does on a resource that has a name and a
    textual format: one [resource_update] of the resource with the upload
    and the new [last_modified], and one error line when CKAN refuses. *)
Lemma upload_file_to_resource_run (env : environment)
    (resource : gmap string pyval) (file_object : fcontent) (w : world)
    (name : pyval) (format : string) :
  resource !! "name" = Some name ->
  resource !! "format" = Some (PStr format) ->
  let filename :=
    if String.eqb (Str.lower format) "shp"
    then py_str env name +:+ "." +:+ format +:+ ".zip"
    else py_str env name +:+ "." +:+ format in
  let stamp := strftime env {| wall := clock env (w_ticks w); tzinfo := None |} in
  let updated :=
    <["last_modified" := PStr stamp]>
      (<["upload" := PUpload filename file_object]> resource) in
  events (upload_file_to_resource env resource file_object) w =
    EvResourceUpdate updated ::
    match resource_update env (w_trace w) updated with
    | Raise (CKANAPIError message) | Raise (NotFound message) =>
        [EvLog ERROR message]
    | _ => []
    end.
Proof.
  intros Hname Hformat filename stamp updated.
  apply events_spec. unfold final, upload_file_to_resource, getitem, py_lower, now.
  rewrite Hname, Hformat. run. subst filename.
  destruct (String.eqb (Str.lower format) "shp"); run;
    fold stamp; fold updated;
    destruct (resource_update env (w_trace w) updated) as [[]|[]]; cbn;
    by rewrite <- ?app_assoc.
Qed.



(** ** What a computation can emit *)

Section only_emits.

Context (P : event -> Prop).

Lemma only_emits_silent {A : Type} (m : M A) :
  (forall w, w_trace (final m w) = w_trace w) -> only_emits P m.
Proof. intros H w. exists []. rewrite H, app_nil_r. by split. Qed.

Lemma only_emits_ret {A : Type} (a : A) : only_emits P (mret a : M A).
Proof. by apply only_emits_silent. Qed.

Lemma only_emits_raise {A : Type} (e : exn) : only_emits P (raise e : M A).
Proof. by apply only_emits_silent. Qed.

Lemma only_emits_lift {A : Type} (r : result A) : only_emits P (lift r).
Proof. by apply only_emits_silent. Qed.

Lemma only_emits_emit (e : event) : P e -> only_emits P (emit e).
Proof. intros H w. exists [e]. split; [done | by constructor]. Qed.

Lemma only_emits_logging (lvl : level) (msg : string) :
  P (EvLog lvl msg) -> only_emits P (logging lvl msg).
Proof. apply only_emits_emit. Qed.

Lemma only_emits_call {A : Type} (e : event) (answer : list event -> result A) :
  P e -> only_emits P (call e answer).
Proof. intros H w. exists [e]. split; [done | by constructor]. Qed.

Lemma only_emits_bind {A B : Type} (m : M A) (f : A -> M B) :
  only_emits P m -> (forall a, only_emits P (f a)) -> only_emits P (m ≫= f).
Proof.
  intros Hm Hf w. destruct (Hm w) as (evs1 & Htrace1 & HP1).
  unfold final in *. rewrite run_bind.
  destruct (m w) as [[a|e] w1]; cbn in *.
  - destruct (Hf a w1) as (evs2 & Htrace2 & HP2). unfold final in Htrace2.
    exists (evs1 ++ evs2). split.
    + by rewrite Htrace2, Htrace1, app_assoc.
    + by apply Forall_app.
  - by exists evs1.
Qed.

Lemma only_emits_try_except {A : Type} (m : M A) (h : exn -> option (M A)) :
  only_emits P m ->
  (forall e k, h e = Some k -> only_emits P k) ->
  only_emits P (try_except m h).
Proof.
  intros Hm Hh w. destruct (Hm w) as (evs1 & Htrace1 & HP1).
  unfold final, try_except in *.
  destruct (m w) as [[a|e] w1]; cbn in *.
  - by exists evs1.
  - destruct (h e) as [k|] eqn:Hk; [|by exists evs1].
    destruct (Hh e k Hk w1) as (evs2 & Htrace2 & HP2). unfold final in Htrace2.
    exists (evs1 ++ evs2). split.
    + by rewrite Htrace2, Htrace1, app_assoc.
    + by apply Forall_app.
Qed.

Lemma only_emits_for_each {A : Type} (l : list A) (body : A -> M unit) :
  (forall x, only_emits P (body x)) -> only_emits P (for_each l body).
Proof.
  intros Hbody. induction l as [|x l IH]; cbn.
  - apply only_emits_ret.
  - apply only_emits_bind; [apply Hbody | intros _; apply IH].
Qed.

Lemma only_emits_map_M {A B : Type} (f : A -> M B) (l : list A) :
  (forall x, only_emits P (f x)) -> only_emits P (map_M f l).
Proof.
  intros Hf. induction l as [|x l IH]; cbn.
  - apply only_emits_ret.
  - apply only_emits_bind; [apply Hf | intros y].
    apply only_emits_bind; [apply IH | intros ys; apply only_emits_ret].
Qed.

Lemma only_emits_filter_M {A : Type} (f : A -> M bool) (l : list A) :
  (forall x, only_emits P (f x)) -> only_emits P (filter_M f l).
Proof.
  intros Hf. induction l as [|x l IH]; cbn.
  - apply only_emits_ret.
  - apply only_emits_bind; [apply Hf | intros y].
    apply only_emits_bind; [apply IH | intros ys; apply only_emits_ret].
Qed.

Context (env : environment).

Lemma only_emits_now : only_emits P (now env).
Proof. by apply only_emits_silent. Qed.

Lemma only_emits_path_exists (p : string) : only_emits P (path_exists p).
Proof. by apply only_emits_silent. Qed.

Lemma only_emits_makedirs (p : string) : only_emits P (makedirs p).
Proof.
  apply only_emits_silent. intros w. unfold final, makedirs.
  by destruct (_ || _).
Qed.

Lemma only_emits_write_file (p : string) (c : fcontent) :
  only_emits P (write_file p c).
Proof.
  apply only_emits_silent. intros w. unfold final, write_file.
  by destruct (_ && _).
Qed.

Lemma only_emits_read_file (p : string) : only_emits P (read_file p).
Proof.
  apply only_emits_silent. intros w. unfold final, read_file.
  by destruct (_ !! _).
Qed.

Lemma only_emits_walk_files (top : string) : only_emits P (walk_files top).
Proof. by apply only_emits_silent. Qed.

End only_emits.

(** Walks through a computation, leaving the conditions on the events it
    emits. *)
Ltac only_emits_step :=
  match goal with
  | |- only_emits _ (_ ≫= _) => apply only_emits_bind; [|intros]
  | |- only_emits _ (mret _) => apply only_emits_ret
  | |- only_emits _ (raise _) => apply only_emits_raise
  | |- only_emits _ (lift _) => apply only_emits_lift
  | |- only_emits _ (now _) => apply only_emits_now
  | |- only_emits _ (path_exists _) => apply only_emits_path_exists
  | |- only_emits _ (makedirs _) => apply only_emits_makedirs
  | |- only_emits _ (write_file _ _) => apply only_emits_write_file
  | |- only_emits _ (read_file _) => apply only_emits_read_file
  | |- only_emits _ (walk_files _) => apply only_emits_walk_files
  | |- only_emits _ (logging _ _) => apply only_emits_logging
  | |- only_emits _ (emit _) => apply only_emits_emit
  | |- only_emits _ (call _ _) => apply only_emits_call
  | |- only_emits _ (for_each _ _) => apply only_emits_for_each; intros
  | |- only_emits _ (map_M _ _) => apply only_emits_map_M; intros
  | |- only_emits _ (filter_M _ _) => apply only_emits_filter_M; intros
  | |- only_emits _ (try_except _ _) =>
      apply only_emits_try_except; [|intros ? ? ?; case_match; simplify_eq]
  | |- only_emits _ (match ?x with _ => _ end) => destruct x
  end.

Ltac only_emits := repeat only_emits_step.

Section script_emits.

Context (P : event -> Prop) (env : environment) (arguments : options).
Context (Hlog : forall lvl msg, P (EvLog lvl msg)).

Lemma only_emits_getitem (d : gmap string pyval) (k : string) :
  only_emits P (getitem d k).
Proof. unfold getitem. only_emits. Qed.

Lemma only_emits_yaml_getitem (m : yaml) (k : string) :
  only_emits P (yaml_getitem m k).
Proof. unfold yaml_getitem. only_emits. Qed.

Lemma only_emits_py_lower (v : pyval) : only_emits P (py_lower v).
Proof. unfold py_lower. only_emits. Qed.

Lemma only_emits_lowered_format (res : gmap string pyval) :
  only_emits P (lowered_format res).
Proof.
  unfold lowered_format. only_emits;
    auto using only_emits_getitem, only_emits_py_lower.
Qed.

Lemma only_emits_get_import_url (resource : gmap string pyval) (mapping : yaml) :
  only_emits P (get_import_url env arguments resource mapping).
Proof.
  unfold get_import_url. only_emits;
    auto using only_emits_getitem, only_emits_py_lower, only_emits_yaml_getitem.
Qed.

Lemma only_emits_get_import_file_date (import_file : string) :
  P (EvHead import_file) ->
  only_emits P (get_import_file_date env import_file).
Proof. intros Hhead. unfold get_import_file_date. only_emits; auto. Qed.

Lemma only_emits_out_of_date (resource : gmap string pyval) (import_file : string) :
  P (EvHead import_file) ->
  only_emits P (out_of_date env arguments resource import_file).
Proof.
  intros Hhead. unfold out_of_date. only_emits;
    auto using only_emits_getitem, only_emits_get_import_file_date.
Qed.

End script_emits.

Lemma only_emits_bind_returns {A B : Type} (P : event -> Prop) (R : A -> Prop)
    (m : M A) (f : A -> M B) :
  only_emits P m -> returns R m -> (forall a, R a -> only_emits P (f a)) ->
  only_emits P (m ≫= f).
Proof.
  intros Hm HR Hf w. destruct (Hm w) as (evs1 & Htrace1 & HP1).
  specialize (HR w). unfold final, outcome in *. rewrite run_bind.
  destruct (m w) as [[a|e] w1]; cbn in *.
  - destruct (Hf a (HR a eq_refl) w1) as (evs2 & Htrace2 & HP2).
    unfold final in Htrace2.
    exists (evs1 ++ evs2). split.
    + by rewrite Htrace2, Htrace1, app_assoc.
    + by apply Forall_app.
  - by exists evs1.
Qed.

Lemma only_emits_events {A : Type} (P : event -> Prop) (m : M A) (w : world) :
  only_emits P m -> Forall P (events m w).
Proof.
  intros H. destruct (H w) as (evs & Htrace & HP).
  by rewrite (events_spec m w evs Htrace).
Qed.

Section transfers.

Context (P : event -> Prop) (env : environment) (arguments : options).
Context (Hlog : forall lvl msg, P (EvLog lvl msg)).
Context (Hhead : forall url, P (EvHead url)).

Lemma only_emits_download_temp_file (resource_path file_name : string) :
  P (EvGet resource_path) ->
  only_emits P (download_temp_file env resource_path file_name).
Proof. intros Hget. unfold download_temp_file. only_emits; auto. Qed.

Context (resource : gmap string pyval).
Context (Hget : forall url, P (EvGet url)).
Context (Hupdate : forall filename file_object stamp,
            P (EvResourceUpdate
                 (<["last_modified" := PStr stamp]>
                    (<["upload" := PUpload filename file_object]> resource)))).

Lemma only_emits_upload_file_to_resource (file_object : fcontent) :
  only_emits P (upload_file_to_resource env resource file_object).
Proof.
  unfold upload_file_to_resource. only_emits;
    auto using only_emits_getitem, only_emits_py_lower.
Qed.

Lemma only_emits_stage_sub_file (dir : string) (item : string * yaml) :
  only_emits P (stage_sub_file env arguments resource dir item).
Proof.
  unfold stage_sub_file, str_add_yaml. only_emits;
    auto using only_emits_getitem, only_emits_download_temp_file.
Qed.

Lemma only_emits_import_shapefile (mapping : yaml) :
  only_emits P (import_shapefile env arguments resource mapping).
Proof.
  unfold import_shapefile, py_add_str, iteritems. only_emits;
    auto using only_emits_getitem, only_emits_yaml_getitem,
      only_emits_stage_sub_file, only_emits_upload_file_to_resource.
Qed.

Lemma only_emits_perform_import (mapping : yaml) :
  only_emits P (perform_import env arguments resource mapping).
Proof.
  unfold perform_import. only_emits;
    auto using only_emits_getitem, only_emits_py_lower,
      only_emits_get_import_url, only_emits_import_shapefile,
      only_emits_upload_file_to_resource.
Qed.

Lemma only_emits_main_job_sync (mapping : yaml) :
  only_emits P (main_job_sync env arguments resource mapping).
Proof.
  unfold main_job_sync. only_emits;
    auto using only_emits_getitem, only_emits_get_import_url,
      only_emits_out_of_date, only_emits_perform_import.
Qed.

End transfers.

(** In a dry run the synchronisation of a resource neither fetches nor
    updates. *)
Lemma main_job_sync_dry_run (P : event -> Prop) (env : environment)
    (arguments : options) (resource : gmap string pyval) (mapping : yaml) :
  debug arguments = true ->
  (forall lvl msg, P (EvLog lvl msg)) ->
  (forall url, P (EvHead url)) ->
  only_emits P (main_job_sync env arguments resource mapping).
Proof.
  intros Hdebug Hlog Hhead. unfold main_job_sync. rewrite Hdebug. only_emits;
    auto using only_emits_getitem, only_emits_get_import_url,
      only_emits_out_of_date.
Qed.

(** ** The orchestration of a dataset *)

Section main_job_emits.

Context (P : event -> Prop) (env : environment) (arguments : options).
Context (Hlog : forall lvl msg, P (EvLog lvl msg)).
Context (Hhead : forall url, P (EvHead url)).
Context (Hcreate : forall args, P (EvResourceCreate args)).

Lemma only_emits_main_job_resource (package : package)
    (existing_formats : list string) (resource_format : string) :
  only_emits P (main_job_resource env package existing_formats resource_format).
Proof.
  unfold main_job_resource. only_emits; auto using only_emits_lowered_format.
Qed.

(** [R] holds of the resources the run may act on, and [P] of their
    updates. *)
Context (R : gmap string pyval -> Prop) (package : package).
Context (Hselected : forall existing_formats resource_format,
            returns R (main_job_resource env package existing_formats
                         resource_format)).
Context (Hsync : forall resource mapping,
            R resource ->
            only_emits P (main_job_sync env arguments resource mapping)).

Lemma only_emits_main_job_body (existing_formats : list string)
    (resources_mapping : yaml) (resource_format : string) :
  only_emits P (main_job_body env arguments package existing_formats
                  resources_mapping resource_format).
Proof.
  unfold main_job_body.
  eapply only_emits_bind_returns;
    eauto using only_emits_main_job_resource.
Qed.

Lemma only_emits_main_job_formats (resources_mapping : yaml) :
  only_emits P (main_job_formats env arguments package resources_mapping).
Proof.
  unfold main_job_formats, iter_keys. only_emits;
    auto using only_emits_lowered_format, only_emits_main_job_body.
Qed.

End main_job_emits.

(** [main_job] starts with [package_show] and goes on with the formats
    when the package is found. *)
Lemma main_job_found (env : environment) (arguments : options)
    (dataset : string) (resources_mapping : yaml) (w : world) (package : package) :
  package_show env (w_trace w) dataset = Ok package ->
  main_job env arguments dataset resources_mapping w =
    main_job_formats env arguments package resources_mapping
      (w_emit (EvPackageShow dataset) w).
Proof.
  intros Hshow. unfold main_job. rewrite run_bind. unfold try_except.
  rewrite run_bind. unfold call. by rewrite Hshow.
Qed.

Lemma datasets_run_none (evs : list event) :
  Forall (fun e => is_show e = false) evs -> datasets_run evs = [].
Proof.
  induction 1 as [|e evs He _ IH]; [done|]. by destruct e.
Qed.

Lemma only_emits_anything_main_job_sync (P : event -> Prop) (env : environment)
    (arguments : options) (resource : gmap string pyval) (mapping : yaml) :
  (forall e, is_show e = false -> P e) ->
  only_emits P (main_job_sync env arguments resource mapping).
Proof. intros HP. apply only_emits_main_job_sync; intros; by apply HP. Qed.

(** A run of [main_job] asks for its dataset once, first, and for no
    other. *)
Lemma main_job_datasets_run (env : environment) (arguments : options)
    (dataset : string) (resources_mapping : yaml) (w : world) :
  datasets_run (events (main_job env arguments dataset resources_mapping) w)
    = [dataset].
Proof.
  set (P := fun e => is_show e = false).
  assert (Hformats : forall package w',
             exists evs, w_trace (final (main_job_formats env arguments package
                                           resources_mapping) w')
                         = w_trace w' ++ evs /\ Forall P evs).
  { intros package.
    apply only_emits_main_job_formats with (R := fun _ => True); try done.
    intros. by apply only_emits_anything_main_job_sync. }
  unfold events, final, main_job. rewrite run_bind. unfold try_except.
  rewrite run_bind. unfold call.
  destruct (package_show env (w_trace w) dataset) as [package|e]; cbn.
  - destruct (Hformats package (w_emit (EvPackageShow dataset) w))
      as (evs & Htrace & HP).
    unfold final in Htrace. rewrite Htrace. cbn.
    rewrite <- app_assoc, drop_app_length. cbn.
    by rewrite (datasets_run_none evs HP).
  - destruct e; run; rewrite <- ?app_assoc, drop_app_length; done.
Qed.

(** C5, as the code has it. When a dataset is requested on the command
    line and its entry in the mapping is truthy (a non-empty mapping), the
    script is one run of [main_job] on that dataset and its entry:
    [main_job] is started on the requested dataset and on no other. *)
Theorem single_dataset_runs_alone (env : environment) (arguments : options)
    (items : list (string * yaml)) (dataset : string) (entry : yaml) (w : world) :
  single_dataset arguments = Some dataset ->
  dataset <> "" ->
  assoc dataset items = Some entry ->
  yaml_truthy entry = true ->
  driver env arguments (YMap items) w = main_job env arguments dataset entry w /\
  datasets_run (events (driver env arguments (YMap items)) w) = [dataset].
Proof.
  intros Hsingle Hname Hentry Htruthy.
  assert (Hdriver : driver env arguments (YMap items) w
                    = main_job env arguments dataset entry w).
  { unfold driver. rewrite Hsingle.
    apply String.eqb_neq in Hname. rewrite Hname. cbn [negb].
    rewrite run_bind. unfold yaml_getitem. rewrite Hentry, run_ret, Htruthy.
    by rewrite run_bind, run_ret. }
  split; [done|].
  unfold events, final. rewrite Hdriver. apply main_job_datasets_run.
Qed.

Lemma single_dataset_runs_alone_example :
  let items := [("parks", YMap []); ("roads", YMap [("csv", YStr "/roads.csv")])] in
  driver Example.ex_env (Example.ex_single "roads") (YMap items) Example.w0
    = main_job Example.ex_env (Example.ex_single "roads") "roads"
        (YMap [("csv", YStr "/roads.csv")]) Example.w0 /\
  datasets_run (events (driver Example.ex_env (Example.ex_single "roads")
                          (YMap items)) Example.w0) = ["roads"].
Proof.
  apply (single_dataset_runs_alone Example.ex_env (Example.ex_single "roads")
           [("parks", YMap []); ("roads", YMap [("csv", YStr "/roads.csv")])]
           "roads" (YMap [("csv", YStr "/roads.csv")]) Example.w0);
    first [ reflexivity | vm_compute; congruence ].
Defined.

(** C5, as the specification has it, fails: when the entry of the requested
    dataset is empty, the script runs every dataset of the mapping. *)
Lemma empty_entry_runs_every_dataset :
  let mapping :=
    YMap [("parks", YMap []); ("roads", YMap [("csv", YStr "/roads.csv")])] in
  single_dataset (Example.ex_single "parks") = Some "parks" /\
  datasets_run (events (driver Example.ex_env (Example.ex_single "parks")
                          mapping) Example.w0) = ["parks"; "roads"].
Proof. vm_compute. done. Qed.

(** ** Dry runs *)

Lemma emits_first_call {A : Type} (e : event) (answer : list event -> result A) :
  emits_first e (call e answer).
Proof. intros w. by exists []. Qed.

Lemma emits_first_bind {A B : Type} (e : event) (m : M A) (f : A -> M B) :
  emits_first e m -> (forall a, only_emits (fun _ => True) (f a)) ->
  emits_first e (m ≫= f).
Proof.
  intros Hm Hf w. destruct (Hm w) as (rest & Htrace).
  unfold final in *. rewrite run_bind.
  destruct (m w) as [[a|ex] w1]; cbn in *; [|by exists rest].
  destruct (Hf a w1) as (evs & Htrace' & _). unfold final in Htrace'.
  exists (rest ++ evs). by rewrite Htrace', Htrace, <- app_assoc.
Qed.

Lemma only_emits_True_main_job_sync (env : environment) (arguments : options)
    (resource : gmap string pyval) (mapping : yaml) :
  only_emits (fun _ => True) (main_job_sync env arguments resource mapping).
Proof. by apply only_emits_main_job_sync. Qed.

Lemma only_emits_True_main_job_body (env : environment) (arguments : options)
    (package : package) (existing_formats : list string)
    (resources_mapping : yaml) (resource_format : string) :
  only_emits (fun _ => True)
    (main_job_body env arguments package existing_formats resources_mapping
       resource_format).
Proof.
  apply only_emits_main_job_body with (R := fun _ => True); try done.
  intros. apply only_emits_True_main_job_sync.
Qed.

(** The staleness check starts with the HEAD probe. *)
Lemma emits_first_out_of_date (env : environment) (arguments : options)
    (resource : gmap string pyval) (import_file : string) :
  emits_first (EvHead import_file)
    (out_of_date env arguments resource import_file).
Proof.
  unfold out_of_date, get_import_file_date.
  apply emits_first_bind; [apply emits_first_bind; [apply emits_first_call|]|];
    intros; only_emits; auto using only_emits_getitem.
Qed.

Lemma main_job_sync_probes_first (env : environment) (arguments : options)
    (resource : gmap string pyval) (mapping : yaml) (w : world)
    (import_file : string) :
  outcome (get_import_url env arguments resource mapping) w = Ok import_file ->
  exists rest,
    events (main_job_sync env arguments resource mapping) w
      = EvHead import_file :: rest.
Proof.
  intros Hurl.
  assert (Hfirst : emits_first (EvHead import_file)
            (stale ← out_of_date env arguments resource import_file;
             if (stale : bool) then
               if debug arguments then
                 url ← getitem resource "url";
                 logging INFO ("Would refresh " +:+ py_str env url)
               else perform_import env arguments resource mapping
             else mret tt)).
  { apply emits_first_bind; [apply emits_first_out_of_date|].
    intros; only_emits;
      auto using only_emits_getitem, only_emits_perform_import. }
  destruct (Hfirst w) as (rest & Htrace). exists rest.
  apply events_spec. unfold final, main_job_sync.
  by rewrite run_bind, get_import_url_run, Hurl.
Qed.

(** One turn of the loop in a dry run, on a format that no resource of the
    package has: the placeholder is created, then the source is probed, and
    nothing is fetched or updated. *)
Lemma main_job_body_dry_run_placeholder (env : environment) (arguments : options)
    (package : package) (existing_formats : list string)
    (resources_mapping : yaml) (resource_format : string) (w : world) :
  debug arguments = true ->
  py_in resource_format existing_formats = false ->
  let args :=
    placeholder_args env package resource_format
      {| wall := clock env (w_ticks w); tzinfo := None |} in
  exists rest : list event,
    events (main_job_body env arguments package existing_formats
              resources_mapping resource_format) w
      = EvResourceCreate args :: rest /\
    Forall no_transfer rest /\
    (forall resource import_file,
       resource_create env (w_trace w) args = Ok resource ->
       outcome (get_import_url env arguments resource resources_mapping) w
         = Ok import_file ->
       exists rest', rest = EvHead import_file :: rest').
Proof.
  intros Hdebug Hmissing args.
  unfold events, final, main_job_body, main_job_resource.
  rewrite Hmissing. cbn [negb]. unfold now. run. fold args.
  destruct (resource_create env (w_trace w) args) as [resource|e]; cbn.
  - set (w1 := {| w_trace := w_trace w ++ [EvResourceCreate args];
                  w_files := w_files w; w_dirs := w_dirs w;
                  w_ticks := S (w_ticks w) |}).
    change (w_emit (EvResourceCreate args) _) with w1.
    destruct (main_job_sync_dry_run no_transfer env arguments resource
                resources_mapping Hdebug) with (w := w1)
      as (rest & Htrace & Hrest); try done.
    exists rest. unfold final in Htrace. rewrite Htrace. cbn.
    rewrite <- app_assoc, drop_app_length. repeat split; [done|].
    intros resource' import_file [= <-] Hurl.
    destruct (main_job_sync_probes_first env arguments resource
                resources_mapping w1 import_file) as (rest' & Hevents).
    { rewrite <- Hurl. apply get_import_url_outcome. }
    exists rest'. rewrite <- Hevents. symmetry. by apply events_spec.
  - exists []. rewrite drop_app_length. repeat split; [done|]. intros; done.
Qed.

Lemma only_emits_trace {A : Type} (m : M A) (w : world) :
  only_emits (fun _ => True) m ->
  w_trace (final m w) = w_trace w ++ events m w.
Proof.
  intros H. destruct (H w) as (evs & Htrace & _).
  by rewrite (events_spec m w evs Htrace).
Qed.

Lemma events_bind {A B : Type} (m : M A) (f : A -> M B) (w w' : world) (a : A) :
  only_emits (fun _ => True) m ->
  only_emits (fun _ => True) (f a) ->
  m w = (Ok a, w') ->
  events (m ≫= f) w = events m w ++ events (f a) w'.
Proof.
  intros Hm Hf Hrun. apply events_spec.
  assert (Hw' : w' = final m w) by (unfold final; by rewrite Hrun).
  unfold final at 1. rewrite run_bind, Hrun.
  change (w_trace (final (f a) w') = w_trace w ++ events m w ++ events (f a) w').
  rewrite (only_emits_trace (f a) w' Hf), Hw'.
  by rewrite (only_emits_trace m w Hm), app_assoc.
Qed.

Lemma events_bind_raise {A B : Type} (m : M A) (f : A -> M B) (w w' : world)
    (e : exn) :
  m w = (Raise e, w') -> events (m ≫= f) w = events m w.
Proof.
  intros Hrun. unfold events, final. by rewrite run_bind, Hrun.
Qed.

(** When a loop completes, every turn of it was taken, and what it emitted
    is a segment of what the loop emitted. *)
Lemma for_each_completed {A : Type} (body : A -> M unit) (l : list A) (w : world)
    (x : A) :
  (forall y, only_emits (fun _ => True) (body y)) ->
  outcome (for_each l body) w = Ok tt ->
  x ∈ l ->
  exists (w1 : world) (before after : list event),
    events (for_each l body) w = before ++ events (body x) w1 ++ after.
Proof.
  intros Hbody. revert w. induction l as [|y l IH]; intros w Hok Hin.
  - by apply elem_of_nil in Hin.
  - cbn [for_each] in *. unfold outcome in Hok. rewrite run_bind in Hok.
    destruct (body y w) as [[[]|e] w'] eqn:Hrun; [|done].
    rewrite (events_bind (body y) _ w w' tt); try done;
      [|by apply only_emits_for_each].
    apply elem_of_cons in Hin as [->|Hin].
    + by exists w, [], (events (for_each l body) w').
    + destruct (IH w' Hok Hin) as (w1 & before & after & Hevents).
      exists w1, (events (body y) w ++ before), after.
      by rewrite Hevents, <- app_assoc.
Qed.

Lemma lowered_format_run (res : gmap string pyval) (w : world) :
  lowered_format res w =
    (match res !! "format" with
     | Some (PStr s) => Ok (Str.lower s)
     | Some _ => Raise AttributeError
     | None => Raise (KeyError "format")
     end, w).
Proof.
  unfold lowered_format, getitem, py_lower.
  destruct (res !! "format") as [[]|]; reflexivity.
Qed.

(** Reading the formats of the resources touches nothing. *)
Lemma existing_formats_run (resources : list (gmap string pyval)) :
  exists formats : result (list string),
    forall w, map_M lowered_format resources w = (formats, w).
Proof.
  induction resources as [|res resources [formats IH]].
  - by exists (Ok []).
  - cbn [map_M].
    destruct (res !! "format") as [v|] eqn:Hformat.
    + destruct v as [| | |s|].
      4: { destruct formats as [l|e].
           - exists (Ok (Str.lower s :: l)). intros w.
             by rewrite run_bind, lowered_format_run, Hformat, run_bind, IH.
           - exists (Raise e). intros w.
             by rewrite run_bind, lowered_format_run, Hformat, run_bind, IH. }
      all: exists (Raise AttributeError); intros w;
        by rewrite run_bind, lowered_format_run, Hformat.
    + exists (Raise (KeyError "format")). intros w.
      by rewrite run_bind, lowered_format_run, Hformat.
Qed.

Lemma main_job_formats_loop (env : environment) (arguments : options)
    (package : package) (items : list (string * yaml))
    (existing_formats : list string) (w0 w : world) :
  outcome (map_M lowered_format (pkg_resources package)) w0 = Ok existing_formats ->
  main_job_formats env arguments package (YMap items) w =
    for_each (map fst items)
      (main_job_body env arguments package existing_formats (YMap items)) w.
Proof.
  intros Hexisting. destruct (existing_formats_run (pkg_resources package))
    as [formats Hrun].
  unfold outcome in Hexisting. rewrite Hrun in Hexisting. cbn in Hexisting.
  subst formats. unfold main_job_formats. by rewrite run_bind, Hrun.
Qed.

Lemma only_emits_main_job (P : event -> Prop) (env : environment)
    (arguments : options) (dataset : string) (resources_mapping : yaml) :
  (forall lvl msg, P (EvLog lvl msg)) ->
  P (EvPackageShow dataset) ->
  (forall package,
     only_emits P (main_job_formats env arguments package resources_mapping)) ->
  only_emits P (main_job env arguments dataset resources_mapping).
Proof. intros Hlog Hshow Hformats. unfold main_job. only_emits; auto. Qed.

(** C8. A dry run still writes to the repository.  In the turn of the loop
    for a mapped format that no resource of the package has, the
    placeholder is created by [resource_create] first and the source is
    probed next, before the flag is looked at; what the flag suppresses is
    [perform_import] alone: a dry run of [main_job] never fetches and
    never updates.  When such a run completes, the placeholder of every
    mapped format that was missing has been created. *)
Theorem dry_run_creates_placeholders (env : environment) (arguments : options)
    (dataset : string) (items : list (string * yaml)) (package : package)
    (existing_formats : list string) (w0 : world) :
  debug arguments = true ->
  outcome (map_M lowered_format (pkg_resources package)) w0
    = Ok existing_formats ->
  (forall (resource_format : string) (w : world),
     py_in resource_format existing_formats = false ->
     let args :=
       placeholder_args env package resource_format
         {| wall := clock env (w_ticks w); tzinfo := None |} in
     exists rest : list event,
       events (main_job_body env arguments package existing_formats
                 (YMap items) resource_format) w
         = EvResourceCreate args :: rest /\
       Forall no_transfer rest /\
       (forall resource import_file,
          resource_create env (w_trace w) args = Ok resource ->
          outcome (get_import_url env arguments resource (YMap items)) w
            = Ok import_file ->
          exists rest', rest = EvHead import_file :: rest')) /\
  (forall w : world,
     Forall no_transfer (events (main_job env arguments dataset (YMap items)) w)) /\
  (forall (w : world) (resource_format : string),
     package_show env (w_trace w) dataset = Ok package ->
     outcome (main_job env arguments dataset (YMap items)) w = Ok tt ->
     resource_format ∈ map fst items ->
     py_in resource_format existing_formats = false ->
     exists t : datetime,
       EvResourceCreate (placeholder_args env package resource_format t)
         ∈ events (main_job env arguments dataset (YMap items)) w).
Proof.
  intros Hdebug Hexisting. split; [|split].
  - intros resource_format w Hmissing.
    by apply main_job_body_dry_run_placeholder.
  - intros w. apply only_emits_events.
    apply only_emits_main_job; try done.
    intros package'.
    apply only_emits_main_job_formats with (R := fun _ => True); try done.
    intros. by apply main_job_sync_dry_run.
  - intros w resource_format Hshow Hok Hmapped Hmissing.
    set (w1 := w_emit (EvPackageShow dataset) w).
    assert (Hrun : main_job env arguments dataset (YMap items) w =
              for_each (map fst items)
                (main_job_body env arguments package existing_formats
                   (YMap items)) w1).
    { rewrite (main_job_found _ _ _ _ _ package Hshow).
      by eapply main_job_formats_loop. }
    unfold outcome in Hok. rewrite Hrun in Hok.
    destruct (for_each_completed
                (main_job_body env arguments package existing_formats
                   (YMap items)) (map fst items) w1 resource_format)
      as (w2 & before & after & Hevents); try done.
    { intros. apply only_emits_True_main_job_body. }
    destruct (main_job_body_dry_run_placeholder env arguments package
                existing_formats (YMap items) resource_format w2 Hdebug Hmissing)
      as (rest & Hbody & _).
    exists {| wall := clock env (w_ticks w2); tzinfo := None |}.
    assert (Hall : events (main_job env arguments dataset (YMap items)) w
              = EvPackageShow dataset ::
                events (for_each (map fst items)
                          (main_job_body env arguments package existing_formats
                             (YMap items))) w1).
    { apply events_spec. unfold final. rewrite Hrun.
      change (w_trace (final (for_each (map fst items)
                (main_job_body env arguments package existing_formats
                   (YMap items))) w1) = w_trace w ++ EvPackageShow dataset ::
              events (for_each (map fst items)
                (main_job_body env arguments package existing_formats
                   (YMap items))) w1).
      rewrite only_emits_trace.
      - subst w1. cbn. by rewrite <- app_assoc.
      - apply only_emits_for_each. intros.
        apply only_emits_True_main_job_body. }
    rewrite Hall, Hevents, Hbody.
    apply elem_of_cons. right. apply elem_of_app. right.
    apply elem_of_cons. by left.
Qed.

Lemma dry_run_creates_placeholders_example :
  let items := [("csv", YStr "/roads.csv"); ("kml", YStr "/roads.kml")] in
  let existing_formats := ["csv"; "csv"; "shp"] in
  (forall (resource_format : string) (w : world),
     py_in resource_format existing_formats = false ->
     let args :=
       placeholder_args Example.ex_env Example.roads resource_format
         {| wall := clock Example.ex_env (w_ticks w); tzinfo := None |} in
     exists rest : list event,
       events (main_job_body Example.ex_env Example.ex_dry_run Example.roads
                 existing_formats (YMap items) resource_format) w
         = EvResourceCreate args :: rest /\
       Forall no_transfer rest /\
       (forall resource import_file,
          resource_create Example.ex_env (w_trace w) args = Ok resource ->
          outcome (get_import_url Example.ex_env Example.ex_dry_run resource
                     (YMap items)) w = Ok import_file ->
          exists rest', rest = EvHead import_file :: rest')) /\
  (forall w : world,
     Forall no_transfer
       (events (main_job Example.ex_env Example.ex_dry_run "roads"
                  (YMap items)) w)) /\
  (forall (w : world) (resource_format : string),
     package_show Example.ex_env (w_trace w) "roads" = Ok Example.roads ->
     outcome (main_job Example.ex_env Example.ex_dry_run "roads"
                (YMap items)) w = Ok tt ->
     resource_format ∈ map fst items ->
     py_in resource_format existing_formats = false ->
     exists t : datetime,
       EvResourceCreate
         (placeholder_args Example.ex_env Example.roads resource_format t)
         ∈ events (main_job Example.ex_env Example.ex_dry_run "roads"
                     (YMap items)) w).
Proof.
  apply (dry_run_creates_placeholders Example.ex_env Example.ex_dry_run "roads"
           [("csv", YStr "/roads.csv"); ("kml", YStr "/roads.kml")]
           Example.roads ["csv"; "csv"; "shp"] Example.w0); reflexivity.
Defined.

(** The dry run of the example, in full: the [kml] placeholder is created
    on the repository although nothing is imported. *)
Example dry_run_trace :
  (main_job Example.ex_env Example.ex_dry_run "roads"
     (YMap [("csv", YStr "/roads.csv"); ("kml", YStr "/roads.kml")])
     Example.w0).1 = Ok tt /\
  events (main_job Example.ex_env Example.ex_dry_run "roads"
            (YMap [("csv", YStr "/roads.csv"); ("kml", YStr "/roads.kml")]))
    Example.w0 =
  [ EvPackageShow "roads";
    EvHead "http://gis/roads.csv";
    EvLog INFO "Would refresh http://ckan/r1";
    EvResourceCreate
      (placeholder_args Example.ex_env Example.roads "kml"
         {| wall := 150; tzinfo := None |});
    EvHead "http://gis/roads.kml";
    EvLog INFO "Would refresh http://example.com" ].
Proof. vm_compute. done. Qed.

(** ** One resource for each format *)

Lemma filter_first {A : Type} (Q : A -> Prop) `{forall x, Decision (Q x)}
    (l : list A) (r : A) (tl : list A) :
  filter Q l = r :: tl ->
  exists before after,
    l = before ++ r :: after /\ Q r /\ Forall (fun x => ~ Q x) before.
Proof.
  induction l as [|x l IH]; [done|]. rewrite filter_cons.
  destruct (decide (Q x)) as [HQ|HQ].
  - intros [= -> <-]. by exists [], l.
  - intros Hfilter. destruct (IH Hfilter) as (before & after & -> & Hr & Hbefore).
    exists (x :: before), after. repeat split; [done|]. by constructor.
Qed.

Lemma existing_formats_spec (resources : list (gmap string pyval)) (w : world)
    (existing_formats : list string) :
  outcome (map_M lowered_format resources) w = Ok existing_formats ->
  Forall2 (fun x format => lowered_format_of x = Some format)
    resources existing_formats.
Proof.
  revert existing_formats.
  induction resources as [|x l IH]; intros existing_formats; unfold outcome in *.
  - cbn. intros [= <-]. constructor.
  - cbn [map_M]. rewrite !run_bind, lowered_format_run.
    destruct (x !! "format") as [[| | |s|]|] eqn:Hx; try done.
    rewrite run_bind.
    destruct (map_M lowered_format l w) as [[tl|e] w'] eqn:Hrun; [|done].
    rewrite run_ret. cbn [fst]. intros [= <-]. constructor.
    + unfold lowered_format_of. by rewrite Hx.
    + by apply IH.
Qed.

Lemma filter_M_lowered_format_run (resource_format : string)
    (resources : list (gmap string pyval)) (existing_formats : list string)
    (w : world) :
  Forall2 (fun x format => lowered_format_of x = Some format)
    resources existing_formats ->
  filter_M (fun res =>
              lowered ← lowered_format res;
              mret (String.eqb lowered resource_format))
    resources w =
  (Ok (filter (fun x => lowered_format_of x = Some resource_format) resources), w).
Proof.
  induction 1 as [|x format l formats Hx _ IH]; [done|].
  cbn [filter_M]. rewrite !run_bind, lowered_format_run.
  unfold lowered_format_of in Hx.
  destruct (x !! "format") as [[| | |s|]|] eqn:Hformat; try done.
  rewrite run_ret, run_bind, IH, run_ret, filter_cons.
  assert (Hlowered : lowered_format_of x = Some (Str.lower s))
    by (unfold lowered_format_of; by rewrite Hformat).
  destruct (String.eqb_spec (Str.lower s) resource_format) as [Heq|Hne].
  - rewrite decide_True; [done | congruence].
  - rewrite decide_False; [done | congruence].
Qed.

Lemma filter_existing_nonempty (resource_format : string)
    (resources : list (gmap string pyval)) (existing_formats : list string) :
  Forall2 (fun x format => lowered_format_of x = Some format)
    resources existing_formats ->
  py_in resource_format existing_formats = true ->
  filter (fun x => lowered_format_of x = Some resource_format) resources <> [].
Proof.
  induction 1 as [|x format l formats Hx _ IH]; [done|].
  unfold py_in. cbn [existsb]. rewrite filter_cons.
  destruct (String.eqb_spec resource_format format) as [->|Hne].
  - by rewrite decide_True.
  - cbn. intros Hin. destruct (decide _); [done | by apply IH].
Qed.

Lemma filter_missing_empty (resource_format : string)
    (resources : list (gmap string pyval)) (existing_formats : list string) :
  Forall2 (fun x format => lowered_format_of x = Some format)
    resources existing_formats ->
  py_in resource_format existing_formats = false ->
  Forall (fun x => lowered_format_of x <> Some resource_format) resources.
Proof.
  induction 1 as [|x format l formats Hx _ IH]; [by constructor|].
  unfold py_in. cbn [existsb]. intros [Hne Hin]%orb_false_iff.
  constructor; [|by apply IH].
  rewrite Hx. intros [= ->]. by rewrite String.eqb_refl in Hne.
Qed.

(** The turn of a format that no resource of the package has: CKAN is
    asked for a placeholder, which is synchronised when it is answered. *)
Lemma main_job_body_placeholder_run (env : environment) (arguments : options)
    (package : package) (existing_formats : list string)
    (resources_mapping : yaml) (resource_format : string) (w : world) :
  py_in resource_format existing_formats = false ->
  let args :=
    placeholder_args env package resource_format
      {| wall := clock env (w_ticks w); tzinfo := None |} in
  main_job_body env arguments package existing_formats resources_mapping
    resource_format w =
    match resource_create env (w_trace w) args with
    | Ok resource =>
        main_job_sync env arguments resource resources_mapping
          {| w_trace := w_trace w ++ [EvResourceCreate args];
             w_files := w_files w; w_dirs := w_dirs w;
             w_ticks := S (w_ticks w) |}
    | Raise e =>
        (Raise e,
         {| w_trace := w_trace w ++ [EvResourceCreate args];
            w_files := w_files w; w_dirs := w_dirs w;
            w_ticks := S (w_ticks w) |})
    end.
Proof.
  intros Hmissing args. unfold main_job_body, main_job_resource.
  rewrite Hmissing. cbn [negb]. unfold now. run. fold args.
  by destruct (resource_create env (w_trace w) args).
Qed.

(** *** At most one update *)

(** Events that [Q] rejects are not counted. *)
Lemma filter_quiet (Q : event -> bool) (evs : list event) :
  Forall (fun e => Q e = false) evs -> List.filter Q evs = [].
Proof.
  induction 1 as [|e evs He _ IH]; [done|]. cbn. by rewrite He.
Qed.

Lemma updates_once_quiet {A : Type} (m : M A) :
  only_emits (fun e => is_update e = false) m -> updates_once m.
Proof.
  intros Hm w. destruct (Hm w) as (evs & Htrace & Hquiet).
  exists evs. split; [done|]. rewrite (filter_quiet _ _ Hquiet). cbn. lia.
Qed.

(** The update, if any, is made by the last step of a sequence. *)
Lemma updates_once_bind {A B : Type} (m : M A) (f : A -> M B) :
  only_emits (fun e => is_update e = false) m ->
  (forall a, updates_once (f a)) ->
  updates_once (m ≫= f).
Proof.
  intros Hm Hf w. destruct (Hm w) as (evs1 & Htrace1 & Hquiet).
  unfold final in *. rewrite run_bind.
  destruct (m w) as [[a|e] w1]; cbn in *.
  - destruct (Hf a w1) as (evs2 & Htrace2 & Hlen). unfold final in Htrace2.
    exists (evs1 ++ evs2). split.
    + by rewrite Htrace2, Htrace1, app_assoc.
    + by rewrite List.filter_app, (filter_quiet _ _ Hquiet).
  - exists evs1. split; [done|]. rewrite (filter_quiet _ _ Hquiet). cbn. lia.
Qed.

(** Solves the goal that a step makes no update. *)
Ltac quiet :=
  solve [ only_emits;
          first [ reflexivity
                | apply only_emits_getitem
                | apply only_emits_py_lower
                | apply only_emits_yaml_getitem
                | apply only_emits_get_import_url
                | apply only_emits_out_of_date; reflexivity
                | apply only_emits_stage_sub_file; reflexivity ] ].

Ltac updates_once_step :=
  match goal with
  | |- updates_once (_ ≫= _) => apply updates_once_bind; [quiet | intros]
  | |- updates_once (match ?x with _ => _ end) => destruct x
  end.

Section updates_once_script.

Context (env : environment) (arguments : options).

Lemma updates_once_upload_file_to_resource (resource : gmap string pyval)
    (file_object : fcontent) :
  updates_once (upload_file_to_resource env resource file_object).
Proof.
  intros w. unfold final, upload_file_to_resource, getitem, py_lower, now. run.
  repeat (case_match; simplify_eq; run);
    first [ exists []; split; [by rewrite app_nil_r | cbn; lia]
          | eexists; split;
            [rewrite <- ?app_assoc; cbn [app]; reflexivity | cbn; lia] ].
Qed.

Lemma updates_once_import_shapefile (resource : gmap string pyval)
    (mapping : yaml) :
  updates_once (import_shapefile env arguments resource mapping).
Proof.
  unfold import_shapefile, py_add_str, iteritems.
  repeat updates_once_step;
    first [ apply updates_once_upload_file_to_resource
          | apply updates_once_quiet; quiet ].
Qed.

Lemma updates_once_perform_import (resource : gmap string pyval)
    (mapping : yaml) :
  updates_once (perform_import env arguments resource mapping).
Proof.
  unfold perform_import.
  repeat updates_once_step;
    first [ apply updates_once_upload_file_to_resource
          | apply updates_once_import_shapefile
          | apply updates_once_quiet; quiet ].
Qed.

Lemma updates_once_main_job_sync (resource : gmap string pyval)
    (mapping : yaml) :
  updates_once (main_job_sync env arguments resource mapping).
Proof.
  unfold main_job_sync.
  repeat updates_once_step;
    first [ apply updates_once_perform_import
          | apply updates_once_quiet; quiet ].
Qed.

End updates_once_script.


(** *** The resources a run acts on *)

(** The events of a computation that goes on as [m'] after [pre]. *)
Lemma events_after {A : Type} (m m' : M A) (w w1 : world) (pre : list event) :
  m w = m' w1 ->
  w_trace w1 = w_trace w ++ pre ->
  only_emits (fun _ => True) m' ->
  events m w = pre ++ events m' w1.
Proof.
  intros Hrun Htrace Hm'. apply events_spec. unfold final. rewrite Hrun.
  assert (H := only_emits_trace m' w1 Hm'). unfold final in H.
  by rewrite H, Htrace, <- app_assoc.
Qed.

(** The update keeps the format of the resource. *)
Lemma lowered_format_of_updated (r : gmap string pyval) (a b : pyval) :
  lowered_format_of (<["last_modified" := a]> (<["upload" := b]> r))
    = lowered_format_of r.
Proof. unfold lowered_format_of. by rewrite !lookup_insert_ne. Qed.

Lemma updates_only_impl (R R' : gmap string pyval -> Prop) (e : event) :
  (forall r, R r -> R' r) -> updates_only R e -> updates_only R' e.
Proof.
  intros HR. destruct e; try done.
  intros (r & filename & file_object & stamp & Hr & ->).
  exists r, filename, file_object, stamp. by split; [apply HR|].
Qed.

(** When at most one element of a list is accepted by [Q], two accepted
    elements are at the same place. *)
Lemma at_most_one_index {A : Type} (Q : A -> bool) (l : list A) (i j : nat)
    (x y : A) :
  length (List.filter Q l) <= 1 ->
  l !! i = Some x -> l !! j = Some y -> Q x = true -> Q y = true -> i = j.
Proof.
  revert i j. induction l as [|z l IH]; intros i j Hlen Hi Hj Hx Hy; [done|].
  cbn in Hlen.
  assert (Hnone : forall k v, Q z = true -> l !! k = Some v -> Q v = true -> False).
  { intros k v Hz Hk Hv. rewrite Hz in Hlen. cbn in Hlen.
    assert (Hin : In v (List.filter Q l)).
    { apply filter_In. split; [|done]. by eapply list_elem_of_In, list_elem_of_lookup_2. }
    destruct (List.filter Q l); [done | cbn in Hlen; lia]. }
  destruct i as [|i], j as [|j]; cbn in Hi, Hj; simplify_eq.
  - done.
  - by destruct (Hnone j y).
  - by destruct (Hnone i x).
  - f_equal. apply IH; try done. destruct (Q z); cbn in Hlen; lia.
Qed.

(** An element of [l1 ++ l2] is in [l1] or in [l2]. *)
Lemma app_eq_mid {A : Type} (l1 l2 pre post : list A) (x : A) :
  l1 ++ l2 = pre ++ x :: post ->
  (exists post1, l1 = pre ++ x :: post1 /\ post = post1 ++ l2) \/
  (exists pre2, pre = l1 ++ pre2 /\ l2 = pre2 ++ x :: post).
Proof.
  revert pre. induction l1 as [|a l1 IH]; intros pre Heq.
  - right. by exists pre.
  - destruct pre as [|b pre]; cbn in Heq; injection Heq as <- Heq.
    + left. by exists l1.
    + destruct (IH pre Heq) as [(post1 & -> & ->) | (pre2 & -> & ->)].
      * left. by exists post1.
      * right. by exists pre2.
Qed.


Section one_per_format.

Context (env : environment) (arguments : options) (package : package).
Context (resources_mapping : yaml) (existing_formats : list string).
Context (Hexisting : Forall2 (fun x format => lowered_format_of x = Some format)
                       (pkg_resources package) existing_formats).
Context (Hecho : forall h args r, resource_create env h args = Ok r ->
                                  r !! "format" = args !! "format").

(** What the synchronisation of [r] emits. *)
Lemma main_job_sync_acts_on (r : gmap string pyval) (w : world) :
  Forall (fun e => is_create e = false /\ updates_only (fun x => x = r) e)
    (events (main_job_sync env arguments r resources_mapping) w) /\
  length (List.filter is_update
            (events (main_job_sync env arguments r resources_mapping) w)) <= 1.
Proof.
  split.
  - apply only_emits_events. apply only_emits_main_job_sync; try done.
    intros filename file_object stamp. split; [done|].
    by exists r, filename, file_object, stamp.
  - destruct (updates_once_main_job_sync env arguments r resources_mapping w)
      as (evs & Htrace & Hlen).
    by rewrite (events_spec _ _ _ Htrace).
Qed.

(** One turn of the loop of [main_job]. *)
Lemma main_job_body_acts_on (key : string) (w : world) :
  Str.lower key = key ->
  let evs := events (main_job_body env arguments package existing_formats
                       resources_mapping key) w in
  (forall pre updated post,
     evs = pre ++ EvResourceUpdate updated :: post ->
     updates_only (resource_of_format env package (w_trace w) pre key)
       (EvResourceUpdate updated)) /\
  (forall pre args post,
     evs = pre ++ EvResourceCreate args :: post ->
     (exists t, args = placeholder_args env package key t) /\
     Forall (fun x => lowered_format_of x <> Some key) (pkg_resources package)) /\
  length (List.filter is_update evs) <= 1 /\
  length (List.filter is_create evs) <= 1.
Proof.
  intros Hkey evs.
  destruct (py_in key existing_formats) eqn:Hin.
  - assert (Hne := filter_existing_nonempty key _ _ Hexisting Hin).
    destruct (filter (fun x => lowered_format_of x = Some key)
                (pkg_resources package)) as [|selected tl] eqn:Hfilter; [done|].
    destruct (filter_first _ _ _ _ Hfilter)
      as (before & after & Hsplit & Hselected & Hbefore).
    assert (Hrun : main_job_body env arguments package existing_formats
                     resources_mapping key w
                   = main_job_sync env arguments selected resources_mapping w).
    { unfold main_job_body, main_job_resource. rewrite Hin. cbn [negb].
      rewrite !run_bind.
      rewrite (filter_M_lowered_format_run key _ _ w Hexisting).
      by rewrite Hfilter. }
    assert (Hevs : evs = events (main_job_sync env arguments selected
                                   resources_mapping) w).
    { unfold evs, events, final. by rewrite Hrun. }
    destruct (main_job_sync_acts_on selected w) as [HP Hlen].
    rewrite <- Hevs in HP, Hlen. clearbody evs.
    split; [|split; [|split]].
    + intros pre updated post ->.
      apply Forall_app in HP as [_ HP]. apply Forall_cons in HP as [[_ HP] _].
      eapply updates_only_impl; [|exact HP]. intros r ->.
      split; [done|]. left. by exists before, after, key.
    + intros pre args post ->.
      apply Forall_app in HP as [_ HP]. by apply Forall_cons in HP as [[? _] _].
    + done.
    + rewrite (filter_quiet is_create evs); [cbn; lia|].
      eapply Forall_impl; [exact HP|]. by intros e [? _].
  - assert (Hmissing := filter_missing_empty key _ _ Hexisting Hin).
    assert (Hrun := main_job_body_placeholder_run env arguments package
                      existing_formats resources_mapping key w Hin).
    cbv zeta in Hrun.
    set (t := {| wall := clock env (w_ticks w); tzinfo := None |}) in *.
    set (args := placeholder_args env package key t) in *.
    set (w1 := {| w_trace := w_trace w ++ [EvResourceCreate args];
                  w_files := w_files w; w_dirs := w_dirs w;
                  w_ticks := S (w_ticks w) |}) in *.
    destruct (resource_create env (w_trace w) args) as [r|e] eqn:Hcreate.
    + assert (Hevs : evs = [EvResourceCreate args]
                       ++ events (main_job_sync env arguments r
                                    resources_mapping) w1).
      { apply (events_after _ _ w w1); [done | done |].
        apply only_emits_True_main_job_sync. }
      destruct (main_job_sync_acts_on r w1) as [HP Hlen].
      set (evs2 := events _ w1) in *. clearbody evs evs2. subst evs.
      assert (Hformat : lowered_format_of r = Some key).
      { unfold lowered_format_of. rewrite (Hecho _ _ _ Hcreate).
        unfold args, placeholder_args.
        rewrite !lookup_insert_ne, lookup_insert_eq by done. by rewrite Hkey. }
      split; [|split; [|split]].
      * intros pre updated post Heq.
        destruct pre as [|first pre]; cbn in Heq; simplify_eq.
        apply Forall_app in HP as [_ HP]. apply Forall_cons in HP as [[_ HP] _].
        eapply updates_only_impl; [|exact HP]. intros r' ->.
        split; [done|]. right. split; [done|].
        exists [], pre, t. split; [done|]. by rewrite app_nil_r.
      * intros pre args' post Heq.
        destruct pre as [|first pre]; cbn in Heq; simplify_eq.
        -- split; [by exists t | done].
        -- apply Forall_app in HP as [_ HP].
           by apply Forall_cons in HP as [[? _] _].
      * done.
      * cbn. rewrite (filter_quiet is_create evs2); [cbn; lia|].
        eapply Forall_impl; [exact HP|]. by intros e [? _].
    + assert (Hevs : evs = [EvResourceCreate args]).
      { apply events_spec. unfold final. by rewrite Hrun. }
      clearbody evs. subst evs.
      split; [|split; [|split]].
      * intros pre updated post Heq.
        destruct pre as [|? [|? ?]]; cbn in Heq; simplify_eq.
      * intros pre args' post Heq.
        destruct pre as [|? [|? ?]]; cbn in Heq; simplify_eq.
        split; [by exists t | done].
      * cbn. lia.
      * cbn. lia.
Qed.

(** The loop of [main_job] over lower-case keys that are all different:
    the turns act on resources of different lower-cased formats. *)
Lemma for_each_acts_on (keys : list string) (w : world) :
  NoDup keys ->
  Forall (fun key => Str.lower key = key) keys ->
  let evs := events (for_each keys
                       (main_job_body env arguments package existing_formats
                          resources_mapping)) w in
  (forall pre updated post,
     evs = pre ++ EvResourceUpdate updated :: post ->
     exists key, key ∈ keys /\
       updates_only (resource_of_format env package (w_trace w) pre key)
         (EvResourceUpdate updated)) /\
  (forall pre args post,
     evs = pre ++ EvResourceCreate args :: post ->
     exists key t, key ∈ keys /\ args = placeholder_args env package key t /\
       Forall (fun x => lowered_format_of x <> Some key) (pkg_resources package)) /\
  (forall i j u1 u2,
     evs !! i = Some (EvResourceUpdate u1) ->
     evs !! j = Some (EvResourceUpdate u2) ->
     lowered_format_of u1 = lowered_format_of u2 -> i = j) /\
  (forall i j a1 a2,
     evs !! i = Some (EvResourceCreate a1) ->
     evs !! j = Some (EvResourceCreate a2) ->
     a1 !! "format" = a2 !! "format" -> i = j).
Proof.
  intros Hnodup Hkeys. revert w.
  induction keys as [|key keys IH]; intros w evs.
  - assert (Hevs : evs = []).
    { apply events_spec. by rewrite app_nil_r. }
    clearbody evs. subst evs.
    repeat split; intros; by try destruct pre.
  - apply NoDup_cons in Hnodup as [Hfresh Hnodup].
    apply Forall_cons in Hkeys as [Hkey Hkeys].
    set (body := main_job_body env arguments package existing_formats
                   resources_mapping) in *.
    destruct (main_job_body_acts_on key w Hkey)
      as (HU1 & HC1 & Hlen_u & Hlen_c).
    fold body in HU1, HC1, Hlen_u, Hlen_c.
    assert (Hbody : only_emits (fun _ => True) (body key)).
    { apply only_emits_True_main_job_body. }
    assert (Htrace1 := only_emits_trace (body key) w Hbody).
    set (e1 := events (body key) w) in *.
    (* the events of the rest of the loop, when it is reached *)
    assert (Hsplit : exists (w1 : world) (e2 : list event),
               evs = e1 ++ e2 /\
               (e2 = [] \/
                (w_trace w1 = w_trace w ++ e1 /\
                 e2 = events (for_each keys body) w1))).
    { unfold evs, e1 in *. cbn [for_each].
      destruct (body key w) as [[[]|e] w1] eqn:Hrun.
      - exists w1, (events (for_each keys body) w1).
        unfold final in Htrace1. rewrite Hrun in Htrace1. cbn in Htrace1.
        split; [|by right].
        rewrite (events_bind (body key) (fun _ => for_each keys body) w w1 tt);
          try done.
        apply only_emits_for_each. intros. apply only_emits_True_main_job_body.
      - exists w, []. split; [|by left].
        by rewrite (events_bind_raise _ _ w w1 e), app_nil_r. }
    destruct Hsplit as (w1 & e2 & Hevs & He2). clearbody evs e1. subst evs.
    assert (Hrest :
      (forall pre updated post,
         e2 = pre ++ EvResourceUpdate updated :: post ->
         exists key', key' ∈ keys /\
           updates_only (resource_of_format env package (w_trace w ++ e1) pre key')
             (EvResourceUpdate updated)) /\
      (forall pre args post,
         e2 = pre ++ EvResourceCreate args :: post ->
         exists key' t, key' ∈ keys /\
           args = placeholder_args env package key' t /\
           Forall (fun x => lowered_format_of x <> Some key')
             (pkg_resources package)) /\
      (forall i j u1 u2,
         e2 !! i = Some (EvResourceUpdate u1) ->
         e2 !! j = Some (EvResourceUpdate u2) ->
         lowered_format_of u1 = lowered_format_of u2 -> i = j) /\
      (forall i j a1 a2,
         e2 !! i = Some (EvResourceCreate a1) ->
         e2 !! j = Some (EvResourceCreate a2) ->
         a1 !! "format" = a2 !! "format" -> i = j)).
    { destruct He2 as [-> | [Htrace ->]].
      - repeat split; intros; by try destruct pre.
      - rewrite <- Htrace. by apply IH. }
    clear IH He2. destruct Hrest as (HU2 & HC2 & HUU2 & HCC2).
    (* the format of an update, and of a create *)
    assert (Hformat1 : forall i u, e1 !! i = Some (EvResourceUpdate u) ->
                                   lowered_format_of u = Some key).
    { intros i u Hi. apply list_elem_of_split_length in Hi as (pre & post & -> & _).
      destruct (HU1 pre u post eq_refl)
        as (r & filename & file_object & stamp & [Hr _] & ->).
      by rewrite lowered_format_of_updated. }
    assert (Hformat2 : forall i u, e2 !! i = Some (EvResourceUpdate u) ->
               exists key', key' ∈ keys /\ lowered_format_of u = Some key').
    { intros i u Hi. apply list_elem_of_split_length in Hi as (pre & post & -> & _).
      destruct (HU2 pre u post eq_refl)
        as (key' & Hin & r & filename & file_object & stamp & [Hr _] & ->).
      exists key'. by rewrite lowered_format_of_updated. }
    assert (Hargs1 : forall i a, e1 !! i = Some (EvResourceCreate a) ->
                                 a !! "format" = Some (PStr key)).
    { intros i a Hi. apply list_elem_of_split_length in Hi as (pre & post & -> & _).
      destruct (HC1 pre a post eq_refl) as [[t ->] _].
      unfold placeholder_args.
      by rewrite !lookup_insert_ne, lookup_insert_eq by done. }
    assert (Hargs2 : forall i a, e2 !! i = Some (EvResourceCreate a) ->
               exists key', key' ∈ keys /\ a !! "format" = Some (PStr key')).
    { intros i a Hi. apply list_elem_of_split_length in Hi as (pre & post & -> & _).
      destruct (HC2 pre a post eq_refl) as (key' & t & Hin & -> & _).
      exists key'. split; [done|]. unfold placeholder_args.
      by rewrite !lookup_insert_ne, lookup_insert_eq by done. }
    split; [|split; [|split]].
    + intros pre updated post Heq.
      apply app_eq_mid in Heq as [(post1 & Heq & _) | (pre2 & -> & Heq)].
      * exists key. split; [apply elem_of_cons; by left|]. by eapply HU1.
      * destruct (HU2 pre2 updated post Heq) as (key' & Hin & Hupdate).
        exists key'. split; [apply elem_of_cons; by right|].
        eapply updates_only_impl; [|exact Hupdate].
        intros r [Hr [Hfirst | [Hnone (pre1 & pre3 & t & -> & Hcreate)]]];
          (split; [done|]); [by left | right].
        split; [done|]. exists (e1 ++ pre1), pre3, t.
        split; [by rewrite <- app_assoc | by rewrite app_assoc].
    + intros pre args post Heq.
      apply app_eq_mid in Heq as [(post1 & Heq & _) | (pre2 & -> & Heq)].
      * destruct (HC1 pre args post1 Heq) as [[t ->] Hnone].
        exists key, t. split; [apply elem_of_cons; by left | done].
      * destruct (HC2 pre2 args post Heq) as (key' & t & Hin & -> & Hnone).
        exists key', t. split; [apply elem_of_cons; by right | done].
    + intros i j u1 u2 Hi Hj Heq.
      apply lookup_app_Some in Hi as [Hi | [Hlen_i Hi]];
        apply lookup_app_Some in Hj as [Hj | [Hlen_j Hj]].
      * by apply (at_most_one_index is_update e1 i j _ _ Hlen_u Hi Hj).
      * destruct (Hformat2 _ _ Hj) as (key' & Hin & Hu2).
        rewrite (Hformat1 _ _ Hi), Hu2 in Heq. by simplify_eq.
      * destruct (Hformat2 _ _ Hi) as (key' & Hin & Hu1).
        rewrite (Hformat1 _ _ Hj), Hu1 in Heq. by simplify_eq.
      * assert (i - length e1 = j - length e1) by by eapply HUU2. lia.
    + intros i j a1 a2 Hi Hj Heq.
      apply lookup_app_Some in Hi as [Hi | [Hlen_i Hi]];
        apply lookup_app_Some in Hj as [Hj | [Hlen_j Hj]].
      * by apply (at_most_one_index is_create e1 i j _ _ Hlen_c Hi Hj).
      * destruct (Hargs2 _ _ Hj) as (key' & Hin & Ha2).
        rewrite (Hargs1 _ _ Hi), Ha2 in Heq. by simplify_eq.
      * destruct (Hargs2 _ _ Hi) as (key' & Hin & Ha1).
        rewrite (Hargs1 _ _ Hj), Ha1 in Heq. by simplify_eq.
      * assert (i - length e1 = j - length e1) by by eapply HCC2. lia.
Qed.

End one_per_format.


(** C10. A run of [main_job] acts on one resource for each lower-cased
    format.  The mapping's keys are lower-case format names, each once, as
    the mapping file has them; formats are ASCII, where [Str.lower] is
    Python's [lower()]; and CKAN stores a placeholder under the format it
    is given.  Then, in the events of the run:
    - every [resource_update] is the update of a resource whose
      lower-cased format is a key of the mapping, and which is the first
      resource of the package's list with that lower-cased format, or,
      when the package has no resource of the format, the placeholder that
      CKAN answered to a [resource_create] made earlier in this run for
      that key;
    - every [resource_create] asks for the placeholder of a key that no
      resource of the package has;
    - two updates never are of the same lower-cased format, and two
      creations never ask for the same format: no resource is updated
      twice, and a resource that has an earlier sibling with its
      lower-cased format is never updated.
    When the mapped format is among the existing ones, the turn of the
    loop selects the first resource of the list with it, without any
    call, and is the synchronisation (staleness check and import) of it
    and of nothing else; a placeholder is asked for only when no resource
    of the package has the mapped format. *)
Theorem one_resource_per_format (env : environment) (arguments : options)
    (dataset : string) (items : list (string * yaml)) (w : world)
    (package : package) :
  package_show env (w_trace w) dataset = Ok package ->
  NoDup (map fst items) ->
  Forall (fun key => Str.is_ascii key = true /\ Str.lower key = key)
    (map fst items) ->
  Forall (fun x => forall s, x !! "format" = Some (PStr s) ->
                             Str.is_ascii s = true)
    (pkg_resources package) ->
  (forall h args r, resource_create env h args = Ok r ->
                    r !! "format" = args !! "format") ->
  let trace := events (main_job env arguments dataset (YMap items)) w in
  (forall pre updated post,
     trace = pre ++ EvResourceUpdate updated :: post ->
     exists key, key ∈ map fst items /\
       updates_only (resource_of_format env package (w_trace w) pre key)
         (EvResourceUpdate updated)) /\
  (forall pre args post,
     trace = pre ++ EvResourceCreate args :: post ->
     exists key t, key ∈ map fst items /\
       args = placeholder_args env package key t /\
       Forall (fun x => lowered_format_of x <> Some key) (pkg_resources package)) /\
  (forall i j u1 u2,
     trace !! i = Some (EvResourceUpdate u1) ->
     trace !! j = Some (EvResourceUpdate u2) ->
     lowered_format_of u1 = lowered_format_of u2 -> i = j) /\
  (forall i j a1 a2,
     trace !! i = Some (EvResourceCreate a1) ->
     trace !! j = Some (EvResourceCreate a2) ->
     a1 !! "format" = a2 !! "format" -> i = j) /\
  (forall (existing_formats : list string) (resource_format : string) (w' : world),
     outcome (map_M lowered_format (pkg_resources package)) w'
       = Ok existing_formats ->
     py_in resource_format existing_formats = true ->
     exists (before : list (gmap string pyval)) (selected : gmap string pyval)
            (after : list (gmap string pyval)),
       pkg_resources package = before ++ selected :: after /\
       lowered_format_of selected = Some resource_format /\
       Forall (fun x => lowered_format_of x <> Some resource_format) before /\
       main_job_resource env package existing_formats resource_format w'
         = (Ok selected, w') /\
       main_job_body env arguments package existing_formats (YMap items)
         resource_format w'
         = main_job_sync env arguments selected (YMap items) w') /\
  (forall (existing_formats : list string) (resource_format : string) (w' : world),
     outcome (map_M lowered_format (pkg_resources package)) w'
       = Ok existing_formats ->
     py_in resource_format existing_formats = false ->
     Forall (fun x => lowered_format_of x <> Some resource_format)
       (pkg_resources package)).
Proof.
  intros Hshow Hnodup Hkeys _ Hecho trace.
  assert (Hlower : Forall (fun key => Str.lower key = key) (map fst items)).
  { eapply Forall_impl; [exact Hkeys|]. by intros key [_ ?]. }
  assert (Hloop :
    exists evs : list event,
      trace = EvPackageShow dataset :: evs /\
      (forall pre updated post,
         evs = pre ++ EvResourceUpdate updated :: post ->
         exists key, key ∈ map fst items /\
           updates_only
             (resource_of_format env package
                (w_trace w ++ [EvPackageShow dataset]) pre key)
             (EvResourceUpdate updated)) /\
      (forall pre args post,
         evs = pre ++ EvResourceCreate args :: post ->
         exists key t, key ∈ map fst items /\
           args = placeholder_args env package key t /\
           Forall (fun x => lowered_format_of x <> Some key)
             (pkg_resources package)) /\
      (forall i j u1 u2,
         evs !! i = Some (EvResourceUpdate u1) ->
         evs !! j = Some (EvResourceUpdate u2) ->
         lowered_format_of u1 = lowered_format_of u2 -> i = j) /\
      (forall i j a1 a2,
         evs !! i = Some (EvResourceCreate a1) ->
         evs !! j = Some (EvResourceCreate a2) ->
         a1 !! "format" = a2 !! "format" -> i = j)).
  { set (w1 := w_emit (EvPackageShow dataset) w).
    assert (Hfound := main_job_found env arguments dataset (YMap items) w
                        package Hshow). fold w1 in Hfound.
    destruct (existing_formats_run (pkg_resources package))
      as [[existing_formats|e] Hformats].
    - assert (Hexisting : outcome (map_M lowered_format (pkg_resources package))
                            w1 = Ok existing_formats).
      { unfold outcome. by rewrite Hformats. }
      rewrite (main_job_formats_loop env arguments package items
                 existing_formats w1 w1 Hexisting) in Hfound.
      apply existing_formats_spec in Hexisting.
      exists (events (for_each (map fst items)
                        (main_job_body env arguments package existing_formats
                           (YMap items))) w1).
      split.
      + unfold trace.
        apply (events_after _ _ w w1 [EvPackageShow dataset] Hfound); [done|].
        apply only_emits_for_each. intros.
        apply only_emits_True_main_job_body.
      + by apply (for_each_acts_on env arguments package (YMap items)
                    existing_formats Hexisting Hecho (map fst items) w1).
    - exists []. split.
      + unfold trace. apply events_spec. unfold final. rewrite Hfound.
        unfold main_job_formats. by rewrite run_bind, Hformats.
      + repeat split; intros; by try destruct pre. }
  destruct Hloop as (evs & Htrace & HU & HC & HUU & HCC).
  clearbody trace. subst trace.
  split; [|split; [|split; [|split; [|split]]]].
  - intros pre updated post Heq.
    destruct pre as [|first pre]; cbn in Heq; simplify_eq.
    destruct (HU pre updated post eq_refl) as (key & Hin & Hupdate).
    exists key. split; [done|].
    eapply updates_only_impl; [|exact Hupdate].
    intros r [Hr [Hfirst | [Hnone (pre1 & pre2 & t & -> & Hcreate)]]];
      (split; [done|]); [by left | right].
    split; [done|]. exists (EvPackageShow dataset :: pre1), pre2, t.
    split; [done|]. by rewrite <- app_assoc in Hcreate.
  - intros pre args post Heq.
    destruct pre as [|first pre]; cbn in Heq; simplify_eq.
    by eapply HC.
  - intros [|i] [|j] u1 u2 Hi Hj Heq; cbn in Hi, Hj; simplify_eq.
    f_equal. by eapply HUU.
  - intros [|i] [|j] a1 a2 Hi Hj Heq; cbn in Hi, Hj; simplify_eq.
    f_equal. by eapply HCC.
  - intros existing_formats resource_format w' Hexisting Hin.
    apply existing_formats_spec in Hexisting.
    assert (Hne := filter_existing_nonempty resource_format _ _ Hexisting Hin).
    destruct (filter (fun x => lowered_format_of x = Some resource_format)
                (pkg_resources package)) as [|selected tl] eqn:Hfilter; [done|].
    destruct (filter_first _ _ _ _ Hfilter)
      as (before & after & Hsplit & Hselected & Hbefore).
    assert (Hresource : main_job_resource env package existing_formats
                          resource_format w' = (Ok selected, w')).
    { unfold main_job_resource. rewrite Hin. cbn [negb].
      rewrite run_bind.
      rewrite (filter_M_lowered_format_run resource_format _ _ w' Hexisting).
      by rewrite Hfilter. }
    exists before, selected, after. repeat split; try done.
    unfold main_job_body. by rewrite run_bind, Hresource.
  - intros existing_formats resource_format w' Hexisting Hmissing.
    apply existing_formats_spec in Hexisting.
    by eapply filter_missing_empty.
Qed.


Lemma one_resource_per_format_example :
  let items := [("csv", YStr "/roads.csv"); ("kml", YStr "/roads.kml")] in
  let trace := events (main_job Example.ex_env Example.ex_args "roads"
                         (YMap items)) Example.w0 in
  (forall pre updated post,
     trace = pre ++ EvResourceUpdate updated :: post ->
     exists key, key ∈ map fst items /\
       updates_only (resource_of_format Example.ex_env Example.roads
                       (w_trace Example.w0) pre key)
         (EvResourceUpdate updated)) /\
  (forall pre args post,
     trace = pre ++ EvResourceCreate args :: post ->
     exists key t, key ∈ map fst items /\
       args = placeholder_args Example.ex_env Example.roads key t /\
       Forall (fun x => lowered_format_of x <> Some key)
         (pkg_resources Example.roads)) /\
  (forall i j u1 u2,
     trace !! i = Some (EvResourceUpdate u1) ->
     trace !! j = Some (EvResourceUpdate u2) ->
     lowered_format_of u1 = lowered_format_of u2 -> i = j) /\
  (forall i j a1 a2,
     trace !! i = Some (EvResourceCreate a1) ->
     trace !! j = Some (EvResourceCreate a2) ->
     a1 !! "format" = a2 !! "format" -> i = j) /\
  (forall (existing_formats : list string) (resource_format : string) (w' : world),
     outcome (map_M lowered_format (pkg_resources Example.roads)) w'
       = Ok existing_formats ->
     py_in resource_format existing_formats = true ->
     exists (before : list (gmap string pyval)) (selected : gmap string pyval)
            (after : list (gmap string pyval)),
       pkg_resources Example.roads = before ++ selected :: after /\
       lowered_format_of selected = Some resource_format /\
       Forall (fun x => lowered_format_of x <> Some resource_format) before /\
       main_job_resource Example.ex_env Example.roads existing_formats
         resource_format w' = (Ok selected, w') /\
       main_job_body Example.ex_env Example.ex_args Example.roads
         existing_formats (YMap items) resource_format w'
         = main_job_sync Example.ex_env Example.ex_args selected (YMap items) w') /\
  (forall (existing_formats : list string) (resource_format : string) (w' : world),
     outcome (map_M lowered_format (pkg_resources Example.roads)) w'
       = Ok existing_formats ->
     py_in resource_format existing_formats = false ->
     Forall (fun x => lowered_format_of x <> Some resource_format)
       (pkg_resources Example.roads)).
Proof.
  apply (one_resource_per_format Example.ex_env Example.ex_args "roads"
           [("csv", YStr "/roads.csv"); ("kml", YStr "/roads.kml")]
           Example.w0 Example.roads).
  - reflexivity.
  - apply (bool_decide_unpack _). reflexivity.
  - repeat constructor.
  - repeat constructor; intros s Hs; vm_compute in Hs; by injection Hs as <-.
  - by intros h args r [= <-].
Defined.

(** The run of that example: the placeholder of [kml], which no resource
    of the package has, is created, found stale and updated; of the two
    resources of format csv the first one is updated. *)
Example csv_and_kml_trace :
  exists updated created : gmap string pyval,
    events (main_job Example.ex_env Example.ex_args "roads"
              (YMap [("csv", YStr "/roads.csv"); ("kml", YStr "/roads.kml")]))
      Example.w0 =
    [ EvPackageShow "roads";
      EvHead "http://gis/roads.csv";
      EvLog INFO "updating resource roads:CSV";
      EvGet "http://gis/roads.csv";
      EvResourceUpdate updated;
      EvResourceCreate
        (placeholder_args Example.ex_env Example.roads "kml"
           {| wall := 151; tzinfo := None |});
      EvHead "http://gis/roads.kml";
      EvLog INFO "updating resource roads:kml:kml";
      EvGet "http://gis/roads.kml";
      EvResourceUpdate created ] /\
    updated !! "id" = Some (PStr "r1") /\
    created !! "name" = Some (PStr "roads:kml").
Proof. eexists _, _. vm_compute. done. Qed.

(** The run of the example: of the two resources of format csv, the first
    one ([r1]) is probed, fetched and updated, and the copy is left alone. *)
Example two_csv_resources_trace :
  exists updated : gmap string pyval,
    events (main_job Example.ex_env Example.ex_args "roads"
              (YMap [("csv", YStr "/roads.csv")])) Example.w0 =
    [ EvPackageShow "roads";
      EvHead "http://gis/roads.csv";
      EvLog INFO "updating resource roads:CSV";
      EvGet "http://gis/roads.csv";
      EvResourceUpdate updated ] /\
    updated !! "id" = Some (PStr "r1") /\
    updated !! "upload" =
      Some (PUpload "roads.CSV" (FBytes "bytes of http://gis/roads.csv")).
Proof. eexists. vm_compute. done. Qed.

(** ** Paths *)

Lemma append_cons (x : ascii) (a b : string) :
  String x a +:+ b = String x (a +:+ b).
Proof. reflexivity. Qed.

Lemma append_nil (b : string) : "" +:+ b = b.
Proof. reflexivity. Qed.

Ltac push_append := rewrite ?append_cons, ?append_nil.

Lemma append_assoc (a b c : string) : (a +:+ b) +:+ c = a +:+ (b +:+ c).
Proof. induction a as [|x a IH]; [done|]. push_append. by rewrite IH. Qed.

Lemma append_inv_head (a b c : string) : a +:+ b = a +:+ c -> b = c.
Proof.
  induction a as [|x a IH]; [done|]. push_append. intros [= H]. by apply IH.
Qed.

Lemma has_slash_append (a b : string) :
  Str.has_slash (a +:+ b) = Str.has_slash a || Str.has_slash b.
Proof.
  induction a as [|x a IH]; [done|]. push_append. cbn.
  by rewrite IH, orb_assoc.
Qed.

Lemma starts_with_slash_append (a b : string) :
  Str.has_slash a = false ->
  Str.starts_with_slash b = false ->
  Str.starts_with_slash (a +:+ b) = false.
Proof.
  destruct a as [|x a]; [done|]. push_append. cbn.
  by intros [-> _]%orb_false_iff.
Qed.

Lemma ends_with_slash_append (a : string) (x : ascii) (b : string) :
  Str.ends_with_slash (a +:+ String x b) = Str.ends_with_slash (String x b).
Proof.
  induction a as [|y a IH]; [done|].
  push_append. cbn [Str.ends_with_slash]. rewrite IH.
  destruct a; by push_append.
Qed.

Lemma dirname_join (d f : string) :
  Str.has_slash f = false -> Str.dirname (d +:+ "/" +:+ f) = d.
Proof.
  intros Hf. induction d as [|x d IH].
  - rewrite append_nil. change ("/" +:+ f) with (String "/" f).
    cbn. by rewrite Hf.
  - rewrite append_cons. cbn [Str.dirname].
    rewrite has_slash_append, (has_slash_append "/" f). cbn.
    by rewrite orb_true_r, IH.
Qed.


(** An entry named by [basename] is at the top of the archive. *)
Lemma basename_has_no_slash (p : string) : Str.has_slash (Str.basename p) = false.
Proof.
  induction p as [|x p IH]; [done|]. cbn.
  destruct (Str.has_slash p) eqn:Hp; [done|].
  destruct (Str.is_slash x) eqn:Hx; [done|]. cbn. by rewrite Hx, Hp.
Qed.

Lemma is_prefix_append (a b c : string) :
  Str.is_prefix (a +:+ b) (a +:+ c) = Str.is_prefix b c.
Proof.
  induction a as [|x a IH]; [done|]. push_append. cbn.
  by rewrite Ascii.eqb_refl, IH.
Qed.

Lemma is_prefix_length (s t : string) :
  Str.is_prefix s t = true -> String.length s <= String.length t.
Proof.
  revert t. induction s as [|x s IH]; intros [|y t]; cbn; try done; [lia|].
  intros [_ H]%andb_true_iff. apply IH in H. lia.
Qed.

Lemma length_append (a b : string) :
  String.length (a +:+ b) = String.length a + String.length b.
Proof. induction a as [|x a IH]; [done|]. push_append. cbn. by rewrite IH. Qed.

Section staging_paths.

Context (n : string) (Hn : Str.has_slash n = false).

Lemma path_join_temp_data (suffix : string) :
  Str.starts_with_slash suffix = false ->
  Str.path_join "temp_data" (n +:+ suffix) = "temp_data/" +:+ n +:+ suffix.
Proof.
  intros Hs. unfold Str.path_join.
  by rewrite (starts_with_slash_append n suffix Hn Hs).
Qed.

Lemma staging_dir_join :
  Str.path_join "temp_data" (n +:+ "_shp") = staging_dir n.
Proof. by apply path_join_temp_data. Qed.

Lemma archive_file_join :
  Str.path_join "temp_data" (n +:+ ".shp.zip") = archive_file n.
Proof. by apply path_join_temp_data. Qed.

Lemma staged_file_join (k : string) :
  Str.path_join (staging_dir n) (n +:+ "." +:+ k) = staged_file n k.
Proof.
  unfold Str.path_join, staging_dir.
  rewrite (starts_with_slash_append n ("." +:+ k) Hn eq_refl).
  change ("temp_data/" +:+ n +:+ "_shp")
    with (String "t" ("emp_data/" +:+ n +:+ "_shp")) at 1.
  replace ("temp_data/" +:+ n +:+ "_shp")
    with (("temp_data/" +:+ n) +:+ "_shp") at 1 by apply append_assoc.
  by rewrite ends_with_slash_append.
Qed.

Lemma staged_file_dirname (k : string) :
  Str.has_slash k = false -> Str.dirname (staged_file n k) = staging_dir n.
Proof.
  intros Hk. apply dirname_join.
  by rewrite has_slash_append, Hn, (has_slash_append "." k), Hk.
Qed.


Lemma staging_dir_dirname : Str.dirname (staging_dir n) = "temp_data".
Proof.
  apply (dirname_join "temp_data"). rewrite has_slash_append. by rewrite Hn.
Qed.

Lemma archive_file_dirname : Str.dirname (archive_file n) = "temp_data".
Proof.
  apply (dirname_join "temp_data"). rewrite has_slash_append. by rewrite Hn.
Qed.

Lemma staging_dir_parents :
  parents (String.length (staging_dir n)) (staging_dir n) = ["temp_data"].
Proof.
  change (String.length (staging_dir n))
    with (S (S (String.length ("mp_data/" +:+ n +:+ "_shp")))).
  cbn [parents]. by rewrite staging_dir_dirname.
Qed.

End staging_paths.

Lemma staged_file_below (n k : string) :
  Str.is_prefix (staging_dir n +:+ "/") (staged_file n k) = true.
Proof.
  unfold staged_file.
  change (staging_dir n +:+ "/") with (staging_dir n +:+ "/" +:+ "").
  by rewrite !is_prefix_append.
Qed.

(** The archive is written next to the staging directory, not in it. *)
Lemma archive_file_not_below (n : string) :
  Str.is_prefix (staging_dir n +:+ "/") (archive_file n) = false.
Proof.
  unfold staging_dir, archive_file. rewrite !append_assoc.
  by rewrite !is_prefix_append.
Qed.

Lemma below_not_staging_dir (n p : string) :
  Str.is_prefix (staging_dir n +:+ "/") p = true ->
  p <> staging_dir n /\ p <> "temp_data".
Proof.
  intros H. apply is_prefix_length in H.
  rewrite length_append in H. unfold staging_dir in *.
  split; intros ->; rewrite ?length_append in H; cbn in H; lia.
Qed.

Lemma archive_file_not_staging_dir (n : string) :
  archive_file n <> staging_dir n /\ archive_file n <> "temp_data".
Proof.
  unfold archive_file, staging_dir. split.
  - intros H. apply append_inv_head in H. by apply append_inv_head in H.
  - intros H. assert (Hl := f_equal String.length H).
    rewrite !length_append in Hl. cbn in Hl. lia.
Qed.

(** ** Acquisition of a bundle *)

Lemma write_file_run (p : string) (c : fcontent) (w : world) :
  Str.dirname p ∈ w_dirs w -> p ∉ w_dirs w ->
  write_file p c w = (Ok tt, w_write p c w).
Proof.
  intros Hdir Hp. unfold write_file.
  rewrite (bool_decide_eq_true_2 _ Hdir), (bool_decide_eq_false_2 _ Hp).
  by rewrite orb_true_r.
Qed.

(** A fetch that is answered with another status than 200 is made once;
    it writes nothing, logs nothing and returns [False]. *)
Lemma download_temp_file_failed (env : environment)
    (resource_path file_name : string) (w : world) (r : response) :
  requests_get env (w_trace w) resource_path = Ok r ->
  status_code r <> 200%Z ->
  download_temp_file env resource_path file_name w
    = (Ok false, w_emit (EvGet resource_path) w).
Proof.
  intros Hget Hstatus. unfold download_temp_file.
  rewrite run_bind. unfold call. rewrite Hget.
  apply Z.eqb_neq in Hstatus. by rewrite Hstatus.
Qed.

Lemma download_temp_file_fetched (env : environment)
    (resource_path file_name : string) (w : world) (r : response) :
  requests_get env (w_trace w) resource_path = Ok r ->
  status_code r = 200%Z ->
  is_Some (headers r !! "content-type") ->
  Str.dirname file_name ∈ w_dirs w -> file_name ∉ w_dirs w ->
  download_temp_file env resource_path file_name w
    = (Ok true,
       w_write file_name (FBytes (content r)) (w_emit (EvGet resource_path) w)).
Proof.
  intros Hget Hstatus [content_type Htype] Hdir Hfile. unfold download_temp_file.
  rewrite run_bind. unfold call. rewrite Hget, Hstatus. cbn [Z.eqb Pos.eqb].
  rewrite Htype, run_bind, run_ret.
  destruct (String.eqb content_type "text/xml");
    by rewrite run_bind, (write_file_run _ _ (w_emit _ w)).
Qed.

Section staging.

Context (env : environment) (arguments : options).
Context (resource : gmap string pyval) (n : string).
Context (Hname : resource !! "name" = Some (PStr n)).
Context (Hn : Str.has_slash n = false).

(** One sub-file: it is fetched once, and staged when the answer is 200;
    the loop goes on in both cases. *)
Lemma stage_sub_file_run (item : string * yaml) (w : world) (r : response) :
  sub_file_ok item ->
  requests_get env (w_trace w) (base_import_url arguments +:+ yaml_path item.2)
    = Ok r ->
  (status_code r = 200%Z -> is_Some (headers r !! "content-type")) ->
  staging_dir n ∈ w_dirs w ->
  (forall p, Str.is_prefix (staging_dir n +:+ "/") p = true -> p ∉ w_dirs w) ->
  stage_sub_file env arguments resource (staging_dir n) item w =
    (Ok tt,
     if (status_code r =? 200)%Z
     then w_write (staged_file n item.1) (FBytes (content r))
            (w_emit (sub_file_fetch (base_import_url arguments) item) w)
     else w_emit (sub_file_fetch (base_import_url arguments) item) w).
Proof.
  destruct item as [k y]. intros [Hk [path Hy]] Hget Htype Hdir Hbelow.
  cbn in *. subst y. cbn in *. unfold stage_sub_file, str_add_yaml, getitem.
  rewrite run_bind, run_ret, Hname, run_bind, run_ret.
  cbn [py_str]. rewrite (staged_file_join n Hn k), run_bind.
  destruct (Z.eqb_spec (status_code r) 200) as [Hstatus|Hstatus].
  - rewrite (download_temp_file_fetched env _ _ w r); try done.
    + by apply Htype.
    + by rewrite (staged_file_dirname n Hn k Hk).
    + apply Hbelow, staged_file_below.
  - by rewrite (download_temp_file_failed env _ _ w r).
Qed.

Lemma stage_sub_files_run (items : list (string * yaml)) (w : world) :
  Forall sub_file_ok items ->
  fetches_answered env (base_import_url arguments) items ->
  staging_dir n ∈ w_dirs w ->
  (forall p, Str.is_prefix (staging_dir n +:+ "/") p = true -> p ∉ w_dirs w) ->
  exists w1 : world,
    for_each items (stage_sub_file env arguments resource (staging_dir n)) w
      = (Ok tt, w1) /\
    w_trace w1 = w_trace w ++ map (sub_file_fetch (base_import_url arguments)) items /\
    w_dirs w1 = w_dirs w /\
    w_ticks w1 = w_ticks w.
Proof.
  intros Hitems. revert w.
  induction Hitems as [|item items Hitem _ IH]; intros w Hanswered Hdir Hbelow.
  - exists w. by rewrite app_nil_r.
  - destruct (Hanswered (w_trace w) item) as (r & Hget & Htype);
      [by apply elem_of_cons; left|].
    cbn [for_each]. rewrite run_bind.
    rewrite (stage_sub_file_run item w r Hitem Hget Htype Hdir Hbelow).
    set (w' := if (status_code r =? 200)%Z then _ else _).
    assert (Hw' : w_trace w' = w_trace w ++ [sub_file_fetch (base_import_url arguments) item]
                  /\ w_dirs w' = w_dirs w /\ w_ticks w' = w_ticks w).
    { subst w'. by destruct (status_code r =? 200)%Z. }
    destruct Hw' as (Htrace & Hdirs & Hticks).
    destruct (IH w') as (w1 & Hrun & Htrace1 & Hdirs1 & Hticks1).
    + intros h item' Hin. apply Hanswered. apply elem_of_cons. by right.
    + by rewrite Hdirs.
    + by rewrite Hdirs.
    + exists w1. rewrite Hrun. repeat split.
      * rewrite Htrace1, Htrace. cbn. by rewrite <- app_assoc.
      * by rewrite Hdirs1.
      * by rewrite Hticks1.
Qed.

End staging.

Section bundle.

Context (env : environment) (arguments : options).
Context (resource : gmap string pyval) (n : string).
Context (Hname : resource !! "name" = Some (PStr n)).
Context (Hn : Str.has_slash n = false).

Lemma is_Some_None_false {A : Type} : bool_decide (is_Some (@None A)) = false.
Proof. apply bool_decide_eq_false_2. by intros [? ?]. Qed.

Lemma makedirs_staging_dir (w : world) :
  staging_dir n ∉ w_dirs w ->
  w_files w !! staging_dir n = None ->
  w_files w !! "temp_data" = None ->
  makedirs (staging_dir n) w =
    (Ok tt,
     {| w_trace := w_trace w; w_files := w_files w;
        w_dirs := list_to_set [staging_dir n; "temp_data"] ∪ w_dirs w;
        w_ticks := w_ticks w |}).
Proof.
  intros Hnodir Hnofile Hnotemp. unfold makedirs.
  rewrite (bool_decide_eq_false_2 _ Hnodir), Hnofile.
  rewrite (staging_dir_parents n Hn). cbn [existsb]. rewrite Hnotemp.
  by rewrite (@is_Some_None_false fcontent).
Qed.

(** Lines 79 to 81: afterwards the staging directory is there. *)
Lemma ensure_staging_dir (w : world) :
  staging_ready w n ->
  exists w_a : world,
    (if negb (bool_decide (staging_dir n ∈ w_dirs w)
              || bool_decide (is_Some (w_files w !! staging_dir n)))
     then makedirs (staging_dir n) else mret tt) w = (Ok tt, w_a) /\
    w_trace w_a = w_trace w /\ w_files w_a = w_files w /\
    w_ticks w_a = w_ticks w /\
    staging_dir n ∈ w_dirs w_a /\ "temp_data" ∈ w_dirs w_a /\
    (forall p, Str.is_prefix (staging_dir n +:+ "/") p = true -> p ∉ w_dirs w_a) /\
    archive_file n ∉ w_dirs w_a.
Proof.
  intros ([[Hdir Htemp] | (Hnodir & Hnofile & Hnotemp)] & Hbelow & Harchive).
  - exists w. rewrite (bool_decide_eq_true_2 _ Hdir). by cbn.
  - eexists. rewrite (bool_decide_eq_false_2 _ Hnodir), Hnofile.
    rewrite (@is_Some_None_false fcontent). cbn [negb orb].
    rewrite (makedirs_staging_dir w Hnodir Hnofile Hnotemp).
    split; [reflexivity|]. cbn [w_trace w_files w_dirs w_ticks].
    split; [done|]. split; [done|]. split; [done|].
    split; [apply elem_of_union_l, elem_of_list_to_set, elem_of_cons; by left|].
    split; [apply elem_of_union_l, elem_of_list_to_set, elem_of_cons; right;
            apply elem_of_cons; by left|].
    split.
    + intros p Hp. destruct (below_not_staging_dir n p Hp) as [Hne1 Hne2].
      specialize (Hbelow p Hp).
      rewrite elem_of_union, elem_of_list_to_set, !elem_of_cons, elem_of_nil.
      tauto.
    + destruct (archive_file_not_staging_dir n) as [Hne1 Hne2].
      rewrite elem_of_union, elem_of_list_to_set, !elem_of_cons, elem_of_nil.
      tauto.
Qed.

(** [import_shapefile] around its loop: the directory is ensured, and when
    the loop completes the archive is written from what is below the
    staging directory and uploaded. *)
Lemma import_shapefile_around_loop (mapping_items items : list (string * yaml))
    (w w_a w_s : world) :
  assoc "shp" mapping_items = Some (YMap items) ->
  (if negb (bool_decide (staging_dir n ∈ w_dirs w)
            || bool_decide (is_Some (w_files w !! staging_dir n)))
   then makedirs (staging_dir n) else mret tt) w = (Ok tt, w_a) ->
  for_each items (stage_sub_file env arguments resource (staging_dir n)) w_a
    = (Ok tt, w_s) ->
  "temp_data" ∈ w_dirs w_s ->
  archive_file n ∉ w_dirs w_s ->
  let entries := archive_entries (staging_dir n)
                   (<[archive_file n := FZip []]> (w_files w_s)) in
  import_shapefile env arguments resource (YMap mapping_items) w =
    upload_file_to_resource env resource (FZip entries)
      (w_write (archive_file n) (FZip entries)
         (w_write (archive_file n) (FZip []) w_s)).
Proof.
  intros Hshp Hensure Hloop Htemp Harchive entries.
  unfold import_shapefile, getitem, py_add_str, yaml_getitem, iteritems.
  rewrite Hname, run_bind, run_ret, run_bind, run_ret.
  rewrite (staging_dir_join n Hn), run_bind. unfold path_exists at 1.
  rewrite run_bind, Hensure, Hshp, run_bind, run_ret, run_bind, run_ret.
  rewrite run_bind, Hloop, run_bind, run_ret, run_bind, run_ret.
  rewrite (archive_file_join n Hn), run_bind.
  rewrite (write_file_run _ _ w_s);
    [| by rewrite (archive_file_dirname n Hn) | done ].
  rewrite run_bind. unfold walk_files at 1.
  cbn [w_files w_write]. rewrite run_bind.
  rewrite (write_file_run _ _ (w_write _ _ w_s));
    [| by rewrite (archive_file_dirname n Hn) | done ].
  rewrite run_bind. unfold read_file at 1. cbn [w_files w_write].
  by rewrite lookup_insert_eq.
Qed.

(** [import_shapefile], when every sub-file is answered, with whatever
    status: every sub-file is fetched once, and the archive is uploaded. *)
Lemma import_shapefile_staged (mapping_items items : list (string * yaml))
    (w : world) :
  assoc "shp" mapping_items = Some (YMap items) ->
  Forall sub_file_ok items ->
  fetches_answered env (base_import_url arguments) items ->
  staging_ready w n ->
  exists (w1 : world) (entries : list (string * fcontent)),
    import_shapefile env arguments resource (YMap mapping_items) w =
      upload_file_to_resource env resource (FZip entries) w1 /\
    w_trace w1
      = w_trace w ++ map (sub_file_fetch (base_import_url arguments)) items /\
    w_ticks w1 = w_ticks w.
Proof.
  intros Hshp Hitems Hanswered Hready.
  destruct (ensure_staging_dir w Hready)
    as (w_a & Hensure & Htrace_a & Hfiles_a & Hticks_a & Hdir & Htemp
          & Hbelow & Harchive).
  destruct (stage_sub_files_run env arguments resource n Hname Hn items w_a
              Hitems Hanswered Hdir Hbelow)
    as (w_s & Hloop & Htrace_s & Hdirs_s & Hticks_s).
  eexists _, _. split; [|split].
  - apply (import_shapefile_around_loop mapping_items items w w_a w_s);
      try done; by rewrite Hdirs_s.
  - cbn. by rewrite Htrace_s, Htrace_a.
  - cbn. by rewrite Hticks_s.
Qed.

End bundle.

(** *** What the archive holds *)

Lemma staged_file_inj (n k k' : string) :
  staged_file n k = staged_file n k' -> k = k'.
Proof.
  unfold staged_file. intros H.
  do 4 apply append_inv_head in H. done.
Qed.

(** The entries of the archive are the files below the directory, one
    entry for each, under the file's base name. *)
Lemma archive_entries_paths (top : string) (files : gmap string fcontent) :
  exists paths : list string,
    NoDup paths /\
    (forall p, p ∈ paths <->
               Str.is_prefix (top +:+ "/") p = true /\ is_Some (files !! p)) /\
    Forall2 (fun p entry => entry.1 = Str.basename p /\ files !! p = Some entry.2)
      paths (archive_entries top files).
Proof.
  exists (map fst (map_to_list (filter (below top) files))).
  split; [|split].
  - apply (NoDup_fst_map_to_list (filter (below top) files)).
  - intros p. split.
    + intros Hin. apply list_elem_of_In, in_map_iff in Hin as ([p' c] & <- & Hin).
      apply list_elem_of_In, elem_of_map_to_list in Hin.
      apply map_lookup_filter_Some in Hin as [Hlookup Hbelow].
      split; [exact Hbelow | by eexists].
    + intros [Hbelow [c Hlookup]].
      apply list_elem_of_In, in_map_iff. exists (p, c). split; [done|].
      apply list_elem_of_In, elem_of_map_to_list, map_lookup_filter_Some.
      by split.
  - unfold archive_entries.
    assert (Hall : Forall (fun file => files !! file.1 = Some file.2)
                     (map_to_list (filter (below top) files))).
    { apply Forall_forall. intros [p c] Hin.
      apply elem_of_map_to_list in Hin.
      by apply map_lookup_filter_Some in Hin as [Hlookup _]. }
    induction Hall as [|file l Hfile _ IH]; [constructor|].
    cbn [map]. constructor; [by split | exact IH].
Qed.

Lemma entries_of_paths_flat (files : gmap string fcontent)
    (paths : list string) (entries : list (string * fcontent)) :
  Forall2 (fun p entry => entry.1 = Str.basename p /\ files !! p = Some entry.2)
    paths entries ->
  Forall (fun entry => Str.has_slash entry.1 = false) entries.
Proof.
  induction 1 as [|p entry l es [Hbase _] _ IH]; constructor; [|done].
  rewrite Hbase. apply basename_has_no_slash.
Qed.

(** The update leaves the local files as they are. *)
Lemma upload_file_to_resource_keeps_files (env : environment)
    (resource : gmap string pyval) (file_object : fcontent) (w : world) :
  w_files (final (upload_file_to_resource env resource file_object) w)
    = w_files w.
Proof.
  unfold final, upload_file_to_resource, getitem, py_lower, now. run.
  repeat (case_match; simplify_eq; run; try done).
Qed.

Section staged_files.

Context (env : environment) (arguments : options).
Context (resource : gmap string pyval) (n : string).
Context (Hname : resource !! "name" = Some (PStr n)).
Context (Hn : Str.has_slash n = false).

(** The files after the loop of lines 83 to 87: the staged file of a
    sub-file that was answered 200 holds the answer's body, the staged file
    of a sub-file answered otherwise is as it was, and so is every other
    file. *)
Lemma stage_sub_files_files (items : list (string * yaml)) (w : world) :
  Forall sub_file_ok items ->
  NoDup (map fst items) ->
  fetches_answered env (base_import_url arguments) items ->
  staging_dir n ∈ w_dirs w ->
  (forall p, Str.is_prefix (staging_dir n +:+ "/") p = true -> p ∉ w_dirs w) ->
  exists w1 : world,
    for_each items (stage_sub_file env arguments resource (staging_dir n)) w
      = (Ok tt, w1) /\
    (forall p, (forall k, k ∈ map fst items -> p <> staged_file n k) ->
               w_files w1 !! p = w_files w !! p) /\
    (forall (before : list (string * yaml)) (item : string * yaml)
            (after : list (string * yaml)) (r : response),
       items = before ++ item :: after ->
       requests_get env
         (w_trace w ++ map (sub_file_fetch (base_import_url arguments)) before)
         (base_import_url arguments +:+ yaml_path item.2) = Ok r ->
       w_files w1 !! staged_file n item.1 =
         if (status_code r =? 200)%Z then Some (FBytes (content r))
         else w_files w !! staged_file n item.1).
Proof.
  intros Hitems. revert w.
  induction Hitems as [|item items Hitem _ IH];
    intros w Hnodup Hanswered Hdir Hbelow.
  - exists w. split; [done|]. split; [done|].
    intros before item after r Heq. by destruct before.
  - cbn [map] in Hnodup. apply NoDup_cons in Hnodup as [Hfresh Hnodup].
    destruct (Hanswered (w_trace w) item) as (r & Hget & Htype);
      [by apply elem_of_cons; left|].
    cbn [for_each]. rewrite run_bind.
    rewrite (stage_sub_file_run env arguments resource n Hname Hn
               item w r Hitem Hget Htype Hdir Hbelow).
    set (w' := if (status_code r =? 200)%Z then _ else _).
    assert (Hw' : w_trace w'
                  = w_trace w ++ [sub_file_fetch (base_import_url arguments) item]
                  /\ w_dirs w' = w_dirs w
                  /\ w_files w' =
                       if (status_code r =? 200)%Z
                       then <[staged_file n item.1 := FBytes (content r)]>
                              (w_files w)
                       else w_files w).
    { subst w'. by destruct (status_code r =? 200)%Z. }
    destruct Hw' as (Htrace & Hdirs & Hfiles).
    destruct (IH w') as (w1 & Hrun & Hother & Hstaged).
    + done.
    + intros h item' Hin. apply Hanswered. apply elem_of_cons. by right.
    + by rewrite Hdirs.
    + by rewrite Hdirs.
    + exists w1. rewrite Hrun. split; [done|]. split.
      * intros p Hp. rewrite Hother.
        -- rewrite Hfiles. destruct (status_code r =? 200)%Z; [|done].
           rewrite lookup_insert_ne; [done|].
           intros Heq. apply (Hp item.1); [|done].
           cbn [map]. apply elem_of_cons. by left.
        -- intros k Hk. apply Hp. cbn [map]. apply elem_of_cons. by right.
      * intros before item' after r' Heq Hget'.
        destruct before as [|first before]; cbn [app] in Heq; simplify_eq.
        -- cbn [map] in Hget'. rewrite app_nil_r in Hget'.
           rewrite Hget in Hget'. simplify_eq.
           rewrite Hother.
           ++ rewrite Hfiles. destruct (status_code r' =? 200)%Z; [|done].
              by rewrite lookup_insert_eq.
           ++ intros k Hk Heq. apply staged_file_inj in Heq. by subst k.
        -- rewrite (Hstaged before item' after r' eq_refl).
           ++ destruct (status_code r' =? 200)%Z; [done|].
              rewrite Hfiles. destruct (status_code r =? 200)%Z; [|done].
              rewrite lookup_insert_ne; [done|].
              intros Heq. apply staged_file_inj in Heq.
              apply Hfresh. rewrite Heq, map_app. cbn [map].
              apply elem_of_app. right. apply elem_of_cons. by left.
           ++ rewrite Htrace, <- app_assoc. exact Hget'.
Qed.

(** [import_shapefile] from end to end, when every sub-file is answered,
    with whatever status: the sub-files are fetched once each, the archive
    is written from all that is below the staging directory by then, and it
    is uploaded. *)
Lemma import_shapefile_archive (mapping_items items : list (string * yaml))
    (w : world) :
  assoc "shp" mapping_items = Some (YMap items) ->
  Forall sub_file_ok items ->
  NoDup (map fst items) ->
  fetches_answered env (base_import_url arguments) items ->
  staging_ready w n ->
  exists (w1 : world) (entries : list (string * fcontent)),
    import_shapefile env arguments resource (YMap mapping_items) w =
      upload_file_to_resource env resource (FZip entries) w1 /\
    w_trace w1
      = w_trace w ++ map (sub_file_fetch (base_import_url arguments)) items /\
    w_ticks w1 = w_ticks w /\
    (forall (before : list (string * yaml)) (item : string * yaml)
            (after : list (string * yaml)) (r : response),
       items = before ++ item :: after ->
       requests_get env
         (w_trace w ++ map (sub_file_fetch (base_import_url arguments)) before)
         (base_import_url arguments +:+ yaml_path item.2) = Ok r ->
       w_files w1 !! staged_file n item.1 =
         if (status_code r =? 200)%Z then Some (FBytes (content r))
         else w_files w !! staged_file n item.1) /\
    (forall p, p <> archive_file n ->
               (forall k, k ∈ map fst items -> p <> staged_file n k) ->
               w_files w1 !! p = w_files w !! p) /\
    w_files w1 !! archive_file n = Some (FZip entries) /\
    exists paths : list string,
      NoDup paths /\
      (forall p, p ∈ paths <->
                 Str.is_prefix (staging_dir n +:+ "/") p = true /\
                 is_Some (w_files w1 !! p)) /\
      Forall2 (fun p entry => entry.1 = Str.basename p /\
                              w_files w1 !! p = Some entry.2)
        paths entries.
Proof.
  intros Hshp Hitems Hnodup Hanswered Hready.
  destruct (ensure_staging_dir n Hn w Hready)
    as (w_a & Hensure & Htrace_a & Hfiles_a & Hticks_a & Hdir & Htemp
          & Hbelow & Harchive).
  destruct (stage_sub_files_run env arguments resource n Hname Hn items w_a
              Hitems Hanswered Hdir Hbelow)
    as (w_s & Hloop & Htrace_s & Hdirs_s & Hticks_s).
  destruct (stage_sub_files_files items w_a Hitems Hnodup Hanswered Hdir Hbelow)
    as (w_s' & Hloop' & Hother & Hstaged).
  rewrite Hloop in Hloop'. simplify_eq.
  set (files0 := <[archive_file n := FZip []]> (w_files w_s')).
  set (entries := archive_entries (staging_dir n) files0).
  assert (Hsame : forall p, Str.is_prefix (staging_dir n +:+ "/") p = true ->
            <[archive_file n := FZip entries]> files0 !! p = files0 !! p).
  { intros p Hp. rewrite lookup_insert_ne; [done|].
    intros <-. by rewrite archive_file_not_below in Hp. }
  exists (w_write (archive_file n) (FZip entries)
            (w_write (archive_file n) (FZip []) w_s')), entries.
  cbn [w_write w_trace w_files w_ticks]. fold files0.
  split; [|split; [|split; [|split; [|split; [|split]]]]].
  - apply (import_shapefile_around_loop env arguments resource n Hname Hn
             mapping_items items w w_a w_s'); try done; by rewrite Hdirs_s.
  - by rewrite Htrace_s, Htrace_a.
  - by rewrite Hticks_s.
  - intros before item after r Heq Hget.
    assert (Hne : staged_file n item.1 <> archive_file n).
    { intros Heq'. pose proof (staged_file_below n item.1) as Hb.
      by rewrite Heq', archive_file_not_below in Hb. }
    unfold files0. rewrite !lookup_insert_ne by done.
    rewrite <- Hfiles_a. apply (Hstaged before item after r Heq).
    by rewrite Htrace_a.
  - intros p Hp Hk. unfold files0. rewrite !lookup_insert_ne by done.
    rewrite <- Hfiles_a. by apply Hother.
  - by rewrite lookup_insert_eq.
  - destruct (archive_entries_paths (staging_dir n) files0)
      as (paths & Hpaths & Hin & Hentries).
    exists paths. split; [done|]. split.
    + intros p. rewrite Hin. split; intros [Hp Hsome]; (split; [done|]).
      * by rewrite Hsame.
      * by rewrite Hsame in Hsome.
    + fold entries in Hentries.
      assert (Hpaths_below : Forall (fun p => Str.is_prefix (staging_dir n +:+ "/") p = true) paths).
      { apply Forall_forall. intros p Hp. by apply Hin in Hp as [? _]. }
      clear Hin Hpaths. revert Hpaths_below Hentries.
      generalize entries at 1 3 as es. intros es. revert es.
      induction paths as [|p paths IH]; intros es Hall Hentries;
        inversion Hentries as [|? entry ? es' [Hname' Hlookup] Hrest]; subst;
        [constructor|].
      apply Forall_cons in Hall as [Hp Hall].
      constructor; [|by apply IH]. split; [done|]. by rewrite Hsame.
Qed.

End staged_files.

Lemma upload_file_to_resource_outcome (env : environment)
    (resource : gmap string pyval) (file_object : fcontent) (w : world)
    (name : pyval) (format : string) :
  resource !! "name" = Some name ->
  resource !! "format" = Some (PStr format) ->
  let filename :=
    if String.eqb (Str.lower format) "shp"
    then py_str env name +:+ "." +:+ format +:+ ".zip"
    else py_str env name +:+ "." +:+ format in
  let stamp := strftime env {| wall := clock env (w_ticks w); tzinfo := None |} in
  let updated :=
    <["last_modified" := PStr stamp]>
      (<["upload" := PUpload filename file_object]> resource) in
  outcome (upload_file_to_resource env resource file_object) w =
    match resource_update env (w_trace w) updated with
    | Raise (CKANAPIError _) | Raise (NotFound _) | Ok _ => Ok tt
    | Raise e => Raise e
    end.
Proof.
  intros Hname Hformat filename stamp updated.
  unfold outcome, upload_file_to_resource, getitem, py_lower, now.
  rewrite Hname, Hformat. run. subst filename.
  destruct (String.eqb (Str.lower format) "shp"); run;
    fold stamp; fold updated;
    by destruct (resource_update env (w_trace w) updated) as [[]|[]].
Qed.

Lemma only_emits_True_upload_file_to_resource (env : environment)
    (resource : gmap string pyval) (file_object : fcontent) :
  only_emits (fun _ => True) (upload_file_to_resource env resource file_object).
Proof. by apply only_emits_upload_file_to_resource. Qed.

(** C6, as the code has it. In the acquisition of a bundle, a sub-file
    whose fetch is answered with another status than 200 is fetched once,
    stages nothing and logs nothing, and [import_shapefile] does not look
    at the failure: whatever the statuses, every sub-file of the bundle is
    fetched exactly once, in order, then the archive of what is staged is
    published by [resource_update].  What is staged: the staged file of a
    sub-file answered 200 holds the body of the answer, the staged file of
    a sub-file answered otherwise is absent or as an earlier run left it,
    and no other file but the archive is touched.  The archive has one
    entry for each file that is below the staging directory by then, under
    the file's base name and with its content, and it is the file that is
    sent.  The only line that can be logged is CKAN's refusal of the
    update, and the run ends normally unless the update raises something
    else, so the formats and datasets that follow are processed.  The
    names that are formatted are ASCII. *)
Theorem failed_sub_fetch_is_dropped (env : environment) (arguments : options)
    (resource : gmap string pyval) (n format : string)
    (mapping_items items : list (string * yaml)) (w : world) :
  resource !! "name" = Some (PStr n) ->
  Str.has_slash n = false ->
  resource !! "format" = Some (PStr format) ->
  assoc "shp" mapping_items = Some (YMap items) ->
  Forall sub_file_ok items ->
  NoDup (map fst items) ->
  Forall (fun s => Str.is_ascii s = true)
    (n :: format :: base_import_url arguments :: map fst items) ->
  fetches_answered env (base_import_url arguments) items ->
  staging_ready w n ->
  (forall (resource_path file_name : string) (w' : world) (r : response),
     requests_get env (w_trace w') resource_path = Ok r ->
     status_code r <> 200%Z ->
     download_temp_file env resource_path file_name w'
       = (Ok false, w_emit (EvGet resource_path) w')) /\
  let run := import_shapefile env arguments resource (YMap mapping_items) in
  let fetches := map (sub_file_fetch (base_import_url arguments)) items in
  let filename :=
    if String.eqb (Str.lower format) "shp"
    then n +:+ "." +:+ format +:+ ".zip" else n +:+ "." +:+ format in
  let stamp :=
    strftime env {| wall := clock env (w_ticks w); tzinfo := None |} in
  exists (entries : list (string * fcontent)) (paths : list string),
    let updated :=
      <["last_modified" := PStr stamp]>
        (<["upload" := PUpload filename (FZip entries)]> resource) in
    let answer := resource_update env (w_trace w ++ fetches) updated in
    events run w =
      fetches ++ EvResourceUpdate updated ::
      match answer with
      | Raise (CKANAPIError message) | Raise (NotFound message) =>
          [EvLog ERROR message]
      | _ => []
      end /\
    outcome run w =
      match answer with
      | Raise (CKANAPIError _) | Raise (NotFound _) | Ok _ => Ok tt
      | Raise e => Raise e
      end /\
    (forall (before : list (string * yaml)) (item : string * yaml)
            (after : list (string * yaml)) (r : response),
       items = before ++ item :: after ->
       requests_get env
         (w_trace w ++ map (sub_file_fetch (base_import_url arguments)) before)
         (base_import_url arguments +:+ yaml_path item.2) = Ok r ->
       w_files (final run w) !! staged_file n item.1 =
         if (status_code r =? 200)%Z then Some (FBytes (content r))
         else w_files w !! staged_file n item.1) /\
    (forall p, p <> archive_file n ->
               (forall k, k ∈ map fst items -> p <> staged_file n k) ->
               w_files (final run w) !! p = w_files w !! p) /\
    w_files (final run w) !! archive_file n = Some (FZip entries) /\
    NoDup paths /\
    (forall p, p ∈ paths <->
               Str.is_prefix (staging_dir n +:+ "/") p = true /\
               is_Some (w_files (final run w) !! p)) /\
    Forall2 (fun p entry => entry.1 = Str.basename p /\
                            w_files (final run w) !! p = Some entry.2)
      paths entries.
Proof.
  intros Hname Hn Hformat Hshp Hitems Hnodup _ Hanswered Hready. split.
  - intros. by eapply download_temp_file_failed.
  - destruct (import_shapefile_archive env arguments resource n Hname Hn
                mapping_items items w Hshp Hitems Hnodup Hanswered Hready)
      as (w1 & entries & Hrun & Htrace & Hticks & Hstaged & Hother & Harchive
            & paths & Hpaths & Hin & Hentries).
    assert (Hevents := upload_file_to_resource_run env resource (FZip entries)
                         w1 (PStr n) format Hname Hformat).
    assert (Houtcome := upload_file_to_resource_outcome env resource
                          (FZip entries) w1 (PStr n) format Hname Hformat).
    assert (Hfiles := upload_file_to_resource_keeps_files env resource
                        (FZip entries) w1).
    cbv zeta in Hevents, Houtcome. rewrite Htrace, Hticks in Hevents, Houtcome.
    cbn [py_str] in Hevents, Houtcome.
    exists entries, paths. cbv zeta.
    assert (Hfinal : w_files (final (import_shapefile env arguments resource
                                       (YMap mapping_items)) w) = w_files w1).
    { unfold final in *. by rewrite Hrun. }
    rewrite Hfinal.
    split; [|split]; [| |done].
    + apply events_spec. unfold final. rewrite Hrun.
      assert (Hupload := only_emits_trace _ w1
                (only_emits_True_upload_file_to_resource env resource
                   (FZip entries))).
      unfold final in Hupload.
      by rewrite Hupload, Hevents, Htrace, <- app_assoc.
    + unfold outcome in *. by rewrite Hrun, Houtcome.
Qed.
Lemma failed_sub_fetch_is_dropped_example :
  let items := [("shp", YStr "/b.shp"); ("shx", YStr "/b.shx");
                ("dbf", YStr "/b.dbf")] in
  (forall (resource_path file_name : string) (w' : world) (r : response),
     requests_get Example.ex_env (w_trace w') resource_path = Ok r ->
     status_code r <> 200%Z ->
     download_temp_file Example.ex_env resource_path file_name w'
       = (Ok false, w_emit (EvGet resource_path) w')) /\
  let run := import_shapefile Example.ex_env Example.ex_args Example.roads_shp
               Example.bundle_of_three in
  let fetches := map (sub_file_fetch "http://gis") items in
  exists (entries : list (string * fcontent)) (paths : list string),
    let updated :=
      <["last_modified" := PStr Example.t_now]>
        (<["upload" := PUpload "roads.SHP.zip" (FZip entries)]>
           Example.roads_shp) in
    let answer := resource_update Example.ex_env ([] ++ fetches) updated in
    events run Example.w0 =
      fetches ++ EvResourceUpdate updated ::
      match answer with
      | Raise (CKANAPIError message) | Raise (NotFound message) =>
          [EvLog ERROR message]
      | _ => []
      end /\
    outcome run Example.w0 =
      match answer with
      | Raise (CKANAPIError _) | Raise (NotFound _) | Ok _ => Ok tt
      | Raise e => Raise e
      end /\
    (forall (before : list (string * yaml)) (item : string * yaml)
            (after : list (string * yaml)) (r : response),
       items = before ++ item :: after ->
       requests_get Example.ex_env
         ([] ++ map (sub_file_fetch "http://gis") before)
         ("http://gis" +:+ yaml_path item.2) = Ok r ->
       w_files (final run Example.w0) !! staged_file "roads" item.1 =
         if (status_code r =? 200)%Z then Some (FBytes (content r))
         else w_files Example.w0 !! staged_file "roads" item.1) /\
    (forall p, p <> archive_file "roads" ->
               (forall k, k ∈ map fst items -> p <> staged_file "roads" k) ->
               w_files (final run Example.w0) !! p = w_files Example.w0 !! p) /\
    w_files (final run Example.w0) !! archive_file "roads"
      = Some (FZip entries) /\
    NoDup paths /\
    (forall p, p ∈ paths <->
               Str.is_prefix (staging_dir "roads" +:+ "/") p = true /\
               is_Some (w_files (final run Example.w0) !! p)) /\
    Forall2 (fun p entry => entry.1 = Str.basename p /\
                            w_files (final run Example.w0) !! p = Some entry.2)
      paths entries.
Proof.
  apply (failed_sub_fetch_is_dropped Example.ex_env Example.ex_args
           Example.roads_shp "roads" "SHP"
           [("shp", YMap [("shp", YStr "/b.shp"); ("shx", YStr "/b.shx");
                          ("dbf", YStr "/b.dbf")])]
           [("shp", YStr "/b.shp"); ("shx", YStr "/b.shx");
            ("dbf", YStr "/b.dbf")] Example.w0).
  - reflexivity.
  - reflexivity.
  - reflexivity.
  - reflexivity.
  - repeat constructor; by eexists.
  - apply (bool_decide_unpack _). reflexivity.
  - repeat constructor.
  - intros h item _. cbn. unfold Example.ex_get.
    destruct (String.eqb _ _); eexists; (split; [reflexivity|]); cbn.
    + discriminate.
    + intros _. eexists. apply lookup_singleton_eq.
  - split; [right|split]; cbn.
    + repeat split; [apply not_elem_of_empty | apply lookup_empty..].
    + intros p _. apply not_elem_of_empty.
    + apply not_elem_of_empty.
Defined.

(** C6, as the specification has it, fails: the second sub-file of the
    bundle is answered 404, and the run of the resource is not a failure:
    nothing is logged, the third sub-file is fetched, and the archive of the
    two staged files is published. *)
Lemma failed_sub_fetch_goes_unnoticed :
  (exists r : response,
     requests_get Example.ex_env [EvGet "http://gis/b.shp"] "http://gis/b.shx"
       = Ok r /\ status_code r = 404%Z) /\
  outcome (import_shapefile Example.ex_env Example.ex_args Example.roads_shp
             Example.bundle_of_three) Example.w0 = Ok tt /\
  exists updated : gmap string pyval,
    events (import_shapefile Example.ex_env Example.ex_args Example.roads_shp
              Example.bundle_of_three) Example.w0 =
      [ EvGet "http://gis/b.shp"; EvGet "http://gis/b.shx";
        EvGet "http://gis/b.dbf"; EvResourceUpdate updated ] /\
    updated !! "upload" =
      Some (PUpload "roads.SHP.zip"
              (FZip [("roads.shp", FBytes "bytes of http://gis/b.shp");
                     ("roads.dbf", FBytes "bytes of http://gis/b.dbf")])).
Proof.
  split; [by eexists|]. split; [by vm_compute|].
  eexists. vm_compute. done.
Qed.






(** * Further properties of the script *)

(** ** The datasets of a run *)

Lemma main_job_not_found_run (env : environment) (arguments : options)
    (dataset : string) (resources_mapping : yaml) (w : world) (message : string) :
  package_show env (w_trace w) dataset = Raise (NotFound message) ->
  main_job env arguments dataset resources_mapping w =
    (Ok tt,
     w_emit (EvLog ERROR ("dataset not found: " +:+ dataset))
       (w_emit (EvPackageShow dataset) w)).
Proof.
  intros Hshow. unfold main_job. rewrite run_bind. unfold try_except.
  rewrite run_bind. unfold call. by rewrite Hshow.
Qed.

(** X1. When CKAN does not know the dataset, [main_job] logs
    ["dataset not found: <id>"] and returns normally: the only outside call
    is the [package_show], no file is touched. *)
Theorem main_job_dataset_not_found (env : environment) (arguments : options)
    (dataset : string) (resources_mapping : yaml) (w : world) (message : string) :
  package_show env (w_trace w) dataset = Raise (NotFound message) ->
  main_job env arguments dataset resources_mapping w =
    (Ok tt,
     w_emit (EvLog ERROR ("dataset not found: " +:+ dataset))
       (w_emit (EvPackageShow dataset) w)).
Proof. apply main_job_not_found_run. Qed.

Lemma main_job_dataset_not_found_example :
  main_job Example.ex_env Example.ex_args "parks"
    (YMap [("csv", YStr "/parks.csv")]) Example.w0 =
    (Ok tt,
     w_emit (EvLog ERROR ("dataset not found: " +:+ "parks"))
       (w_emit (EvPackageShow "parks") Example.w0)).
Proof.
  apply (main_job_dataset_not_found Example.ex_env Example.ex_args "parks"
           (YMap [("csv", YStr "/parks.csv")]) Example.w0 "parks").
  reflexivity.
Defined.

(** X2. Only [NotFound] is handled: any other error of [package_show] (a
    refused or failed call) leaves [main_job] as it is, after the call and
    without a log line. *)
Theorem main_job_show_error_propagates (env : environment) (arguments : options)
    (dataset : string) (resources_mapping : yaml) (w : world) (e : exn) :
  package_show env (w_trace w) dataset = Raise e ->
  (forall message, e <> NotFound message) ->
  main_job env arguments dataset resources_mapping w =
    (Raise e, w_emit (EvPackageShow dataset) w).
Proof.
  intros Hshow Hother. unfold main_job. rewrite run_bind. unfold try_except.
  rewrite run_bind. unfold call. rewrite Hshow.
  destruct e; try reflexivity. by destruct (Hother message).
Qed.

Lemma main_job_show_error_propagates_example :
  main_job Cases.ex_refusing Example.ex_args "parks"
    (YMap [("csv", YStr "/parks.csv")]) Example.w0 =
    (Raise (CKANAPIError "not authorized"),
     w_emit (EvPackageShow "parks") Example.w0).
Proof.
  apply (main_job_show_error_propagates Cases.ex_refusing Example.ex_args
           "parks" (YMap [("csv", YStr "/parks.csv")]) Example.w0
           (CKANAPIError "not authorized")).
  - reflexivity.
  - discriminate.
Defined.

(** X3. A dataset that CKAN does not know does not stop the run over the
    mapping: after the log line the script goes on with the datasets that
    follow. *)
Theorem all_datasets_skips_unknown_dataset (env : environment)
    (arguments : options) (dataset : string) (entry : yaml)
    (rest : list (string * yaml)) (w : world) (message : string) :
  package_show env (w_trace w) dataset = Raise (NotFound message) ->
  all_datasets env arguments (YMap ((dataset, entry) :: rest)) w =
    all_datasets env arguments (YMap rest)
      (w_emit (EvLog ERROR ("dataset not found: " +:+ dataset))
         (w_emit (EvPackageShow dataset) w)).
Proof.
  intros Hshow. unfold all_datasets, iteritems.
  rewrite !run_bind, !run_ret. cbn [for_each].
  by rewrite run_bind, (main_job_not_found_run _ _ _ _ _ message Hshow).
Qed.

Lemma all_datasets_skips_unknown_dataset_example :
  all_datasets Example.ex_env Example.ex_args
    (YMap [("parks", YMap [("csv", YStr "/parks.csv")]);
           ("roads", YMap [("csv", YStr "/roads.csv")])]) Example.w0 =
    all_datasets Example.ex_env Example.ex_args
      (YMap [("roads", YMap [("csv", YStr "/roads.csv")])])
      (w_emit (EvLog ERROR ("dataset not found: " +:+ "parks"))
         (w_emit (EvPackageShow "parks") Example.w0)).
Proof.
  apply (all_datasets_skips_unknown_dataset Example.ex_env Example.ex_args
           "parks" (YMap [("csv", YStr "/parks.csv")])
           [("roads", YMap [("csv", YStr "/roads.csv")])] Example.w0 "parks").
  reflexivity.
Defined.

(** A loop ends at the first turn that raises. *)
Lemma for_each_raises {A : Type} (body : A -> M unit) (before after : list A)
    (x : A) (w w1 w2 : world) (e : exn) :
  for_each before body w = (Ok tt, w1) ->
  body x w1 = (Raise e, w2) ->
  for_each (before ++ x :: after) body w = (Raise e, w2).
Proof.
  revert w. induction before as [|y before IH]; intros w Hbefore Hx.
  - cbn in Hbefore. injection Hbefore as <-. cbn [app for_each].
    by rewrite run_bind, Hx.
  - cbn [app for_each] in *. rewrite run_bind in *.
    destruct (body y w) as [[[]|e'] w'] eqn:Hy; [|done].
    by apply IH.
Qed.

(** X4. Nothing catches what a dataset's [main_job] raises: the run over
    the mapping ends there, in the world that [main_job] left, and the
    datasets that follow in the mapping are not started. *)
Theorem all_datasets_stops_at_error (env : environment) (arguments : options)
    (before after : list (string * yaml)) (dataset : string) (entry : yaml)
    (w w1 w2 : world) (e : exn) :
  all_datasets env arguments (YMap before) w = (Ok tt, w1) ->
  main_job env arguments dataset entry w1 = (Raise e, w2) ->
  all_datasets env arguments (YMap (before ++ (dataset, entry) :: after)) w
    = (Raise e, w2).
Proof.
  unfold all_datasets, iteritems. rewrite !run_bind, !run_ret.
  intros Hbefore Hjob. by eapply for_each_raises.
Qed.

Lemma all_datasets_stops_at_error_example :
  all_datasets Cases.ex_refusing Example.ex_args
    (YMap ([("trees", YMap [("csv", YStr "/trees.csv")])] ++
           ("parks", YMap [("csv", YStr "/parks.csv")]) ::
           [("roads", YMap [("csv", YStr "/roads.csv")])])) Example.w0 =
    (Raise (CKANAPIError "not authorized"),
     w_emit (EvPackageShow "parks")
       (w_emit (EvLog ERROR "dataset not found: trees")
          (w_emit (EvPackageShow "trees") Example.w0))).
Proof.
  apply (all_datasets_stops_at_error Cases.ex_refusing Example.ex_args
           [("trees", YMap [("csv", YStr "/trees.csv")])]
           [("roads", YMap [("csv", YStr "/roads.csv")])]
           "parks" (YMap [("csv", YStr "/parks.csv")]) Example.w0
           (w_emit (EvLog ERROR "dataset not found: trees")
              (w_emit (EvPackageShow "trees") Example.w0))).
  - reflexivity.
  - reflexivity.
Defined.

Lemma datasets_run_app (t1 t2 : list event) :
  datasets_run (t1 ++ t2) = datasets_run t1 ++ datasets_run t2.
Proof.
  induction t1 as [|e t1 IH]; [done|]. destruct e; cbn; by rewrite ?IH.
Qed.

Lemma only_emits_True_main_job (env : environment) (arguments : options)
    (dataset : string) (resources_mapping : yaml) :
  only_emits (fun _ => True) (main_job env arguments dataset resources_mapping).
Proof.
  apply only_emits_main_job; try done. intros package.
  apply only_emits_main_job_formats with (R := fun _ => True); try done.
  intros. apply only_emits_True_main_job_sync.
Qed.

Lemma datasets_run_for_each (env : environment) (arguments : options)
    (items : list (string * yaml)) (w : world) :
  let run := for_each items (fun '(dataset, resources_mapping) =>
               main_job env arguments dataset resources_mapping) in
  datasets_run (events run w) `prefix_of` map fst items /\
  (outcome run w = Ok tt -> datasets_run (events run w) = map fst items).
Proof.
  revert w. induction items as [|[dataset entry] items IH]; intros w run.
  - subst run. unfold events, final, outcome. cbn.
    rewrite drop_all. by split.
  - subst run. cbn [for_each map fst].
    destruct (main_job env arguments dataset entry w) as [[[]|e] w'] eqn:Hjob.
    + rewrite (events_bind _ _ w w' tt); try done.
      * rewrite datasets_run_app, main_job_datasets_run.
        destruct (IH w') as [Hprefix Hall]. split.
        -- by apply prefix_cons.
        -- unfold outcome in *. rewrite run_bind, Hjob. intros Hok.
           cbn. f_equal. by apply Hall.
      * apply only_emits_True_main_job.
      * apply only_emits_for_each. intros [d y].
        apply only_emits_True_main_job.
    + rewrite (events_bind_raise _ _ w w' e Hjob), main_job_datasets_run.
      split.
      * apply prefix_cons, prefix_nil.
      * unfold outcome. by rewrite run_bind, Hjob.
Qed.

(** X5. Without a requested dataset the script starts [main_job] on the
    datasets of the mapping in the mapping's order, each at most once: the
    datasets started are a prefix of the mapping's, and all of them when the
    run completes. *)
Theorem all_datasets_in_order (env : environment) (arguments : options)
    (items : list (string * yaml)) (w : world) :
  datasets_run (events (all_datasets env arguments (YMap items)) w)
    `prefix_of` map fst items /\
  (outcome (all_datasets env arguments (YMap items)) w = Ok tt ->
   datasets_run (events (all_datasets env arguments (YMap items)) w)
     = map fst items).
Proof.
  destruct (datasets_run_for_each env arguments items w) as [Hprefix Hall].
  unfold all_datasets, iteritems, events, final, outcome in *.
  by rewrite !run_bind, !run_ret.
Qed.

(** X6. A dataset requested on the command line that has no entry in the
    mapping raises [KeyError] at the guard of line 184: nothing is run and
    nothing is logged. *)
Theorem driver_unknown_dataset (env : environment) (arguments : options)
    (items : list (string * yaml)) (dataset : string) (w : world) :
  single_dataset arguments = Some dataset ->
  dataset <> "" ->
  assoc dataset items = None ->
  driver env arguments (YMap items) w = (Raise (KeyError dataset), w).
Proof.
  intros Hsingle Hname Hentry. unfold driver. rewrite Hsingle.
  apply String.eqb_neq in Hname. rewrite Hname. cbn [negb].
  rewrite run_bind. unfold yaml_getitem. by rewrite Hentry.
Qed.

Lemma driver_unknown_dataset_example :
  driver Example.ex_env (Example.ex_single "trees")
    (YMap [("roads", YMap [("csv", YStr "/roads.csv")])]) Example.w0
    = (Raise (KeyError "trees"), Example.w0).
Proof.
  apply (driver_unknown_dataset Example.ex_env (Example.ex_single "trees")
           [("roads", YMap [("csv", YStr "/roads.csv")])] "trees" Example.w0);
    first [ reflexivity | discriminate ].
Defined.

(** X7. Nothing catches what the turn of a format raises either: the loop
    of [main_job] ends there, and the formats that follow in the dataset's
    entry are not processed. *)
Theorem main_job_formats_stops_at_error (env : environment)
    (arguments : options) (package : package) (items : list (string * yaml))
    (existing_formats before after : list string) (resource_format : string)
    (w w1 w2 : world) (e : exn) :
  outcome (map_M lowered_format (pkg_resources package)) w
    = Ok existing_formats ->
  map fst items = before ++ resource_format :: after ->
  for_each before
    (main_job_body env arguments package existing_formats (YMap items)) w
    = (Ok tt, w1) ->
  main_job_body env arguments package existing_formats (YMap items)
    resource_format w1 = (Raise e, w2) ->
  main_job_formats env arguments package (YMap items) w = (Raise e, w2).
Proof.
  intros Hexisting Hkeys Hbefore Hturn.
  rewrite (main_job_formats_loop env arguments package items existing_formats
             w w Hexisting), Hkeys.
  by eapply for_each_raises.
Qed.

Lemma main_job_formats_stops_at_error_example :
  main_job_formats Example.ex_env Example.ex_args Example.roads
    (YMap [("csv", YStr "/nodate.csv"); ("kml", YStr "/roads.kml")])
    Example.w0 =
    (Raise (UnboundLocalError "date_modified"),
     w_emit (EvLog ERROR
               "Could not determine last modified date of http://gis/nodate.csv")
       (w_emit (EvHead "http://gis/nodate.csv") Example.w0)).
Proof.
  apply (main_job_formats_stops_at_error Example.ex_env Example.ex_args
           Example.roads
           [("csv", YStr "/nodate.csv"); ("kml", YStr "/roads.kml")]
           ["csv"; "csv"; "shp"] [] ["kml"] "csv" Example.w0 Example.w0);
    reflexivity.
Defined.

(** ** The location of the source *)

Lemma get_import_url_single_run (env : environment) (arguments : options)
    (resource : gmap string pyval) (items : list (string * yaml))
    (format path : string) (w : world) :
  resource !! "format" = Some (PStr format) ->
  Str.lower format <> "shp" ->
  assoc (Str.lower format) items = Some (YStr path) ->
  get_import_url env arguments resource (YMap items) w
    = (Ok (base_import_url arguments +:+ path), w).
Proof.
  intros Hformat Hshp Hpath. apply String.eqb_neq in Hshp.
  unfold get_import_url, getitem, py_lower, yaml_getitem.
  rewrite Hformat. run. rewrite Hpath. run. rewrite Hshp. by run.
Qed.

(** X8. For an ASCII format other than the bundle format the source is
    the GIS repository's address followed by the (ASCII) path mapped to
    the resource's lower-cased format; nothing is called and nothing
    changes. *)
Theorem get_import_url_single_file (env : environment) (arguments : options)
    (resource : gmap string pyval) (items : list (string * yaml))
    (format path : string) (w : world) :
  resource !! "format" = Some (PStr format) ->
  Str.is_ascii format = true ->
  Str.lower format <> "shp" ->
  assoc (Str.lower format) items = Some (YStr path) ->
  Str.is_ascii path = true ->
  get_import_url env arguments resource (YMap items) w
    = (Ok (base_import_url arguments +:+ path), w).
Proof.
  intros Hformat _ Hshp Hpath _.
  by apply (get_import_url_single_run env arguments resource items format).
Qed.

Lemma get_import_url_single_file_example :
  get_import_url Example.ex_env Example.ex_args Example.roads_csv
    (YMap [("csv", YStr "/roads.csv")]) Example.w0
    = (Ok ("http://gis" +:+ "/roads.csv"), Example.w0).
Proof.
  apply (get_import_url_single_file Example.ex_env Example.ex_args
           Example.roads_csv [("csv", YStr "/roads.csv")] "CSV" "/roads.csv"
           Example.w0); first [ reflexivity | discriminate ].
Defined.




(** X10. A resource whose format is ASCII and, once lower-cased, has no
    entry in the dataset's mapping makes [get_import_url] raise [KeyError]
    on that lower-cased format; nothing was called. *)
Theorem get_import_url_unmapped_format (env : environment) (arguments : options)
    (resource : gmap string pyval) (items : list (string * yaml))
    (format : string) (w : world) :
  resource !! "format" = Some (PStr format) ->
  Str.is_ascii format = true ->
  assoc (Str.lower format) items = None ->
  get_import_url env arguments resource (YMap items) w
    = (Raise (KeyError (Str.lower format)), w).
Proof.
  intros Hformat _ Hnone. unfold get_import_url, getitem, py_lower, yaml_getitem.
  rewrite Hformat. run. by rewrite Hnone.
Qed.

Lemma get_import_url_unmapped_format_example :
  get_import_url Example.ex_env Example.ex_args Cases.roads_shx
    (YMap [("csv", YStr "/roads.csv")]) Example.w0
    = (Raise (KeyError (Str.lower "shx")), Example.w0).
Proof.
  apply (get_import_url_unmapped_format Example.ex_env Example.ex_args
           Cases.roads_shx [("csv", YStr "/roads.csv")] "shx" Example.w0);
    reflexivity.
Defined.

(** X11. A bundle needs a sub-file named [shp]: without it
    [get_import_url] raises [KeyError] on ['shp'], before anything is
    probed or fetched. *)
Theorem get_import_url_bundle_without_shp (env : environment)
    (arguments : options) (resource : gmap string pyval)
    (items sub_files : list (string * yaml)) (format : string) (w : world) :
  resource !! "format" = Some (PStr format) ->
  Str.lower format = "shp" ->
  assoc "shp" items = Some (YMap sub_files) ->
  assoc "shp" sub_files = None ->
  get_import_url env arguments resource (YMap items) w
    = (Raise (KeyError "shp"), w).
Proof.
  intros Hformat Hshp Hbundle Hnone.
  unfold get_import_url, getitem, py_lower, yaml_getitem.
  rewrite Hformat. run. rewrite Hshp, Hbundle. run. by rewrite Hnone.
Qed.

Lemma get_import_url_bundle_without_shp_example :
  get_import_url Example.ex_env Example.ex_args Example.roads_shp
    (YMap [("shp", YMap [("dbf", YStr "/b.dbf")])]) Example.w0
    = (Raise (KeyError "shp"), Example.w0).
Proof.
  apply (get_import_url_bundle_without_shp Example.ex_env Example.ex_args
           Example.roads_shp [("shp", YMap [("dbf", YStr "/b.dbf")])]
           [("dbf", YStr "/b.dbf")] "SHP" Example.w0); reflexivity.
Defined.

(** ** Formats that are not written in lower case *)

Lemma lower_ascii_idempotent (c : ascii) :
  Str.lower_ascii (Str.lower_ascii c) = Str.lower_ascii c.
Proof. destruct c as [[] [] [] [] [] [] [] []]; reflexivity. Qed.

Lemma lower_idempotent (s : string) : Str.lower (Str.lower s) = Str.lower s.
Proof.
  induction s as [|c s IH]; [done|]. cbn.
  by rewrite lower_ascii_idempotent, IH.
Qed.

Lemma existing_formats_lowered (resources : list (gmap string pyval))
    (existing_formats : list string) (key : string) :
  Forall2 (fun x format => lowered_format_of x = Some format)
    resources existing_formats ->
  py_in key existing_formats = true ->
  Str.lower key = key.
Proof.
  induction 1 as [|x format l formats Hx _ IH]; [done|].
  unfold py_in. cbn [existsb]. intros [Hkey|Hin]%orb_true_iff.
  - apply String.eqb_eq in Hkey as ->. unfold lowered_format_of in Hx.
    destruct (x !! "format") as [[| | |s|]|]; try done.
    injection Hx as <-. apply lower_idempotent.
  - by apply IH.
Qed.

(** X12. The formats of the existing resources are compared in lower case
    with the mapping's key as it is written: an ASCII key that is not in
    lower case matches no resource, whatever the resources of the package
    (whose name is ASCII) are.  Its turn of the
    loop asks CKAN for a new placeholder, in every run; and when CKAN
    answers with the format it was given and the mapping has no entry for
    the lower-cased key, the turn ends in [KeyError] once the placeholder is
    made. *)
Theorem mixed_case_key_creates_placeholder (env : environment)
    (arguments : options) (package : package)
    (existing_formats : list string) (items : list (string * yaml))
    (key : string) (w0 w : world) :
  outcome (map_M lowered_format (pkg_resources package)) w0
    = Ok existing_formats ->
  Str.is_ascii key = true ->
  Str.is_ascii (py_str env (pkg_name package)) = true ->
  Str.lower key <> key ->
  let args :=
    placeholder_args env package key
      {| wall := clock env (w_ticks w); tzinfo := None |} in
  py_in key existing_formats = false /\
  (exists rest,
     events (main_job_body env arguments package existing_formats (YMap items)
               key) w = EvResourceCreate args :: rest) /\
  (forall resource,
     resource_create env (w_trace w) args = Ok resource ->
     resource !! "format" = Some (PStr key) ->
     assoc (Str.lower key) items = None ->
     outcome (main_job_body env arguments package existing_formats (YMap items)
                key) w = Raise (KeyError (Str.lower key)) /\
     events (main_job_body env arguments package existing_formats (YMap items)
               key) w = [EvResourceCreate args]).
Proof.
  intros Hexisting _ _ Hkey args.
  apply existing_formats_spec in Hexisting.
  assert (Hmissing : py_in key existing_formats = false).
  { destruct (py_in key existing_formats) eqn:Hin; [|done].
    by destruct Hkey; eapply existing_formats_lowered. }
  assert (Hrun := main_job_body_placeholder_run env arguments package
                    existing_formats (YMap items) key w Hmissing).
  cbv zeta in Hrun. fold args in Hrun.
  set (w1 := {| w_trace := w_trace w ++ [EvResourceCreate args];
                w_files := w_files w; w_dirs := w_dirs w;
                w_ticks := S (w_ticks w) |}) in *.
  split; [done|]. split.
  - unfold events, final. rewrite Hrun.
    destruct (resource_create env (w_trace w) args) as [resource|e].
    + destruct (only_emits_True_main_job_sync env arguments resource
                  (YMap items) w1) as (rest & Htrace & _).
      exists rest. unfold final in Htrace. rewrite Htrace. cbn.
      by rewrite <- app_assoc, drop_app_length.
    + exists []. cbn. by rewrite drop_app_length.
  - intros resource Hcreate Hformat Hnone.
    assert (Hsync : main_job_sync env arguments resource (YMap items) w1
                    = (Raise (KeyError (Str.lower key)), w1)).
    { unfold main_job_sync. rewrite run_bind.
      unfold get_import_url, getitem, py_lower, yaml_getitem.
      rewrite Hformat. run. by rewrite Hnone. }
    unfold outcome, events, final. rewrite Hrun, Hcreate, Hsync. split; [done|].
    cbn. by rewrite drop_app_length.
Qed.

Lemma mixed_case_key_creates_placeholder_example :
  let args :=
    placeholder_args Example.ex_env Example.roads "CSV"
      {| wall := clock Example.ex_env (w_ticks Example.w0); tzinfo := None |} in
  py_in "CSV" ["csv"; "csv"; "shp"] = false /\
  (exists rest,
     events (main_job_body Example.ex_env Example.ex_args Example.roads
               ["csv"; "csv"; "shp"] (YMap [("CSV", YStr "/roads.csv")])
               "CSV") Example.w0 = EvResourceCreate args :: rest) /\
  (forall resource,
     resource_create Example.ex_env (w_trace Example.w0) args = Ok resource ->
     resource !! "format" = Some (PStr "CSV") ->
     assoc (Str.lower "CSV") [("CSV", YStr "/roads.csv")] = None ->
     outcome (main_job_body Example.ex_env Example.ex_args Example.roads
                ["csv"; "csv"; "shp"] (YMap [("CSV", YStr "/roads.csv")])
                "CSV") Example.w0 = Raise (KeyError (Str.lower "CSV")) /\
     events (main_job_body Example.ex_env Example.ex_args Example.roads
               ["csv"; "csv"; "shp"] (YMap [("CSV", YStr "/roads.csv")])
               "CSV") Example.w0 = [EvResourceCreate args]).
Proof.
  apply (mixed_case_key_creates_placeholder Example.ex_env Example.ex_args
           Example.roads ["csv"; "csv"; "shp"] [("CSV", YStr "/roads.csv")]
           "CSV" Example.w0 Example.w0); first [ reflexivity | discriminate ].
Defined.

(** ** Fetching and publishing *)

(** X13. A fetch that is answered 200 with a content type is staged: the
    body is written to the file, whatever the content type, and
    [download_temp_file] returns [True] after this one GET. *)
Theorem download_stages_the_body (env : environment)
    (resource_path file_name : string) (w : world) (r : response) :
  requests_get env (w_trace w) resource_path = Ok r ->
  status_code r = 200%Z ->
  is_Some (headers r !! "content-type") ->
  Str.dirname file_name ∈ w_dirs w -> file_name ∉ w_dirs w ->
  download_temp_file env resource_path file_name w
    = (Ok true,
       w_write file_name (FBytes (content r)) (w_emit (EvGet resource_path) w)).
Proof. apply download_temp_file_fetched. Qed.

Lemma download_stages_the_body_example :
  download_temp_file Example.ex_env "http://gis/b.dbf"
    "temp_data/roads_shp/roads.dbf" Example.w_left_over
    = (Ok true,
       w_write "temp_data/roads_shp/roads.dbf"
         (FBytes (content {| status_code := 200;
                             headers := {[ "content-type" := "text/csv" ]};
                             content := "bytes of http://gis/b.dbf" |}))
         (w_emit (EvGet "http://gis/b.dbf") Example.w_left_over)).
Proof.
  apply (download_stages_the_body Example.ex_env "http://gis/b.dbf"
           "temp_data/roads_shp/roads.dbf" Example.w_left_over
           {| status_code := 200;
              headers := {[ "content-type" := "text/csv" ]};
              content := "bytes of http://gis/b.dbf" |}).
  - reflexivity.
  - reflexivity.
  - eexists. apply lookup_singleton_eq.
  - by vm_compute.
  - by vm_compute.
Defined.

(** X14. An answer 200 that carries no content-type header makes
    [download_temp_file] raise [KeyError] after the GET: the body is not
    written. *)
Theorem download_without_content_type (env : environment)
    (resource_path file_name : string) (w : world) (r : response) :
  requests_get env (w_trace w) resource_path = Ok r ->
  status_code r = 200%Z ->
  headers r !! "content-type" = None ->
  download_temp_file env resource_path file_name w
    = (Raise (KeyError "content-type"), w_emit (EvGet resource_path) w).
Proof.
  intros Hget Hstatus Htype. unfold download_temp_file.
  rewrite run_bind. unfold call. rewrite Hget, Hstatus. cbn [Z.eqb Pos.eqb].
  by rewrite Htype.
Qed.

Lemma download_without_content_type_example :
  download_temp_file Cases.ex_refusing "http://gis/b.dbf" "roads.dbf"
    Example.w0
    = (Raise (KeyError "content-type"),
       w_emit (EvGet "http://gis/b.dbf") Example.w0).
Proof.
  apply (download_without_content_type Cases.ex_refusing "http://gis/b.dbf"
           "roads.dbf" Example.w0
           {| status_code := 200; headers := ∅; content := "bytes" |});
    reflexivity.
Defined.

(** X15. What [upload_file_to_resource] sends to CKAN is the resource as it
    was, but for two keys: [upload] is the file it was given, under the
    name [<name>.<format>] (followed by [.zip] for the bundle format), and
    [last_modified] is the current time as [strftime] writes it.  The name
    and the format are ASCII. *)
Theorem upload_sends_the_resource_stamped (env : environment)
    (resource : gmap string pyval) (file_object : fcontent) (w : world)
    (name : pyval) (format : string) :
  resource !! "name" = Some name ->
  resource !! "format" = Some (PStr format) ->
  Str.is_ascii (py_str env name) = true ->
  Str.is_ascii format = true ->
  let filename :=
    if String.eqb (Str.lower format) "shp"
    then py_str env name +:+ "." +:+ format +:+ ".zip"
    else py_str env name +:+ "." +:+ format in
  exists (updated : gmap string pyval) (rest : list event),
    events (upload_file_to_resource env resource file_object) w
      = EvResourceUpdate updated :: rest /\
    updated !! "upload" = Some (PUpload filename file_object) /\
    updated !! "last_modified" =
      Some (PStr (strftime env
                    {| wall := clock env (w_ticks w); tzinfo := None |})) /\
    (forall k, k <> "upload" -> k <> "last_modified" ->
               updated !! k = resource !! k).
Proof.
  intros Hname Hformat _ _ filename. eexists _, _. split; [|split; [|split]].
  - by eapply upload_file_to_resource_run.
  - by rewrite lookup_insert_ne, lookup_insert_eq.
  - by rewrite lookup_insert_eq.
  - intros k Hupload Hstamp. by rewrite !lookup_insert_ne.
Qed.

Lemma upload_sends_the_resource_stamped_example :
  exists (updated : gmap string pyval) (rest : list event),
    events (upload_file_to_resource Example.ex_env Example.roads_csv
              (FBytes "data")) Example.w0
      = EvResourceUpdate updated :: rest /\
    updated !! "upload" = Some (PUpload "roads.CSV" (FBytes "data")) /\
    updated !! "last_modified" =
      Some (PStr (strftime Example.ex_env
                    {| wall := clock Example.ex_env (w_ticks Example.w0);
                       tzinfo := None |})) /\
    (forall k, k <> "upload" -> k <> "last_modified" ->
               updated !! k = Example.roads_csv !! k).
Proof.
  apply (upload_sends_the_resource_stamped Example.ex_env Example.roads_csv
           (FBytes "data") Example.w0 (PStr "roads") "CSV"); reflexivity.
Defined.







(** ** The staleness check, further *)

(** X19. A last-modified header that does not parse is not handled like a
    missing one: the parser's error leaves [get_import_file_date] after
    the probe, and nothing is logged. *)
Theorem unparseable_header_propagates (env : environment)
    (import_file : string) (w : world) (head : response) (s : string)
    (e : exn) :
  requests_head env (w_trace w) import_file = Ok head ->
  status_code head <> 404%Z ->
  headers head !! "last-modified" = Some s ->
  parse env (PStr s) = Raise e ->
  (forall key, e <> KeyError key) ->
  get_import_file_date env import_file w
    = (Raise e, w_emit (EvHead import_file) w).
Proof.
  intros Hhead Hstatus Hheader Hparse Hother.
  unfold get_import_file_date. rewrite run_bind. unfold call. rewrite Hhead.
  apply Z.eqb_neq in Hstatus. rewrite Hstatus.
  rewrite run_bind. unfold try_except. rewrite run_bind, Hheader, run_ret.
  rewrite run_bind. unfold lift. rewrite Hparse.
  destruct e; try reflexivity. by destruct (Hother key).
Qed.

Lemma unparseable_header_propagates_example :
  get_import_file_date Cases.ex_refusing "http://gis/roads.csv" Example.w0
    = (Raise ValueError, w_emit (EvHead "http://gis/roads.csv") Example.w0).
Proof.
  apply (unparseable_header_propagates Cases.ex_refusing
           "http://gis/roads.csv" Example.w0
           {| status_code := 200;
              headers := {[ "last-modified" := "yesterday" ]};
              content := "" |} "yesterday" ValueError);
    first [ reflexivity | discriminate ].
Defined.

(** X20. A stored [last_modified] that is truthy and does not parse makes
    [out_of_date] raise the parser's error, after the probe; [created] is
    not tried in its place, and [--force] does not help. *)
Theorem unparseable_stored_timestamp_propagates (env : environment)
    (arguments : options) (resource : gmap string pyval) (import_file : string)
    (w : world) (head : response) (s : string) (remote : datetime)
    (last_modified : pyval) (e : exn) :
  requests_head env (w_trace w) import_file = Ok head ->
  status_code head <> 404%Z ->
  headers head !! "last-modified" = Some s ->
  parse env (PStr s) = Ok remote ->
  resource !! "last_modified" = Some last_modified ->
  truthy last_modified = true ->
  parse env last_modified = Raise e ->
  out_of_date env arguments resource import_file w
    = (Raise e, w_emit (EvHead import_file) w).
Proof.
  intros Hhead Hstatus Hheader Hparse Hlm Htruthy Hfails.
  unfold out_of_date. rewrite run_bind.
  rewrite (get_import_file_date_found env import_file w head s remote) by done.
  unfold getitem. rewrite Hlm, run_bind, run_ret, Htruthy.
  rewrite !run_bind, run_ret. unfold lift. by rewrite Hfails.
Qed.

Lemma unparseable_stored_timestamp_propagates_example :
  out_of_date Example.ex_env Example.ex_forced Cases.garbled_csv
    "http://gis/trees.csv" Example.w0
    = (Raise ValueError, w_emit (EvHead "http://gis/trees.csv") Example.w0).
Proof.
  apply (unparseable_stored_timestamp_propagates Example.ex_env
           Example.ex_forced Cases.garbled_csv "http://gis/trees.csv"
           Example.w0
           {| status_code := 200;
              headers := {[ "last-modified" := Example.t_new ]};
              content := "" |}
           Example.t_new {| wall := 200; tzinfo := Some 0%Z |}
           (PStr "yesterday") ValueError);
    first [ reflexivity | discriminate ].
Defined.

Lemma out_of_date_keeps_files (env : environment) (arguments : options)
    (resource : gmap string pyval) (import_file : string) (w : world) :
  w_files (final (out_of_date env arguments resource import_file) w) = w_files w /\
  w_dirs (final (out_of_date env arguments resource import_file) w) = w_dirs w.
Proof.
  unfold final, out_of_date, get_import_file_date, getitem, now. run.
  repeat (case_match; simplify_eq; run; try done).
Qed.

Lemma out_of_date_trace (env : environment) (arguments : options)
    (resource : gmap string pyval) (import_file : string) (w : world) :
  exists rest : list event,
    w_trace (final (out_of_date env arguments resource import_file) w)
      = w_trace w ++ EvHead import_file :: rest /\
    Forall is_log_line rest /\
    length rest <= 1.
Proof.
  unfold final, out_of_date, get_import_file_date, getitem, now. run.
  repeat (case_match; simplify_eq; run);
    rewrite <- ?app_assoc; cbn [app];
    eexists; (split; [reflexivity|]); split;
    repeat constructor.
Qed.

(** X21. The staleness check only looks: whatever the resource and the
    answers, [out_of_date] makes one HEAD probe of the import file, first,
    and logs at most one line after it (no fetch, no call to CKAN), and it
    leaves the local files and directories as they were. *)
Theorem out_of_date_only_probes (env : environment) (arguments : options)
    (resource : gmap string pyval) (import_file : string) (w : world) :
  (exists rest : list event,
     events (out_of_date env arguments resource import_file) w
       = EvHead import_file :: rest /\
     Forall is_log_line rest /\
     length rest <= 1) /\
  w_files (final (out_of_date env arguments resource import_file) w) = w_files w /\
  w_dirs (final (out_of_date env arguments resource import_file) w) = w_dirs w.
Proof.
  split; [|apply out_of_date_keeps_files].
  destruct (out_of_date_trace env arguments resource import_file w)
    as (rest & Htrace & Hlogs & Hlength).
  exists rest. split; [by apply events_spec | done].
Qed.

Lemma out_of_date_found_trace (env : environment) (arguments : options)
    (resource : gmap string pyval) (import_file : string) (w : world)
    (head : response) (s : string) (remote reference : datetime) :
  requests_head env (w_trace w) import_file = Ok head ->
  status_code head <> 404%Z ->
  headers head !! "last-modified" = Some s ->
  parse env (PStr s) = Ok remote ->
  reference_timestamp env resource (clock env (w_ticks w)) = Some reference ->
  w_trace (final (out_of_date env arguments resource import_file) w)
    = w_trace w ++ [EvHead import_file].
Proof.
  intros Hhead Hstatus Hheader Hparse Href.
  unfold final, out_of_date. rewrite run_bind.
  rewrite (get_import_file_date_found env import_file w head s remote) by done.
  unfold reference_timestamp in Href. unfold getitem.
  destruct (resource !! "last_modified") as [lm|] eqn:Hlm; [|done].
  rewrite run_bind, run_ret.
  destruct (truthy lm).
  - rewrite !run_bind, run_ret.
    unfold lift. destruct (parse env lm) as [dt|]; [|done].
    run. by destruct (_ || _).
  - destruct (resource !! "created") as [cr|] eqn:Hcr; [|done].
    rewrite !run_bind, run_ret.
    destruct (truthy cr).
    + rewrite !run_bind, run_ret.
      unfold lift. destruct (parse env cr) as [dt|]; [|done].
      run. by destruct (_ || _).
    + unfold now. run. by destruct (_ || _).
Qed.

(** X22. A resource that is up to date is left alone: when the source's
    timestamp is not later than the resource's reference timestamp and
    [--force] is not set, the synchronisation of the resource is the HEAD
    probe and nothing else: no log line, no fetch, no update, no file
    written, in a dry run or not. *)
Theorem up_to_date_resource_is_left_alone (env : environment)
    (arguments : options) (resource : gmap string pyval) (mapping : yaml)
    (import_file : string) (w : world) (head : response) (s : string)
    (remote reference : datetime) :
  outcome (get_import_url env arguments resource mapping) w = Ok import_file ->
  requests_head env (w_trace w) import_file = Ok head ->
  status_code head <> 404%Z ->
  headers head !! "last-modified" = Some s ->
  parse env (PStr s) = Ok remote ->
  reference_timestamp env resource (clock env (w_ticks w)) = Some reference ->
  (wall remote <= wall reference)%Z ->
  force arguments = false ->
  outcome (main_job_sync env arguments resource mapping) w = Ok tt /\
  events (main_job_sync env arguments resource mapping) w = [EvHead import_file] /\
  w_files (final (main_job_sync env arguments resource mapping) w) = w_files w.
Proof.
  intros Hurl Hhead Hstatus Hheader Hparse Href Hle Hforce.
  assert (Hstale := out_of_date_found env arguments resource import_file w
                      head s remote reference Hhead Hstatus Hheader Hparse Href).
  assert (Htrace := out_of_date_found_trace env arguments resource import_file
                      w head s remote reference Hhead Hstatus Hheader Hparse Href).
  destruct (out_of_date_keeps_files env arguments resource import_file w)
    as [Hfiles _].
  rewrite Hforce, orb_false_r in Hstale.
  apply Z.ltb_ge in Hle. rewrite Hle in Hstale.
  unfold outcome, events, final in *. unfold main_job_sync.
  rewrite run_bind, get_import_url_run. unfold outcome. rewrite Hurl.
  rewrite run_bind.
  destruct (out_of_date env arguments resource import_file w) as [stale w'].
  cbn in Hstale, Htrace, Hfiles. subst stale. cbn.
  rewrite Htrace, drop_app_length. by repeat split.
Qed.

Lemma up_to_date_resource_is_left_alone_example :
  let mapping := YMap [("csv", YStr "/trees.csv")] in
  outcome (main_job_sync Example.ex_env Example.ex_args Cases.fresh_csv
             mapping) Example.w0 = Ok tt /\
  events (main_job_sync Example.ex_env Example.ex_args Cases.fresh_csv
            mapping) Example.w0 = [EvHead "http://gis/trees.csv"] /\
  w_files (final (main_job_sync Example.ex_env Example.ex_args Cases.fresh_csv
                    mapping) Example.w0) = w_files Example.w0.
Proof.
  apply (up_to_date_resource_is_left_alone Example.ex_env Example.ex_args
           Cases.fresh_csv (YMap [("csv", YStr "/trees.csv")])
           "http://gis/trees.csv" Example.w0
           {| status_code := 200;
              headers := {[ "last-modified" := Example.t_new ]};
              content := "" |}
           Example.t_new {| wall := 200; tzinfo := Some 0%Z |}
           {| wall := 200; tzinfo := Some 0%Z |});
    first [ reflexivity | discriminate | by vm_compute ].
Defined.

(** ** The paths of a bundle *)

Lemma starts_with_slash_cons (c : ascii) (s t : string) :
  Str.starts_with_slash (String c s +:+ t) = Str.is_slash c.
Proof. reflexivity. Qed.

(** X23. Whatever the name of the resource, the archive of a bundle is
    written outside the staging directory that is archived: the archive is
    never one of its own entries. *)
Theorem archive_is_outside_the_staging_directory (n : string) :
  Str.is_prefix (Str.path_join "temp_data" (n +:+ "_shp") +:+ "/")
    (Str.path_join "temp_data" (n +:+ ".shp.zip")) = false.
Proof.
  destruct n as [|c n]; [reflexivity|].
  unfold Str.path_join. rewrite !starts_with_slash_cons.
  destruct (Str.is_slash c).
  - rewrite !append_assoc. by rewrite !is_prefix_append.
  - cbn [String.eqb orb Str.ends_with_slash].
    change (Str.is_slash "a") with false. cbv iota.
    rewrite !append_assoc. by rewrite !is_prefix_append.
Qed.

(** X24. The archive that [import_shapefile] publishes is flat, and the
    staging directory is never emptied: no entry's name has a directory
    part, and a file that an earlier run left below the staging directory
    and that is not the staged file of a sub-file of this bundle is an
    entry of the archive again, under its base name and with the content
    it had.  The names that are formatted are ASCII. *)
Theorem archive_is_flat_and_takes_left_overs (env : environment)
    (arguments : options) (resource : gmap string pyval) (n format : string)
    (mapping_items items : list (string * yaml)) (w : world) :
  resource !! "name" = Some (PStr n) ->
  Str.has_slash n = false ->
  resource !! "format" = Some (PStr format) ->
  assoc "shp" mapping_items = Some (YMap items) ->
  Forall sub_file_ok items ->
  NoDup (map fst items) ->
  Forall (fun s => Str.is_ascii s = true)
    (n :: format :: base_import_url arguments :: map fst items) ->
  fetches_answered env (base_import_url arguments) items ->
  staging_ready w n ->
  let filename :=
    if String.eqb (Str.lower format) "shp"
    then n +:+ "." +:+ format +:+ ".zip" else n +:+ "." +:+ format in
  exists (entries : list (string * fcontent)) (updated : gmap string pyval)
         (rest : list event),
    events (import_shapefile env arguments resource (YMap mapping_items)) w
      = map (sub_file_fetch (base_import_url arguments)) items
          ++ EvResourceUpdate updated :: rest /\
    updated !! "upload" = Some (PUpload filename (FZip entries)) /\
    Forall (fun entry => Str.has_slash entry.1 = false) entries /\
    (forall (p : string) (c : fcontent),
       Str.is_prefix (staging_dir n +:+ "/") p = true ->
       w_files w !! p = Some c ->
       (forall k, k ∈ map fst items -> p <> staged_file n k) ->
       (Str.basename p, c) ∈ entries).
Proof.
  intros Hname Hn Hformat Hshp Hitems Hnodup _ Hanswered Hready filename.
  destruct (import_shapefile_archive env arguments resource n Hname Hn
              mapping_items items w Hshp Hitems Hnodup Hanswered Hready)
    as (w1 & entries & Hrun & Htrace & Hticks & Hstaged & Hother & Harchive
          & paths & Hpaths & Hin & Hentries).
  assert (Hevents := upload_file_to_resource_run env resource (FZip entries)
                       w1 (PStr n) format Hname Hformat).
  cbv zeta in Hevents. cbn [py_str] in Hevents. fold filename in Hevents.
  eexists entries, _, _. split; [|split; [|split]].
  - apply events_spec. unfold final. rewrite Hrun.
    assert (Hupload := only_emits_trace _ w1
              (only_emits_True_upload_file_to_resource env resource
                 (FZip entries))).
    unfold final in Hupload.
    rewrite Hupload, Hevents, Htrace, <- app_assoc. reflexivity.
  - by rewrite lookup_insert_ne, lookup_insert_eq.
  - by eapply entries_of_paths_flat.
  - intros p c Hbelow Hfile Hleft.
    assert (Hp : p ∈ paths).
    { apply Hin. split; [done|]. rewrite Hother; [by eexists | | done].
      intros ->. by rewrite archive_file_not_below in Hbelow. }
    apply list_elem_of_lookup in Hp as [i Hi].
    destruct (Forall2_lookup_l _ _ _ _ _ Hentries Hi)
      as ([name c'] & Hentry & Hbase & Hcontent).
    cbn in Hbase, Hcontent. subst name.
    rewrite Hother in Hcontent;
      [| by intros ->; rewrite archive_file_not_below in Hbelow | done].
    rewrite Hfile in Hcontent. simplify_eq.
    by eapply list_elem_of_lookup_2.
Qed.

Lemma archive_is_flat_and_takes_left_overs_example :
  let items := [("shp", YStr "/b.shp"); ("dbf", YStr "/b.dbf")] in
  exists (entries : list (string * fcontent)) (updated : gmap string pyval)
         (rest : list event),
    events (import_shapefile Example.ex_env Example.ex_args Example.roads_shp
              Example.bundle_of_two) Example.w_left_over
      = map (sub_file_fetch "http://gis") items
          ++ EvResourceUpdate updated :: rest /\
    updated !! "upload" = Some (PUpload "roads.SHP.zip" (FZip entries)) /\
    Forall (fun entry => Str.has_slash entry.1 = false) entries /\
    (forall (p : string) (c : fcontent),
       Str.is_prefix (staging_dir "roads" +:+ "/") p = true ->
       w_files Example.w_left_over !! p = Some c ->
       (forall k, k ∈ map fst items -> p <> staged_file "roads" k) ->
       (Str.basename p, c) ∈ entries).
Proof.
  apply (archive_is_flat_and_takes_left_overs Example.ex_env Example.ex_args
           Example.roads_shp "roads" "SHP"
           [("shp", YMap [("shp", YStr "/b.shp"); ("dbf", YStr "/b.dbf")])]
           [("shp", YStr "/b.shp"); ("dbf", YStr "/b.dbf")]
           Example.w_left_over).
  - reflexivity.
  - reflexivity.
  - reflexivity.
  - reflexivity.
  - repeat constructor; by eexists.
  - apply (bool_decide_unpack _). reflexivity.
  - repeat constructor.
  - intros h item _. cbn. unfold Example.ex_get.
    destruct (String.eqb _ _); eexists; (split; [reflexivity|]); cbn.
    + discriminate.
    + intros _. eexists. apply lookup_singleton_eq.
  - split; [left|split]; cbn.
    + split; apply elem_of_union; [right | left]; by apply elem_of_singleton.
    + intros p Hp. rewrite elem_of_union, !elem_of_singleton.
      intros [-> | ->]; discriminate.
    + rewrite elem_of_union, !elem_of_singleton. intros [? | ?]; discriminate.
Defined.

(** ** The synchronisation of a stale resource *)

Lemma main_job_sync_stale_run (env : environment) (arguments : options)
    (resource : gmap string pyval) (mapping : yaml) (import_file : string)
    (w : world) :
  outcome (get_import_url env arguments resource mapping) w = Ok import_file ->
  outcome (out_of_date env arguments resource import_file) w = Ok true ->
  main_job_sync env arguments resource mapping w =
    (if debug arguments
     then url ← getitem resource "url";
          logging INFO ("Would refresh " +:+ py_str env url)
     else perform_import env arguments resource mapping)
      (final (out_of_date env arguments resource import_file) w).
Proof.
  intros Hurl Hstale. unfold main_job_sync.
  rewrite run_bind, get_import_url_run, Hurl, run_bind.
  unfold outcome, final in *.
  destruct (out_of_date env arguments resource import_file w) as [stale w'].
  cbn in *. by subst stale.
Qed.



(** X26. Outside a dry run a stale resource is imported right after the
    probe: the synchronisation is [perform_import], run in the world the
    staleness check left, whose trace has the HEAD probe and no more. *)
Theorem stale_resource_is_imported (env : environment) (arguments : options)
    (resource : gmap string pyval) (mapping : yaml) (import_file : string)
    (w : world) (head : response) (s : string) (remote reference : datetime) :
  debug arguments = false ->
  outcome (get_import_url env arguments resource mapping) w = Ok import_file ->
  requests_head env (w_trace w) import_file = Ok head ->
  status_code head <> 404%Z ->
  headers head !! "last-modified" = Some s ->
  parse env (PStr s) = Ok remote ->
  reference_timestamp env resource (clock env (w_ticks w)) = Some reference ->
  (wall reference < wall remote)%Z \/ force arguments = true ->
  exists w' : world,
    main_job_sync env arguments resource mapping w
      = perform_import env arguments resource mapping w' /\
    w_trace w' = w_trace w ++ [EvHead import_file] /\
    w_files w' = w_files w /\ w_dirs w' = w_dirs w.
Proof.
  intros Hdebug Hurl Hhead Hstatus Hheader Hparse Href Hstale.
  assert (Hout := out_of_date_found env arguments resource import_file w
                    head s remote reference Hhead Hstatus Hheader Hparse Href).
  assert (Htrue : (wall reference <? wall remote)%Z || force arguments = true).
  { apply orb_true_iff. destruct Hstale as [Hlt|Hforce]; [left|by right].
    by apply Z.ltb_lt. }
  rewrite Htrue in Hout.
  exists (final (out_of_date env arguments resource import_file) w).
  split; [|split].
  - rewrite (main_job_sync_stale_run env arguments resource mapping
               import_file w Hurl Hout). by rewrite Hdebug.
  - by eapply out_of_date_found_trace.
  - apply out_of_date_keeps_files.
Qed.

Lemma stale_resource_is_imported_example :
  let mapping := YMap [("csv", YStr "/roads.csv")] in
  exists w' : world,
    main_job_sync Example.ex_env Example.ex_args Example.roads_csv mapping
      Example.w0
      = perform_import Example.ex_env Example.ex_args Example.roads_csv
          mapping w' /\
    w_trace w' = w_trace Example.w0 ++ [EvHead "http://gis/roads.csv"] /\
    w_files w' = w_files Example.w0 /\ w_dirs w' = w_dirs Example.w0.
Proof.
  apply (stale_resource_is_imported Example.ex_env Example.ex_args
           Example.roads_csv (YMap [("csv", YStr "/roads.csv")])
           "http://gis/roads.csv" Example.w0
           {| status_code := 200;
              headers := {[ "last-modified" := Example.t_new ]};
              content := "" |}
           Example.t_new {| wall := 200; tzinfo := Some 0%Z |}
           {| wall := 100; tzinfo := None |});
    first [ reflexivity | discriminate | by left ].
Defined.
